(** * meshoptimizer (Python package): array codec, single-asset file and
      zip bundles

    A shallow embedding of [python/meshoptimizer/arrayutils.py],
    [python/meshoptimizer/ziputils.py] and of [Mesh.decode] from
    [python/meshoptimizer/__init__.py], together with the properties the
    specification states about them.

    Conventions.
    - A Python [bytes] object is a [list byte]; a Python [str] is a Rocq
      [string] holding the UTF-8 encoding of the text, so that
      [s.encode('utf-8')] is the list of its bytes and [len(s)] counts code
      points ([py_len]).
    - A Python [int] is a [Z].
    - The file system is a map from paths to contents, in which every path
      can be written; an archive is the list of its entries under the names
      they were written with, which is what [zipfile] keeps for the names of
      [entry_name_ok].
    - A call that may raise returns a [result]; the exception value keeps its
      class and, for an exception raised inside an [except] block, the
      exception being handled (Python's [__context__]).  Message texts are not
      modelled.
    - The native codec, the [json] module, the [zipfile] container format and
      the mesh decoder are collaborators of the package: each is an interface
      (a type class), and a property that relies on one of them says so in a
      hypothesis about the values at hand. *)

From Stdlib Require Import ZArith Lia List String Ascii Bool.
From Stdlib Require Import Strings.Byte DecimalString.
From Stdlib Require Import SpecFloat.
From stdpp Require Import base option list gmap strings.

Local Open Scope string_scope.
Local Open Scope list_scope.
Local Open Scope Z_scope.

Abbreviation bytes := (list byte).

(** ** Exceptions and results *)

(** The exception classes that the modelled code raises or lets through.
    [ValueError] and [OSError] (of which [IOError] is an alias) are the two
    classes the package raises from inside an [except] block; they carry the
    handled exception as context.  [IllTyped] is not a Python exception: it
    marks a value that leaves the typed model (the source would build the
    record with a field of another type and fail, if at all, at its first
    use). *)
#[warnings="-register-all"]
Inductive exn : Type :=
| ValueError (context : option exn)
| OSError (context : option exn)
| FileNotFoundError
| RuntimeError
| TypeError
| AttributeError
| KeyError (key : string)
| IndexError
| MemoryError
| BadZipFile
| JSONDecodeError
| UnicodeDecodeError
| StructError
| IllTyped.

Inductive result (A : Type) : Type :=
| Ok (a : A)
| Raise (e : exn).
Arguments Ok {A} a.
Arguments Raise {A} e.

#[global] Instance result_ret : MRet result := fun A a => Ok a.
#[global] Instance result_bind : MBind result :=
  fun A B f m => match m with Ok a => f a | Raise e => Raise e end.
#[global] Instance result_fmap : FMap result :=
  fun A B f m => match m with Ok a => Ok (f a) | Raise e => Raise e end.

(** [try: m except h]: every exception of [m] goes to the handler [h]. *)
Definition try_except {A} (m : result A) (h : exn -> result A) : result A :=
  match m with Ok a => Ok a | Raise e => h e end.

(** The error taxonomy of the specification, read off the exception class. *)
Inductive error_kind :=
| EncodingOrDecodingError | ValidationError | NotFoundError | FormatError
| AggregateFailure | OtherError.

Definition kind_of (e : exn) : error_kind :=
  match e with
  | ValueError _ => ValidationError
  | OSError _ => AggregateFailure
  | FileNotFoundError => NotFoundError
  | RuntimeError => EncodingOrDecodingError
  | BadZipFile | JSONDecodeError | UnicodeDecodeError | StructError => FormatError
  | TypeError | AttributeError | KeyError _ | IndexError | MemoryError | IllTyped =>
      OtherError
  end.

(** A state-and-exception monad for code that works on an open file, an open
    archive or the file system: the state is the content so far (or what is
    left to read), and it is kept when the code raises. *)
Definition handle (S A : Type) : Type := S -> S * result A.

#[global] Instance handle_ret {S} : MRet (handle S) := fun A a s => (s, Ok a).
#[global] Instance handle_bind {S} : MBind (handle S) :=
  fun A B k m s => match m s with
                   | (s', Ok a) => k a s'
                   | (s', Raise e) => (s', Raise e)
                   end.

(** A call that may raise but writes nothing. *)
Definition lift {S A} (m : result A) : handle S A := fun s => (s, m).

(** ** Bytes, text and [struct] *)

Definition byte_of_Z (n : Z) : byte :=
  match Byte.of_N (Z.to_N (n mod 256)) with
  | Some b => b
  | None => x00
  end.

Definition Z_of_byte (b : byte) : Z := Z.of_N (Byte.to_N b).

(** Four bytes, least significant first. *)
Definition le32 (n : Z) : bytes :=
  [byte_of_Z n; byte_of_Z (n / 2 ^ 8); byte_of_Z (n / 2 ^ 16); byte_of_Z (n / 2 ^ 24)].

(** [struct.pack('<I', n)]; [struct.error] outside [0, 2^32). *)
Definition struct_pack_I (n : Z) : result bytes :=
  if (0 <=? n) && (n <? 2 ^ 32) then Ok (le32 n) else Raise StructError.

(** [struct.unpack('<I', b)[0]]: [struct.error] unless [b] has exactly four
    bytes. *)
Definition struct_unpack_I (b : bytes) : result Z :=
  match b with
  | [b0; b1; b2; b3] =>
      Ok (Z_of_byte b0 + 2 ^ 8 * Z_of_byte b1 + 2 ^ 16 * Z_of_byte b2 + 2 ^ 24 * Z_of_byte b3)
  | _ => Raise StructError
  end.

(** UTF-8 (RFC 3629): well-formed byte sequences.  With [surrogatepass],
    the encodings of the surrogates U+D800 to U+DFFF are accepted too. *)
Definition in_range (lo hi : Z) (b : byte) : bool :=
  (lo <=? Z_of_byte b) && (Z_of_byte b <=? hi).

Fixpoint utf8_valid (surrogatepass : bool) (bs : bytes) : bool :=
  let utf8_valid := utf8_valid surrogatepass in
  match bs with
  | [] => true
  | b0 :: r0 =>
      if in_range 0 127 b0 then utf8_valid r0
      else if in_range 194 223 b0 then
        match r0 with
        | b1 :: r1 => in_range 128 191 b1 && utf8_valid r1
        | _ => false
        end
      else if in_range 224 239 b0 then
        match r0 with
        | b1 :: b2 :: r2 =>
            in_range (if in_range 224 224 b0 then 160 else 128)
                     (if in_range 237 237 b0 && negb surrogatepass then 159 else 191) b1
            && in_range 128 191 b2 && utf8_valid r2
        | _ => false
        end
      else if in_range 240 244 b0 then
        match r0 with
        | b1 :: b2 :: b3 :: r3 =>
            in_range (if in_range 240 240 b0 then 144 else 128)
                     (if in_range 244 244 b0 then 143 else 191) b1
            && in_range 128 191 b2 && in_range 128 191 b3 && utf8_valid r3
        | _ => false
        end
      else false
  end.

(** [s.encode('utf-8')]. *)
Definition str_encode (s : string) : bytes := list_byte_of_string s.

(** [b.decode('utf-8')], and [b.decode('utf-8', 'surrogatepass')]. *)
Definition bytes_decode (surrogatepass : bool) (b : bytes) : result string :=
  if utf8_valid surrogatepass b then Ok (string_of_list_byte b)
  else Raise UnicodeDecodeError.

(** [len(s)] for a [str]: the number of code points, that is of bytes that
    are not continuation bytes. *)
Definition py_len (s : string) : Z :=
  Z.of_nat (length (filter (fun b => negb (in_range 128 191 b)) (str_encode s))).

Definition is_ascii (s : string) : bool :=
  forallb (in_range 0 127) (str_encode s).

(** ** The data model *)

(** The element types of the arrays the package is used with. *)
Inductive numpy_dtype :=
| int8 | int16 | int32 | int64
| uint8 | uint16 | uint32 | uint64
| float32 | float64.

#[global] Instance numpy_dtype_eq_dec : EqDecision numpy_dtype.
Proof. solve_decision. Defined.

(** [str(dtype)]. *)
Definition dtype_str (d : numpy_dtype) : string :=
  match d with
  | int8 => "int8" | int16 => "int16" | int32 => "int32" | int64 => "int64"
  | uint8 => "uint8" | uint16 => "uint16" | uint32 => "uint32" | uint64 => "uint64"
  | float32 => "float32" | float64 => "float64"
  end.

Definition all_dtypes : list numpy_dtype :=
  [int8; int16; int32; int64; uint8; uint16; uint32; uint64; float32; float64].

(** [np.dtype(name)] on a type name as [str(dtype)] writes it; [TypeError]
    ("data type not understood") for any other text.  numpy's further
    spellings of the same types ("f4", "<i8", ...) are not modelled. *)
Definition np_dtype (name : string) : result numpy_dtype :=
  match find (fun d => String.eqb (dtype_str d) name) all_dtypes with
  | Some d => Ok d
  | None => Raise TypeError
  end.

(** [class EncodedArray] of arrayutils.py. *)
Record EncodedArray := {
  data : bytes;
  shape : list Z;
  dtype : numpy_dtype;
  itemsize : Z
}.

(** [class EncodedMesh] of data.py. *)
Record EncodedMesh := {
  vertices : bytes;
  indices : option bytes;
  vertex_count : Z;
  vertex_size : Z;
  index_count : option Z;
  index_size : Z
}.

(** ** JSON values and Python dictionaries *)

(** What [json.dumps] writes and [json.loads] returns.  A [dict] is the list
    of its items in insertion order; a [tuple] is written as a [list] is.
    [JOpaque] stands for any Python object that [json] cannot serialise. *)
#[warnings="-register-all"]
Inductive json : Type :=
| JNull
| JBool (b : bool)
| JInt (n : Z)
| JStr (s : string)
| JArr (items : list json)
| JObj (members : list (string * json))
| JOpaque.

(** [d.get(k)] and [d[k] = v] on the items of a [dict]. *)
Fixpoint dict_get {V} (k : string) (d : list (string * V)) : option V :=
  match d with
  | [] => None
  | (k', v) :: d' => if String.eqb k k' then Some v else dict_get k d'
  end.

Fixpoint dict_set {V} (k : string) (v : V) (d : list (string * V)) : list (string * V) :=
  match d with
  | [] => [(k, v)]
  | (k', v') :: d' =>
      if String.eqb k k' then (k, v) :: d' else (k', v') :: dict_set k v d'
  end.

(** [metadata[k]] on a loaded JSON value: [KeyError] for a dictionary
    without the key, [TypeError] for a value that is not a dictionary. *)
Definition py_getitem (j : json) (k : string) : result json :=
  match j with
  | JObj d => match dict_get k d with Some v => Ok v | None => Raise (KeyError k) end
  | _ => Raise TypeError
  end.

(** [metadata.get(k)]: [None] for an absent key. *)
Definition py_get (j : json) (k : string) : result json :=
  match j with
  | JObj d => Ok (default JNull (dict_get k d))
  | _ => Raise AttributeError
  end.

(** Reading a loaded value into a typed field of a record. *)
Definition as_int (j : json) : result Z :=
  match j with JInt n => Ok n | _ => Raise IllTyped end.

Definition as_optional_int (j : json) : result (option Z) :=
  match j with JNull => Ok None | JInt n => Ok (Some n) | _ => Raise IllTyped end.

Fixpoint ints_of_json (l : list json) : option (list Z) :=
  match l with
  | [] => Some []
  | JInt n :: r => match ints_of_json r with Some t => Some (n :: t) | None => None end
  | _ :: _ => None
  end.

(** [tuple(v)] for the [shape] entry: a JSON array of integers. *)
Definition as_int_tuple (j : json) : result (list Z) :=
  match j with
  | JArr l =>
      match ints_of_json l with
      | Some t => Ok t
      | None => Raise IllTyped
      end
  | JNull | JBool _ | JInt _ | JOpaque => Raise TypeError
  | JStr _ | JObj _ => Raise IllTyped
  end.

(** [np.dtype(v)] for the [dtype] entry; [np.dtype(None)] is float64. *)
Definition as_dtype (j : json) : result numpy_dtype :=
  match j with
  | JStr s => np_dtype s
  | JNull => Ok float64
  | _ => Raise TypeError
  end.

(** The [json] module. [json_dumps indent v] is [json.dumps(v)] for
    [indent = None] and [json.dumps(v, indent=n)] for [Some n]. *)
Class JsonLib := {
  json_dumps : option nat -> json -> result string;
  json_loads : string -> result json
}.

(** [json.loads(b)] and [json.load(f)] on bytes: the text is decoded first,
    as UTF-8 with [surrogatepass] (the detection of UTF-16 and UTF-32 input
    is not modelled). *)
Definition json_loads_bytes `{JsonLib} (b : bytes) : result json :=
  s ← bytes_decode true b; json_loads s.

(** ** Files and zip archives *)

(** The file system: the content of each existing path. *)
Abbreviation filesystem := (gmap string bytes).

(** [with open(path, 'wb') as f: body]: the file is created or truncated, and
    holds what the body wrote when the block is left, also by an exception. *)
Definition with_open_wb {A} (path : string) (body : handle bytes A)
  : handle filesystem A :=
  fun fs => let '(content, r) := body [] in (<[path := content]> fs, r).

Definition f_write (b : bytes) : handle bytes unit :=
  fun content => (content ++ b, Ok tt).

(** [with open(path, 'rb') as f: body]: the state of the body is what is left
    to read. *)
Definition with_open_rb {A} (path : string) (body : handle bytes A)
  (fs : filesystem) : result A :=
  match fs !! path with
  | None => Raise FileNotFoundError
  | Some content => snd (body content)
  end.

(** [f.read(n)] returns at most [n] bytes; [f.read()] and a negative [n]
    return the rest of the file. *)
Definition f_read (n : Z) : handle bytes bytes :=
  fun rest =>
    if n <? 0 then ([], Ok rest)
    else (drop (Z.to_nat n) rest, Ok (take (Z.to_nat n) rest)).

Definition f_read_all : handle bytes bytes := fun rest => ([], Ok rest).

(** A zip archive: its entries in the order they were written. *)
Abbreviation archive := (list (string * bytes)).

(** The zip container format of [zipfile]: the bytes of an archive, and the
    archive of a well-formed container ([None]: [BadZipFile]). *)
Class ZipLib := {
  zip_image : archive -> bytes;
  zip_parse : bytes -> option archive
}.

(** [with zipfile.ZipFile(path, 'w', ZIP_DEFLATED) as zipf: body]: the archive
    is closed with the entries written so far when the block is left, also by
    an exception. *)
Definition with_zip_w `{ZipLib} {A} (path : string) (body : handle archive A)
  : handle filesystem A :=
  fun fs => let '(z, r) := body [] in (<[path := zip_image z]> fs, r).

(** [zipf.writestr(name, data)].  The last character of the name is looked
    at first, which an empty name does not have ([IndexError]); [data] that
    is [None] has no length ([TypeError]).  The entry is stored under the
    name as it is given: see [entry_name_ok] for the names of which this is
    true. *)
Definition writestr (name : string) (d : option bytes) : handle archive unit :=
  fun z =>
    match name with
    | EmptyString => (z, Raise IndexError)
    | String _ _ =>
        match d with
        | Some b => (z ++ [(name, b)], Ok tt)
        | None => (z, Raise TypeError)
        end
    end.

(** The names under which [zipfile] stores an entry and finds it again: a
    text that is not empty, has no NUL character, at which [ZipInfo] cuts a
    name, does not end in a slash, which marks a directory, and has at most
    65535 bytes, the most that the length field of an entry header holds. *)
Definition entry_name_ok (name : string) : bool :=
  negb (String.eqb name "")
  && utf8_valid false (str_encode name)
  && forallb (fun b => negb (Byte.eqb b x00)) (str_encode name)
  && negb (match rev (str_encode name) with b :: _ => Byte.eqb b x2f | [] => false end)
  && (Z.of_nat (length (str_encode name)) <=? 65535).

(** [zipf.writestr(name, text)]: a [str] is stored UTF-8 encoded. *)
Definition writestr_text (name : string) (text : string) : handle archive unit :=
  writestr name (Some (str_encode text)).

(** [with zipfile.ZipFile(path, 'r') as zipf: body]. *)
Definition with_zip_r `{ZipLib} {A} (path : string) (body : archive -> result A)
  (fs : filesystem) : result A :=
  match fs !! path with
  | None => Raise FileNotFoundError
  | Some content =>
      match zip_parse content with
      | None => Raise BadZipFile
      | Some z => body z
      end
  end.

(** [zipf.read(name)] and [zipf.open(name).read()]: the entry written last
    under that name, [KeyError] when there is none. *)
Definition zip_read (z : archive) (name : string) : result bytes :=
  match dict_get name (rev z) with
  | Some b => Ok b
  | None => Raise (KeyError name)
  end.

Definition namelist (z : archive) : list string := z.*1.

Definition in_namelist (name : string) (z : archive) : bool :=
  existsb (String.eqb name) (namelist z).

(** ** SingleAssetFile: arrayutils.py, lines 132-188 *)

(** The metadata dictionary of [save_encoded_array_to_file] and
    [save_encoded_array_to_zip]. *)
Definition array_metadata (e : EncodedArray) : json :=
  JObj [("shape", JArr (map JInt (shape e)));
        ("dtype", JStr (dtype_str (dtype e)));
        ("itemsize", JInt (itemsize e))].

Definition save_encoded_array_to_file `{JsonLib} (encoded_array : EncodedArray)
  (file_path : string) : handle filesystem unit :=
  metadata_json ← lift (json_dumps None (array_metadata encoded_array));
  with_open_wb file_path (
    prefix ← lift (struct_pack_I (py_len metadata_json));
    _ ← f_write prefix;
    _ ← f_write (str_encode metadata_json);
    f_write (data encoded_array)).

(** [EncodedArray(data=..., shape=tuple(metadata["shape"]),
    dtype=np.dtype(metadata["dtype"]), itemsize=metadata["itemsize"])]. *)
Definition make_encoded_array (encoded_data : bytes) (metadata : json)
  : result EncodedArray :=
  sh ← py_getitem metadata "shape" ≫= as_int_tuple;
  dt ← py_getitem metadata "dtype" ≫= as_dtype;
  sz ← py_getitem metadata "itemsize" ≫= as_int;
  Ok {| data := encoded_data; shape := sh; dtype := dt; itemsize := sz |}.

Definition load_encoded_array_from_file `{JsonLib} (file_path : string)
  (fs : filesystem) : result EncodedArray :=
  '(metadata, encoded_data) ← with_open_rb file_path (
      prefix ← f_read 4;
      metadata_length ← lift (struct_unpack_I prefix);
      region ← f_read metadata_length;
      metadata_json ← lift (bytes_decode false region);
      metadata ← lift (json_loads metadata_json);
      encoded_data ← f_read_all;
      mret (metadata, encoded_data)) fs;
  make_encoded_array encoded_data metadata.

(** ** ArchiveBundler, single mesh: ziputils.py, lines 17-94 *)

(** The metadata dictionary of [save_encoded_mesh_to_zip]: [index_count] is
    added only when it is not [None]. *)
Definition mesh_metadata (encoded_mesh : EncodedMesh) : list (string * json) :=
  let metadata :=
    [("vertex_count", JInt (vertex_count encoded_mesh));
     ("vertex_size", JInt (vertex_size encoded_mesh));
     ("index_size", JInt (index_size encoded_mesh))] in
  match index_count encoded_mesh with
  | Some n => dict_set "index_count" (JInt n) metadata
  | None => metadata
  end.

Definition save_encoded_mesh_to_zip `{JsonLib} `{ZipLib} (encoded_mesh : EncodedMesh)
  (zip_path vertices_filename indices_filename metadata_filename : string)
  : handle filesystem unit :=
  let metadata := mesh_metadata encoded_mesh in
  with_zip_w zip_path (
    _ ← writestr vertices_filename (Some (vertices encoded_mesh));
    _ ← match indices encoded_mesh with
        | Some i => writestr indices_filename (Some i)
        | None => mret tt
        end;
    text ← lift (json_dumps (Some 2%nat) (JObj metadata));
    writestr_text metadata_filename text).

Definition load_encoded_mesh_from_zip `{JsonLib} `{ZipLib}
  (zip_path vertices_filename indices_filename metadata_filename : string)
  (fs : filesystem) : result EncodedMesh :=
  with_zip_r zip_path (fun zipf =>
    metadata ← zip_read zipf metadata_filename ≫= json_loads_bytes;
    v ← zip_read zipf vertices_filename;
    i ← (if in_namelist indices_filename zipf
         then Some <$> zip_read zipf indices_filename
         else Ok None);
    vc ← py_getitem metadata "vertex_count" ≫= as_int;
    vs ← py_getitem metadata "vertex_size" ≫= as_int;
    ic ← py_get metadata "index_count" ≫= as_optional_int;
    isz ← py_getitem metadata "index_size" ≫= as_int;
    Ok {| vertices := v; indices := i; vertex_count := vc; vertex_size := vs;
          index_count := ic; index_size := isz |}) fs.

(** The default entry names of the single-mesh layout. *)
Definition save_encoded_mesh_to_zip_default `{JsonLib} `{ZipLib}
  (encoded_mesh : EncodedMesh) (zip_path : string) : handle filesystem unit :=
  save_encoded_mesh_to_zip encoded_mesh zip_path "vertices.bin" "indices.bin" "metadata.json".

Definition load_encoded_mesh_from_zip_default `{JsonLib} `{ZipLib}
  (zip_path : string) (fs : filesystem) : result EncodedMesh :=
  load_encoded_mesh_from_zip zip_path "vertices.bin" "indices.bin" "metadata.json" fs.

(** ** ArchiveBundler, combined bundle: ziputils.py, lines 147-298 *)

Definition optional_int (o : option Z) : json :=
  match o with Some n => JInt n | None => JNull end.

(** The mesh metadata of the combined bundle: [index_count] is always a
    member, [null] when it is [None]. *)
Definition combined_mesh_metadata (encoded_mesh : EncodedMesh) : json :=
  JObj [("vertex_count", JInt (vertex_count encoded_mesh));
        ("vertex_size", JInt (vertex_size encoded_mesh));
        ("index_count", optional_int (index_count encoded_mesh));
        ("index_size", JInt (index_size encoded_mesh))].

(** The loop over [encoded_arrays.items()] of [save_combined_data_to_zip]. *)
Fixpoint write_encoded_arrays (arrays_dir : string)
  (items : list (string * EncodedArray)) (arrays_metadata : list (string * json))
  : handle archive (list (string * json)) :=
  match items with
  | [] => mret arrays_metadata
  | (name, encoded_array) :: rest =>
      _ ← writestr (arrays_dir +:+ "/" +:+ name +:+ ".bin") (Some (data encoded_array));
      write_encoded_arrays arrays_dir rest
        (dict_set name (array_metadata encoded_array) arrays_metadata)
  end.

(** The body of the [with] block of [save_combined_data_to_zip]. *)
Definition write_combined_bundle `{JsonLib} (encoded_mesh : EncodedMesh)
  (encoded_arrays : list (string * EncodedArray)) (metadata : option json)
  (mesh_dir arrays_dir : string) : handle archive unit :=
  _ ← writestr (mesh_dir +:+ "/vertices.bin") (Some (vertices encoded_mesh));
  _ ← writestr (mesh_dir +:+ "/indices.bin") (indices encoded_mesh);
  text ← lift (json_dumps (Some 2%nat) (combined_mesh_metadata encoded_mesh));
  _ ← writestr_text (mesh_dir +:+ "/metadata.json") text;
  arrays_metadata ← write_encoded_arrays arrays_dir encoded_arrays [];
  text ← lift (json_dumps (Some 2%nat) (JObj arrays_metadata));
  _ ← writestr_text (arrays_dir +:+ "/metadata.json") text;
  match metadata with
  | Some general =>
      text ← lift (json_dumps (Some 2%nat) general);
      writestr_text "metadata.json" text
  | None => mret tt
  end.

(** [try: body except Exception as e: raise IOError(...)] around a body that
    works on the file system. *)
Definition reraise_as_IOError {A} (body : handle filesystem A) : handle filesystem A :=
  fun fs =>
    match body fs with
    | (fs', Ok a) => (fs', Ok a)
    | (fs', Raise e) => (fs', Raise (OSError (Some e)))
    end.

Definition save_combined_data_to_zip `{JsonLib} `{ZipLib}
  (encoded_mesh : option EncodedMesh) (encoded_arrays : list (string * EncodedArray))
  (metadata : option json) (zip_path mesh_dir arrays_dir : string)
  : handle filesystem bool :=
  match encoded_mesh with
  | None => lift (Raise (ValueError None))
  | Some encoded_mesh =>
      match encoded_arrays with
      | [] => lift (Raise (ValueError None))
      | _ =>
          reraise_as_IOError (
            _ ← with_zip_w zip_path
                  (write_combined_bundle encoded_mesh encoded_arrays metadata
                     mesh_dir arrays_dir);
            mret true)
      end
  end.

(** [arrays_metadata.items()]: a value that is not a dictionary has no such
    attribute. *)
Definition py_items (j : json) : result (list (string * json)) :=
  match j with JObj d => Ok d | _ => Raise AttributeError end.

(** The loop over [arrays_metadata.items()] of [load_combined_data_from_zip]. *)
Fixpoint read_encoded_arrays (zipf : archive) (arrays_dir : string)
  (items : list (string * json)) (encoded_arrays : list (string * EncodedArray))
  : result (list (string * EncodedArray)) :=
  match items with
  | [] => Ok encoded_arrays
  | (name, metadata) :: rest =>
      array_data ← zip_read zipf (arrays_dir +:+ "/" +:+ name +:+ ".bin");
      encoded_array ← make_encoded_array array_data metadata;
      read_encoded_arrays zipf arrays_dir rest (dict_set name encoded_array encoded_arrays)
  end.

(** The three parts of the [with] block of [load_combined_data_from_zip]:
    the mesh, the arrays, the general metadata. *)
Definition read_combined_mesh `{JsonLib} (zipf : archive) (mesh_dir : string)
  : result EncodedMesh :=
  mesh_vertices_data ← zip_read zipf (mesh_dir +:+ "/vertices.bin");
  mesh_indices_data ← zip_read zipf (mesh_dir +:+ "/indices.bin");
  mesh_metadata ← zip_read zipf (mesh_dir +:+ "/metadata.json") ≫= json_loads_bytes;
  vc ← py_getitem mesh_metadata "vertex_count" ≫= as_int;
  vs ← py_getitem mesh_metadata "vertex_size" ≫= as_int;
  ic ← py_getitem mesh_metadata "index_count" ≫= as_optional_int;
  isz ← py_getitem mesh_metadata "index_size" ≫= as_int;
  Ok {| vertices := mesh_vertices_data; indices := Some mesh_indices_data;
        vertex_count := vc; vertex_size := vs;
        index_count := ic; index_size := isz |}.

Definition read_combined_arrays `{JsonLib} (zipf : archive) (arrays_dir : string)
  : result (list (string * EncodedArray)) :=
  arrays_metadata ← zip_read zipf (arrays_dir +:+ "/metadata.json") ≫= json_loads_bytes;
  items ← py_items arrays_metadata;
  read_encoded_arrays zipf arrays_dir items [].

Definition read_general_metadata `{JsonLib} (zipf : archive) : result (option json) :=
  try_except (Some <$> (zip_read zipf "metadata.json" ≫= json_loads_bytes))
    (fun e => match e with KeyError _ => Ok None | _ => Raise e end).

Definition read_combined_bundle `{JsonLib} (zipf : archive) (mesh_dir arrays_dir : string)
  : result (EncodedMesh * list (string * EncodedArray) * option json) :=
  encoded_mesh ← read_combined_mesh zipf mesh_dir;
  encoded_arrays ← read_combined_arrays zipf arrays_dir;
  general_metadata ← read_general_metadata zipf;
  Ok (encoded_mesh, encoded_arrays, general_metadata).

Definition load_combined_data_from_zip `{JsonLib} `{ZipLib}
  (zip_path mesh_dir arrays_dir : string) (fs : filesystem)
  : result (EncodedMesh * list (string * EncodedArray) * option json) :=
  if bool_decide (fs !! zip_path = None) then Raise FileNotFoundError
  else
    try_except
      (with_zip_r zip_path (fun zipf => read_combined_bundle zipf mesh_dir arrays_dir) fs)
      (fun e =>
         match e with
         | BadZipFile => Raise (ValueError (Some e))
         | KeyError _ => Raise (ValueError (Some e))
         | _ => Raise (OSError (Some e))
         end).

(** ** [Mesh.decode]: __init__.py, lines 240-283 *)

(** The decoder module and the numpy calls of [Mesh.__init__], which the
    package imports. *)
Class MeshDecoder := {
  vertex_array : Type;
  index_array : Type;
  decode_mesh : EncodedMesh -> result (vertex_array * option index_array);
  decode_vertex_buffer : Z -> Z -> option bytes -> result vertex_array;
  decode_index_buffer : Z -> Z -> bytes -> result index_array;
  asarray_float32 : vertex_array -> vertex_array;
  asarray_uint32 : index_array -> index_array;
  vertex_len : vertex_array -> Z;
  index_len : index_array -> Z
}.

Record Mesh `{MeshDecoder} := {
  mesh_vertices : vertex_array;
  mesh_indices : option index_array;
  mesh_vertex_count : Z;
  mesh_index_count : Z
}.

(** [Mesh.__init__]. *)
Definition Mesh_init `{MeshDecoder} (v : vertex_array) (i : option index_array) : Mesh :=
  {| mesh_vertices := asarray_float32 v;
     mesh_indices := asarray_uint32 <$> i;
     mesh_vertex_count := vertex_len v;
     mesh_index_count := match i with Some i => index_len i | None => 0 end |}.

(** The first argument of [Mesh.decode]: an [EncodedMesh] or a dictionary
    whose values are [bytes] or [None]. *)
Inductive encoded_input :=
| AsEncodedMesh (m : EncodedMesh)
| AsDict (d : list (string * option bytes)).

(** [encoded_data[k]] on the legacy dictionary. *)
Definition dict_getitem {V} (d : list (string * V)) (k : string) : result V :=
  match dict_get k d with Some v => Ok v | None => Raise (KeyError k) end.

Definition Mesh_decode `{MeshDecoder} (encoded_data : encoded_input)
  (vertex_count vertex_size index_count : option Z) (index_size : Z) : result Mesh :=
  match encoded_data with
  | AsEncodedMesh m =>
      '(v, i) ← decode_mesh m;
      Ok (Mesh_init v i)
  | AsDict d =>
      match vertex_count, vertex_size with
      | Some vc, Some vs =>
          buf ← dict_getitem d "vertices";
          v ← decode_vertex_buffer vc vs buf;
          entry ← dict_getitem d "indices";
          i ← match entry, index_count with
              | Some ibuf, Some ic => Some <$> decode_index_buffer ic index_size ibuf
              | _, _ => Ok None
              end;
          Ok (Mesh_init v i)
      | _, _ => Raise (ValueError None)
      end
  end.

(** ** ArrayCodec: arrayutils.py, lines 38-130 *)

(** An element of an array: an integer for the integer dtypes, an IEEE 754
    value for float32 and float64. *)
Inductive scalar :=
| SInt (n : Z)
| SFloat (f : spec_float).

(** A numpy array: its shape, its dtype and its elements in row-major
    order, which are the elements of [reshape(-1)].  Of its memory layout
    the model keeps what [encode_array] depends on: [nd_view] is [None] when
    [reshape(-1)] is C-contiguous (the array is, or [reshape] has to copy
    it), so that the memory at its data pointer holds its elements one after
    the other.  Otherwise [reshape(-1)] is a view with a stride of its own
    (a slice with a step, a reversed or a broadcast array), and [nd_view] is
    [Some memory], where [memory k] is the float32 that the four bytes at
    offset [4 * k] from its data pointer hold, inside the buffer of the base
    array or beyond it. *)
Record ndarray := {
  nd_shape : list Z;
  nd_dtype : numpy_dtype;
  nd_flat : list scalar;
  nd_view : option (nat -> spec_float)
}.

(** The native library, called through [ctypes].  The functions write
    through a pointer: the model returns what they store from the start of
    the destination, next to their return value (a [size_t] for the encoder,
    an [int] status for the decoder). *)
Class NativeCodec := {
  meshopt_encodeVertexBufferBound : Z -> Z -> N;
  meshopt_encodeVertexBuffer : N -> list spec_float -> Z -> Z -> N * bytes;
  meshopt_decodeVertexBuffer : Z -> Z -> bytes -> Z -> Z * list spec_float
}.

(** What a destination of fixed length holds after [stored] was written from
    its start. *)
Definition write_into {A} (destination stored : list A) : list A :=
  take (length destination) (stored ++ drop (length stored) destination).

(** The two ways in which [np.zeros] refuses a count that is not negative:
    [ValueError] for an array that is too big to be described, and
    [MemoryError] for one that the machine has no memory for. *)
Inductive allocation_error := TooBig | OutOfMemory.

Definition exn_of_allocation (err : allocation_error) : exn :=
  match err with TooBig => ValueError None | OutOfMemory => MemoryError end.

(** What the machine and the version of numpy decide:
    - the result of a C cast from float to an integer type that cannot hold
      the value, which the C standard leaves open;
    - the product that [np.prod] returns for a tuple with an element outside
      the range of int64, which numpy makes an array of uint64, of Python
      objects or of floats before it multiplies;
    - whether [np.zeros(n, dtype=np.float32)] refuses the count [n]. *)
Class Platform := {
  cast_out_of_range : numpy_dtype -> spec_float -> Z;
  np_prod_wide : list Z -> scalar;
  np_zeros_refused : Z -> option allocation_error
}.

(** Rounding to float32 (24 bits of precision, exponents below 128), to the
    nearest value, ties to even. *)
Definition float32_of_int (n : Z) : spec_float := binary_normalize 24 128 n 0 false.

Definition float32_of_float (f : spec_float) : spec_float :=
  match f with
  | S754_finite s m e => binary_normalize 24 128 (cond_Zopp s (Zpos m)) e s
  | _ => f
  end.

(** An element of [flattened.astype(np.float32)]. *)
Definition astype_float32 (x : scalar) : spec_float :=
  match x with
  | SInt n => float32_of_int n
  | SFloat f => float32_of_float f
  end.

(** An element of an array that is float32 already. *)
Definition float32_item (x : scalar) : spec_float :=
  match x with
  | SFloat f => f
  | SInt n => float32_of_int n
  end.

(** The float64 with the value of a float32. *)
Definition float64_of_float32 (f : spec_float) : spec_float :=
  match f with
  | S754_finite s m e => binary_normalize 53 1024 (cond_Zopp s (Zpos m)) e s
  | _ => f
  end.

(** The integer part of a finite value. *)
Definition trunc_float (f : spec_float) : option Z :=
  match f with
  | S754_zero _ => Some 0
  | S754_finite s m e =>
      Some (cond_Zopp s (if 0 <=? e then Zpos m * 2 ^ e else Zpos m / 2 ^ (- e)))
  | _ => None
  end.

Definition int_range (d : numpy_dtype) : Z * Z :=
  match d with
  | int8 => (- 2 ^ 7, 2 ^ 7 - 1) | int16 => (- 2 ^ 15, 2 ^ 15 - 1)
  | int32 => (- 2 ^ 31, 2 ^ 31 - 1) | int64 => (- 2 ^ 63, 2 ^ 63 - 1)
  | uint8 => (0, 2 ^ 8 - 1) | uint16 => (0, 2 ^ 16 - 1)
  | uint32 => (0, 2 ^ 32 - 1) | uint64 => (0, 2 ^ 64 - 1)
  | float32 | float64 => (0, 0)
  end.

(** An element of [reshaped.astype(dtype)]. *)
Definition astype_from_float32 `{Platform} (d : numpy_dtype) (f : spec_float) : scalar :=
  match d with
  | float32 => SFloat f
  | float64 => SFloat (float64_of_float32 f)
  | _ =>
      match trunc_float f with
      | Some n =>
          if (fst (int_range d) <=? n) && (n <=? snd (int_range d)) then SInt n
          else SInt (cast_out_of_range d f)
      | None => SInt (cast_out_of_range d f)
      end
  end.

(** The float32 items that the native encoder reads at the data pointer of
    [flattened]: the elements of [flattened] when [astype] has made a new
    array or when [reshape(-1)] is contiguous, and otherwise what the memory
    holds there. *)
Definition native_items (array : ndarray) : list spec_float :=
  if bool_decide (nd_dtype array <> float32)
  then map astype_float32 (nd_flat array)
  else
    match nd_view array with
    | None => map float32_item (nd_flat array)
    | Some memory => map memory (seq 0 (length (nd_flat array)))
    end.

Definition encode_array `{NativeCodec} (array : ndarray) : result EncodedArray :=
  let original_shape := nd_shape array in
  let original_dtype := nd_dtype array in
  let flattened :=
    if bool_decide (nd_dtype array <> float32)
    then map astype_float32 (nd_flat array)
    else map float32_item (nd_flat array) in
  let item_count := Z.of_nat (length flattened) in
  let item_size := 4 in
  let bound := meshopt_encodeVertexBufferBound item_count item_size in
  let buffer := replicate (N.to_nat bound) x00 in
  let '(result_size, stored) :=
    meshopt_encodeVertexBuffer bound (native_items array) item_count item_size in
  let buffer := write_into buffer stored in
  if (result_size =? 0)%N then Raise RuntimeError
  else
    Ok {| data := take (N.to_nat result_size) buffer;
          shape := original_shape;
          dtype := original_dtype;
          itemsize := item_size |}.

(** [np.prod(shape)]: the product over an empty tuple is the float 1.0; the
    product of integers that all fit int64 is an int64, with wrap-around;
    any other product is left to the platform. *)
Definition wrap_int64 (n : Z) : Z := (n + 2 ^ 63) mod 2 ^ 64 - 2 ^ 63.

Definition in_int64 (n : Z) : bool := (- 2 ^ 63 <=? n) && (n <? 2 ^ 63).

Definition np_prod `{Platform} (shape : list Z) : scalar :=
  match shape with
  | [] => SFloat (S754_finite false (2 ^ 52) (-52))
  | _ =>
      if forallb in_int64 shape then SInt (wrap_int64 (fold_right Z.mul 1 shape))
      else np_prod_wide shape
  end.

(** [np.zeros(count, dtype=np.float32)]: a count that is a float cannot be
    interpreted as an integer ([TypeError]); a negative one is refused
    ([ValueError]), and so is one that is too big, be it for the description
    of an array ([ValueError]) or for the memory ([MemoryError]). *)
Definition np_zeros_float32 `{Platform} (count : scalar) : result (list spec_float) :=
  match count with
  | SFloat _ => Raise TypeError
  | SInt n =>
      if n <? 0 then Raise (ValueError None)
      else
        match np_zeros_refused n with
        | Some err => Raise (exn_of_allocation err)
        | None => Ok (replicate (Z.to_nat n) (S754_zero false))
        end
  end.

(** [destination.reshape(shape)]: every dimension must fit int64 and the
    dimensions must multiply to the number of elements ([ValueError]
    otherwise); with a negative dimension in [shape] this call fails for
    every size [decode_array] can get here. *)
Definition np_reshape {A} (flat : list A) (shape : list Z) : result (list A) :=
  if forallb in_int64 shape && forallb (Z.leb 0) shape
     && (fold_right Z.mul 1 shape =? Z.of_nat (length flat))
  then Ok flat
  else Raise (ValueError None).

Definition decode_array `{NativeCodec} `{Platform} (encoded_array : EncodedArray)
  : result ndarray :=
  let total_items := np_prod (shape encoded_array) in
  let buffer_array := data encoded_array in
  let float_count := total_items in
  destination ← np_zeros_float32 float_count;
  count ← match total_items with SInt n => Ok n | SFloat _ => Raise TypeError end;
  let '(status, stored) :=
    meshopt_decodeVertexBuffer count (itemsize encoded_array) buffer_array
      (Z.of_nat (length buffer_array)) in
  let destination := write_into destination stored in
  if negb (status =? 0) then Raise RuntimeError
  else
    reshaped ← np_reshape destination (shape encoded_array);
    Ok {| nd_shape := shape encoded_array;
          nd_dtype := dtype encoded_array;
          nd_flat :=
            if bool_decide (dtype encoded_array <> float32)
            then map (astype_from_float32 (dtype encoded_array)) reshaped
            else map SFloat reshaped;
          nd_view := None |}.

(** ** ArchiveBundler, several arrays: arrayutils.py, lines 315-379 *)




(** [zipf.open(v)] for the [filename] entry: an entry name is a [str]. *)
Definition as_str (j : json) : result string :=
  match j with JStr s => Ok s | _ => Raise TypeError end.

(** The loop over [all_metadata.items()] of [load_arrays_from_zip]. *)
Fixpoint read_arrays `{NativeCodec} `{Platform} (zipf : archive)
  (items : list (string * json)) (loaded : list (string * ndarray))
  : result (list (string * ndarray)) :=
  match items with
  | [] => Ok loaded
  | (name, metadata) :: rest =>
      filename ← py_getitem metadata "filename" ≫= as_str;
      data ← zip_read zipf filename;
      encoded_array ← make_encoded_array data metadata;
      array ← decode_array encoded_array;
      read_arrays zipf rest (dict_set name array loaded)
  end.

Definition load_arrays_from_zip `{NativeCodec} `{Platform} `{JsonLib} `{ZipLib}
  (zip_path : string) (fs : filesystem) : result (list (string * ndarray)) :=
  with_zip_r zip_path (fun zipf =>
    all_metadata ← zip_read zipf "metadata.json" ≫= json_loads_bytes;
    items ← py_items all_metadata;
    read_arrays zipf items []) fs.

(** ** A reference [json]

    An executable instance of [JsonLib] that follows the output format of
    [json.dumps] (separators [", "] and [": "], or one member per line with
    [indent]; non-ASCII and control characters escaped) and the grammar
    [json.loads] accepts, for the values of [json]: integers are the only
    numbers.  The examples below run on it. *)
Module RefJson.

Definition quote : ascii := "034"%char.
Definition backslash : ascii := "092"%char.
Definition newline : ascii := "010"%char.

Definition str1 (c : ascii) : string := String c EmptyString.
Definition chr (c : Z) : ascii := ascii_of_nat (Z.to_nat c).
Definition ord (c : ascii) : Z := Z.of_nat (nat_of_ascii c).

(** The code points of a UTF-8 text. *)
Fixpoint code_points (bs : bytes) : list Z :=
  match bs with
  | [] => []
  | b0 :: r0 =>
      let c0 := Z_of_byte b0 in
      if c0 <? 192 then c0 :: code_points r0
      else if c0 <? 224 then
        match r0 with
        | b1 :: r1 => (c0 mod 32 * 64 + Z_of_byte b1 mod 64) :: code_points r1
        | _ => [c0]
        end
      else if c0 <? 240 then
        match r0 with
        | b1 :: b2 :: r2 =>
            (c0 mod 16 * 4096 + Z_of_byte b1 mod 64 * 64 + Z_of_byte b2 mod 64)
            :: code_points r2
        | _ => [c0]
        end
      else
        match r0 with
        | b1 :: b2 :: b3 :: r3 =>
            (c0 mod 8 * 262144 + Z_of_byte b1 mod 64 * 4096
             + Z_of_byte b2 mod 64 * 64 + Z_of_byte b3 mod 64) :: code_points r3
        | _ => [c0]
        end
  end.

Definition utf8_of_code_point (c : Z) : string :=
  if c <? 128 then str1 (chr c)
  else if c <? 2048 then
    String (chr (192 + c / 64)) (str1 (chr (128 + c mod 64)))
  else if c <? 65536 then
    String (chr (224 + c / 4096))
      (String (chr (128 + c / 64 mod 64)) (str1 (chr (128 + c mod 64))))
  else
    String (chr (240 + c / 262144))
      (String (chr (128 + c / 4096 mod 64))
         (String (chr (128 + c / 64 mod 64)) (str1 (chr (128 + c mod 64))))).

Definition hex_digit (n : Z) : ascii :=
  chr (if n <? 10 then 48 + n else 87 + n).

Definition hex4 (n : Z) : string :=
  String (hex_digit (n / 4096 mod 16))
    (String (hex_digit (n / 256 mod 16))
       (String (hex_digit (n / 16 mod 16)) (str1 (hex_digit (n mod 16))))).

Definition escape_u (n : Z) : string := String backslash (String "u" (hex4 n)).

Definition escape_code_point (c : Z) : string :=
  if c =? 34 then String backslash (str1 quote)
  else if c =? 92 then String backslash (str1 backslash)
  else if c =? 10 then String backslash "n"
  else if c =? 13 then String backslash "r"
  else if c =? 9 then String backslash "t"
  else if c =? 8 then String backslash "b"
  else if c =? 12 then String backslash "f"
  else if (32 <=? c) && (c <=? 126) then str1 (chr c)
  else if c <? 65536 then escape_u c
  else escape_u (55296 + (c - 65536) / 1024) +:+ escape_u (56320 + (c - 65536) mod 1024).

Definition dumps_str (s : string) : string :=
  str1 quote
  +:+ String.concat EmptyString (escape_code_point <$> code_points (str_encode s))
  +:+ str1 quote.

Definition dumps_int (n : Z) : string :=
  DecimalString.NilZero.string_of_int (Z.to_int n).

Fixpoint spaces (n : nat) : string :=
  match n with O => EmptyString | S n => String " " (spaces n) end.

Definition line_break (indent : option nat) (level : nat) : string :=
  match indent with
  | None => EmptyString
  | Some n => String newline (spaces (n * level))
  end.

Definition item_separator (indent : option nat) (level : nat) : string :=
  match indent with
  | None => ", "
  | Some _ => "," +:+ line_break indent level
  end.

Definition enclose (indent : option nat) (level : nat) (opening closing : string)
  (texts : list string) : string :=
  match texts with
  | [] => opening +:+ closing
  | _ => opening +:+ line_break indent (S level)
         +:+ String.concat (item_separator indent (S level)) texts
         +:+ line_break indent level +:+ closing
  end.

Fixpoint dumps_at (indent : option nat) (level : nat) (j : json) : result string :=
  match j with
  | JNull => Ok "null"
  | JBool true => Ok "true"
  | JBool false => Ok "false"
  | JInt n => Ok (dumps_int n)
  | JStr s => Ok (dumps_str s)
  | JArr items =>
      texts ← (fix each l : result (list string) :=
                 match l with
                 | [] => Ok []
                 | x :: r => t ← dumps_at indent (S level) x; ts ← each r; Ok (t :: ts)
                 end) items;
      Ok (enclose indent level "[" "]" texts)
  | JObj members =>
      texts ← (fix each l : result (list string) :=
                 match l with
                 | [] => Ok []
                 | (k, x) :: r =>
                     t ← dumps_at indent (S level) x; ts ← each r;
                     Ok ((dumps_str k +:+ ": " +:+ t) :: ts)
                 end) members;
      Ok (enclose indent level "{" "}" texts)
  | JOpaque => Raise TypeError
  end.

Definition dumps (indent : option nat) (j : json) : result string :=
  dumps_at indent 0 j.

(** Parsing. *)
Definition is_ws (c : ascii) : bool :=
  (ord c =? 32) || (ord c =? 9) || (ord c =? 10) || (ord c =? 13).

Fixpoint skip_ws (s : string) : string :=
  match s with
  | String c r => if is_ws c then skip_ws r else s
  | EmptyString => s
  end.

Definition is_digit (c : ascii) : bool := (48 <=? ord c) && (ord c <=? 57).

Fixpoint parse_digits (s : string) (acc : Z) : Z * string :=
  match s with
  | String c r => if is_digit c then parse_digits r (10 * acc + (ord c - 48)) else (acc, s)
  | EmptyString => (acc, s)
  end.

(** An integer: [0], or a non-zero digit and further digits; a fraction or
    an exponent makes a float, which [json] does not hold. *)
Definition parse_nat (s : string) : option (Z * string) :=
  match s with
  | String c r =>
      if negb (is_digit c) then None
      else
        let '(n, rest) := if ord c =? 48 then (0, r) else parse_digits s 0 in
        match rest with
        | String d _ => if (ord d =? 46) || (ord d =? 101) || (ord d =? 69) then None
                        else Some (n, rest)
        | EmptyString => Some (n, rest)
        end
  | EmptyString => None
  end.

Definition hex_value (c : ascii) : option Z :=
  let n := ord c in
  if (48 <=? n) && (n <=? 57) then Some (n - 48)
  else if (97 <=? n) && (n <=? 102) then Some (n - 87)
  else if (65 <=? n) && (n <=? 70) then Some (n - 55)
  else None.

Definition parse_hex4 (s : string) : option (Z * string) :=
  match s with
  | String a (String b (String c (String d r))) =>
      a ← hex_value a; b ← hex_value b; c ← hex_value c; d ← hex_value d;
      Some (a * 4096 + b * 256 + c * 16 + d, r)
  | _ => None
  end.

(** The text of a string after its opening quote, as code points. *)
Fixpoint parse_chars (fuel : nat) (s : string) (acc : list Z) : option (list Z * string) :=
  match fuel with
  | O => None
  | S fuel =>
      match s with
      | EmptyString => None
      | String c r =>
          if ord c =? 34 then Some (rev acc, r)
          else if ord c =? 92 then
            match r with
            | String e r' =>
                if ord e =? 117 then
                  '(n, r'') ← parse_hex4 r'; parse_chars fuel r'' (n :: acc)
                else
                  c' ← (if ord e =? 34 then Some 34 else if ord e =? 92 then Some 92
                        else if ord e =? 47 then Some 47 else if ord e =? 98 then Some 8
                        else if ord e =? 102 then Some 12 else if ord e =? 110 then Some 10
                        else if ord e =? 114 then Some 13 else if ord e =? 116 then Some 9
                        else None);
                  parse_chars fuel r' (c' :: acc)
            | EmptyString => None
            end
          else if ord c <? 32 then None
          else parse_chars fuel r (ord c :: acc)
      end
  end.

(** A high surrogate followed by a low one is one code point. *)
Fixpoint join_surrogates (cs : list Z) : list Z :=
  match cs with
  | hi :: ((lo :: r) as tail) =>
      if (55296 <=? hi) && (hi <? 56320) && (56320 <=? lo) && (lo <? 57344)
      then (65536 + (hi - 55296) * 1024 + (lo - 56320)) :: join_surrogates r
      else hi :: join_surrogates tail
  | _ => cs
  end.

(** Bytes of the text that are not escapes are kept as they are; escapes
    are encoded in UTF-8. *)
Definition parse_string (s : string) : option (string * string) :=
  '(cs, r) ← parse_chars (S (String.length s)) s [];
  Some (String.concat EmptyString (utf8_of_code_point <$> join_surrogates cs), r).

Definition strip_prefix (p s : string) : option string :=
  if String.prefix p s then Some (String.substring (String.length p) (String.length s - String.length p) s)
  else None.

Fixpoint parse_value (fuel : nat) (s : string) : option (json * string) :=
  match fuel with
  | O => None
  | S fuel =>
      match skip_ws s with
      | EmptyString => None
      | String c r as s' =>
          if ord c =? 123 then
            match skip_ws r with
            | String c' r' => if ord c' =? 125 then Some (JObj [], r')
                              else parse_members fuel r []
            | EmptyString => None
            end
          else if ord c =? 91 then
            match skip_ws r with
            | String c' r' => if ord c' =? 93 then Some (JArr [], r')
                              else parse_elements fuel r []
            | EmptyString => None
            end
          else if ord c =? 34 then
            '(t, r') ← parse_string r; Some (JStr t, r')
          else if ord c =? 45 then
            '(n, r') ← parse_nat r; Some (JInt (- n), r')
          else if is_digit c then
            '(n, r') ← parse_nat s'; Some (JInt n, r')
          else
            match strip_prefix "null" s', strip_prefix "true" s', strip_prefix "false" s' with
            | Some r', _, _ => Some (JNull, r')
            | _, Some r', _ => Some (JBool true, r')
            | _, _, Some r' => Some (JBool false, r')
            | _, _, _ => None
            end
      end
  end
with parse_elements (fuel : nat) (s : string) (acc : list json) : option (json * string) :=
  match fuel with
  | O => None
  | S fuel =>
      '(v, r) ← parse_value fuel s;
      match skip_ws r with
      | String c r' =>
          if ord c =? 44 then parse_elements fuel r' (v :: acc)
          else if ord c =? 93 then Some (JArr (rev (v :: acc)), r')
          else None
      | EmptyString => None
      end
  end
with parse_members (fuel : nat) (s : string) (acc : list (string * json)) : option (json * string) :=
  match fuel with
  | O => None
  | S fuel =>
      match skip_ws s with
      | String q r =>
          if ord q =? 34 then
            '(k, r1) ← parse_string r;
            match skip_ws r1 with
            | String c r2 =>
                if ord c =? 58 then
                  '(v, r3) ← parse_value fuel r2;
                  match skip_ws r3 with
                  | String c' r4 =>
                      if ord c' =? 44 then parse_members fuel r4 (dict_set k v acc)
                      else if ord c' =? 125 then Some (JObj (dict_set k v acc), r4)
                      else None
                  | EmptyString => None
                  end
                else None
            | EmptyString => None
            end
          else None
      | EmptyString => None
      end
  end.

Definition loads (s : string) : result json :=
  match parse_value (S (String.length s)) s with
  | Some (v, r) =>
      match skip_ws r with
      | EmptyString => Ok v
      | _ => Raise JSONDecodeError
      end
  | None => Raise JSONDecodeError
  end.

Definition lib : JsonLib := {| json_dumps := dumps; json_loads := loads |}.

End RefJson.

(** ** A reference container

    An executable instance of [ZipLib]: the entries one after the other, the
    name and the content of each preceded by its length, after a two-byte
    signature.  It stands for the zip format in the examples; compression and
    checksums play no part in the properties below. *)
Module RefZip.

Definition signature : bytes := [x50; x4b].

Definition image (z : archive) : bytes :=
  signature ++
  concat (map (fun '(name, content) =>
                 le32 (Z.of_nat (length (str_encode name))) ++ str_encode name
                 ++ le32 (Z.of_nat (length content)) ++ content) z).

Definition field (b : bytes) : option (bytes * bytes) :=
  match struct_unpack_I (take 4 b) with
  | Ok n =>
      if (Z.of_nat (length (drop 4 b)) <? n) then None
      else Some (take (Z.to_nat n) (drop 4 b), drop (Z.to_nat n) (drop 4 b))
  | Raise _ => None
  end.

Fixpoint entries (fuel : nat) (b : bytes) : option archive :=
  match fuel with
  | O => None
  | S fuel =>
      match b with
      | [] => Some []
      | _ =>
          '(name, r) ← field b;
          '(content, r') ← field r;
          z ← entries fuel r';
          Some ((string_of_list_byte name, content) :: z)
      end
  end.

Definition parse (b : bytes) : option archive :=
  match b with
  | s0 :: s1 :: r =>
      if Byte.eqb s0 x50 && Byte.eqb s1 x4b then entries (S (length r)) r else None
  | _ => None
  end.

Definition lib : ZipLib := {| zip_image := image; zip_parse := parse |}.

End RefZip.

(** ** A stand-in for the native codec

    An executable instance of [NativeCodec] that stores the items as they
    are: one header byte, then the four bytes of each float32, least
    significant first.  The examples below run on it. *)
Module RawCodec.

Definition sign_bit (s : bool) : Z := if s then 2 ^ 31 else 0.

(** The binary32 bit pattern of a float32. *)
Definition bits_of_float32 (f : spec_float) : Z :=
  match f with
  | S754_zero s => sign_bit s
  | S754_infinity s => sign_bit s + 255 * 2 ^ 23
  | S754_nan => 255 * 2 ^ 23 + 2 ^ 22
  | S754_finite s m e =>
      sign_bit s + (if Zpos m <? 2 ^ 23 then Zpos m
                    else (e + 150) * 2 ^ 23 + (Zpos m - 2 ^ 23))
  end.

Definition float32_of_bits (b : Z) : spec_float :=
  let s := 2 ^ 31 <=? b in
  let biased := b / 2 ^ 23 mod 256 in
  let fraction := b mod 2 ^ 23 in
  if biased =? 255 then (if fraction =? 0 then S754_infinity s else S754_nan)
  else if biased =? 0 then
    match fraction with Zpos m => S754_finite s m (-149) | _ => S754_zero s end
  else
    match fraction + 2 ^ 23 with
    | Zpos m => S754_finite s m (biased - 150)
    | _ => S754_nan
    end.

Fixpoint items_of_bytes (b : bytes) : option (list spec_float) :=
  match b with
  | [] => Some []
  | b0 :: b1 :: b2 :: b3 :: r =>
      match struct_unpack_I [b0; b1; b2; b3], items_of_bytes r with
      | Ok n, Some l => Some (float32_of_bits n :: l)
      | _, _ => None
      end
  | _ => None
  end.

Definition encode (buffer_size : N) (vertices : list spec_float)
  (vertex_count vertex_size : Z) : N * bytes :=
  let stored := x01 :: concat (map (fun f => le32 (bits_of_float32 f)) vertices) in
  if (N.of_nat (length stored) <=? buffer_size)%N
  then (N.of_nat (length stored), stored)
  else (0%N, []).

Definition decode (vertex_count vertex_size : Z) (buffer : bytes) (buffer_size : Z)
  : Z * list spec_float :=
  match buffer with
  | h :: r =>
      match items_of_bytes r with
      | Some l =>
          if Byte.eqb h x01 && (Z.of_nat (length l) =? vertex_count) && (vertex_size =? 4)
          then (0, l) else (-3, [])
      | None => (-2, [])
      end
  | [] => (-2, [])
  end.

Definition lib : NativeCodec :=
  {| meshopt_encodeVertexBufferBound := fun count size => Z.to_N (1 + count * size);
     meshopt_encodeVertexBuffer := encode;
     meshopt_decodeVertexBuffer := decode |}.

(** Casts to an integer type that cannot hold the value give its least
    value, as the x86 conversion instructions do for the signed types; a
    product beyond int64 is a Python integer; there is memory for less than
    2^32 items, and an array of 2^61 items or more is too big. *)
Definition platform : Platform :=
  {| cast_out_of_range := fun d _ => fst (int_range d);
     np_prod_wide := fun shape => SInt (fold_right Z.mul 1 shape);
     np_zeros_refused := fun n =>
       if n <? 2 ^ 32 then None
       else if n <? 2 ^ 61 then Some OutOfMemory else Some TooBig |}.

End RawCodec.

(** ** Values for the examples *)

Definition from_ok {A} (default : A) (r : result A) : A :=
  match r with Ok a => a | Raise _ => default end.

Definition text_of (r : result string) : string := from_ok EmptyString r.

Definition example_encoded_array : EncodedArray :=
  {| data := [x01; x02; x03]; shape := [2; 3]; dtype := float32; itemsize := 4 |}.

Definition example_metadata_text : string :=
  text_of (RefJson.dumps None (array_metadata example_encoded_array)).

(** A file whose prefix declares 100 bytes of metadata and that ends right
    after the 52 bytes of a complete metadata dictionary. *)
Definition truncated_file : bytes :=
  [x64; x00; x00; x00] ++ str_encode example_metadata_text.

Definition example_mesh : EncodedMesh :=
  {| vertices := [x0a; x0b]; indices := Some [x0c]; vertex_count := 8;
     vertex_size := 12; index_count := Some 36; index_size := 4 |}.

Definition example_mesh_without_indices : EncodedMesh :=
  {| vertices := [x0a; x0b]; indices := None; vertex_count := 8;
     vertex_size := 12; index_count := None; index_size := 4 |}.

(** A stand-in for the decoder module: the buffers are returned as they are. *)
Definition example_decoder : MeshDecoder :=
  {| vertex_array := bytes;
     index_array := bytes;
     decode_mesh := fun m => Ok (vertices m, indices m);
     decode_vertex_buffer := fun _ _ buf =>
       match buf with Some b => Ok b | None => Raise TypeError end;
     decode_index_buffer := fun _ _ buf => Ok buf;
     asarray_float32 := fun v => v;
     asarray_uint32 := fun i => i;
     vertex_len := fun v => Z.of_nat (length v);
     index_len := fun i => Z.of_nat (length i) |}.

(** The float32 1.5 and the 2 x 1 float32 array [[1.5], [-2.0]]. *)
Definition f32_1_5 : spec_float := S754_finite false 12582912 (-23).
Definition f32_minus_2 : spec_float := S754_finite true 8388608 (-22).

Definition example_float32_array : ndarray :=
  {| nd_shape := [2; 1]; nd_dtype := float32;
     nd_flat := [SFloat f32_1_5; SFloat f32_minus_2]; nd_view := None |}.

Definition example_int32_array : ndarray :=
  {| nd_shape := [3]; nd_dtype := int32; nd_flat := [SInt 7; SInt (-100); SInt 16777216];
     nd_view := None |}.

(** ** What the savers write *)

(** The archive that [save_encoded_mesh_to_zip] writes for the default entry
    names, given the text of the metadata. *)
Definition mesh_archive (m : EncodedMesh) (text : string) : archive :=
  [("vertices.bin", vertices m)]
  ++ match indices m with Some i => [("indices.bin", i)] | None => [] end
  ++ [("metadata.json", str_encode text)].



(** Writing to an archive only adds entries after those already there. *)
Definition appends {A} (m : handle archive A) : Prop :=
  forall z, exists w, fst (m z) = z ++ w.






(** ** Rounding and tolerance *)

(** The state of the shifter after [k] steps on [m]: the quotient, the last
    bit shifted out, and whether a bit shifted out before is set. *)
Definition shifted (m k : Z) : shr_record :=
  {| shr_m := m / 2 ^ k;
     shr_r := Z.testbit m (k - 1);
     shr_s := negb (m mod 2 ^ Z.max 0 (k - 1) =? 0) |}.

(** The mantissa that rounding to the nearest, ties to even, keeps of [m]
    when [n] bits are shifted out. *)
Definition round_shift (m n : Z) : Z :=
  round_nearest_even (shr_m (shifted m n)) (loc_of_shr_record (shifted m n)).

(** [n] is a float32 value: a mantissa of less than 24 bits times a power
    of two. *)
Definition representable_float32 (n : Z) : Prop :=
  exists m k, 0 <= k /\ n = m * 2 ^ k /\ Z.abs m < 2 ^ 24.

(** The value of a finite float as a multiple of 2^-1074, the least positive
    float64. *)
Definition scaled (f : spec_float) : option Z :=
  match f with
  | S754_zero _ => Some 0
  | S754_finite s m e =>
      if -1074 <=? e then Some (cond_Zopp s (Zpos m * 2 ^ (e + 1074))) else None
  | _ => None
  end.

Definition same_float (f f' : spec_float) : bool :=
  match f, f' with
  | S754_zero s, S754_zero s' => Bool.eqb s s'
  | S754_infinity s, S754_infinity s' => Bool.eqb s s'
  | S754_nan, S754_nan => true
  | S754_finite s m e, S754_finite s' m' e' => Bool.eqb s s' && Pos.eqb m m' && (e =? e')
  | _, _ => false
  end.

(** [x'] is [x] up to the rounding error of float32: a relative error of at
    most 2^-24, which is within the [rtol=1e-5] of the tests. *)
Definition within_tolerance (x x' : scalar) : bool :=
  match x, x' with
  | SInt n, SInt n' => 2 ^ 24 * Z.abs (n' - n) <=? Z.abs n
  | SFloat f, SFloat f' =>
      same_float f f'
      || match scaled f, scaled f' with
         | Some v, Some v' => 2 ^ 24 * Z.abs (v' - v) <=? Z.abs v
         | _, _ => false
         end
  | _, _ => false
  end.

Definition is_int_dtype (d : numpy_dtype) : bool :=
  match d with float32 | float64 => false | _ => true end.

(** [x] is an element of an array of dtype [d]. *)
Definition has_dtype (d : numpy_dtype) (x : scalar) : bool :=
  match d, x with
  | float32, SFloat f => valid_binary 24 128 f
  | float64, SFloat f => valid_binary 53 1024 f
  | (float32 | float64), SInt _ => false
  | _, SInt n => (fst (int_range d) <=? n) && (n <=? snd (int_range d))
  | _, SFloat _ => false
  end.

(** A well-formed array: dimensions that are not negative, are below 2^63
    and multiply to the number of elements, which is below 2^63, and
    elements of its dtype. *)
Definition ndarray_ok (a : ndarray) : bool :=
  forallb (Z.leb 0) (nd_shape a)
  && forallb in_int64 (nd_shape a)
  && (fold_right Z.mul 1 (nd_shape a) =? Z.of_nat (length (nd_flat a)))
  && (Z.of_nat (length (nd_flat a)) <? 2 ^ 63)
  && forallb (has_dtype (nd_dtype a)) (nd_flat a).

(** The native encoder is given the elements of the array: the array is not
    of dtype float32, so that [astype] copies it, or its [reshape(-1)] is
    contiguous. *)
Definition encodes_own_elements (a : ndarray) : bool :=
  bool_decide (nd_dtype a <> float32)
  || match nd_view a with None => true | Some _ => false end.

(** The conversion to float32 and back keeps [x] within the range where the
    rounding error is the only error: for an integer, the float32 nearest to
    it is in the range of the dtype; for a float64 that is finite and not
    zero, its magnitude is at least 2^-126 and its float32 is finite. *)
Definition in_float32_range (d : numpy_dtype) (x : scalar) : bool :=
  match d, x with
  | float32, _ => true
  | _, SInt n =>
      match trunc_float (float32_of_int n) with
      | Some v => (fst (int_range d) <=? v) && (v <=? snd (int_range d))
      | None => false
      end
  | _, SFloat (S754_finite s m e) =>
      (-125 <=? Zpos (digits2_pos m) + e)
      && match float32_of_float (S754_finite s m e) with
         | S754_finite _ _ _ => true
         | _ => false
         end
  | _, SFloat _ => true
  end.

(** The float64 2^200 in an array of one element. *)
Definition example_float64_array : ndarray :=
  {| nd_shape := [1]; nd_dtype := float64;
     nd_flat := [SFloat (S754_finite false (2 ^ 52) 148)]; nd_view := None |}.

(** What the conversion to float32 and back makes of an element of an array
    of dtype [d]. *)
Definition roundtrip_scalar `{Platform} (d : numpy_dtype) (x : scalar) : scalar :=
  if bool_decide (d <> float32)
  then astype_from_float32 d (astype_float32 x)
  else SFloat (float32_item x).

(** The float32 1.0, 2.0 and 4.0, and the float32 array [0, 2, 4] as every
    second element of [0, 1, 2, 3, 4, 5]: its [reshape(-1)] is a view whose
    data pointer is at the start of the six elements. *)
Definition f32_1 : spec_float := S754_finite false 8388608 (-23).
Definition f32_2 : spec_float := S754_finite false 8388608 (-22).
Definition f32_4 : spec_float := S754_finite false 8388608 (-21).

Definition example_strided_array : ndarray :=
  {| nd_shape := [3]; nd_dtype := float32;
     nd_flat := [SFloat (S754_zero false); SFloat f32_2; SFloat f32_4];
     nd_view := Some (fun k => nth k [S754_zero false; f32_1; f32_2;
                                      S754_finite false 12582912 (-22); f32_4;
                                      S754_finite false 10485760 (-21)]
                                 (S754_zero false)) |}.

(** What the round trip through the codec makes of an array. *)
Definition roundtrip_array `{Platform} (a : ndarray) : ndarray :=
  {| nd_shape := nd_shape a;
     nd_dtype := nd_dtype a;
     nd_flat := map (roundtrip_scalar (nd_dtype a)) (nd_flat a);
     nd_view := None |}.

(** The arrays of which the round trip is stated: at least one dimension,
    well formed, given to the encoder with their own elements, and with
    memory for as many float32 as they have elements. *)
Definition roundtrippable `{Platform} (a : ndarray) : Prop :=
  nd_shape a <> [] /\ ndarray_ok a = true /\ encodes_own_elements a = true /\
  np_zeros_refused (Z.of_nat (length (nd_flat a))) = None.

(** The native decoder returns, for the data of [e], the items that the
    encoder was given for [a]. *)
Definition codec_inverts `{NativeCodec} (a : ndarray) (e : EncodedArray) : Prop :=
  meshopt_decodeVertexBuffer (Z.of_nat (length (nd_flat a))) 4 (data e)
    (Z.of_nat (length (data e))) = (0, native_items a).

Definition example_encoded_int32_array : EncodedArray :=
  from_ok example_encoded_array (encode_array (H := RawCodec.lib) example_int32_array).

(** ** The other savers and loaders of arrayutils.py and ziputils.py *)

(** [EncodedArray.__len__]: arrayutils.py, lines 34-36. *)
Definition EncodedArray_len (encoded_array : EncodedArray) : Z :=
  Z.of_nat (length (data encoded_array)).

(** arrayutils.py, lines 190-212. *)
Definition save_array_to_file `{NativeCodec} `{JsonLib} (array : ndarray)
  (file_path : string) : handle filesystem unit :=
  encoded_array ← lift (encode_array array);
  save_encoded_array_to_file encoded_array file_path.

Definition load_array_from_file `{NativeCodec} `{Platform} `{JsonLib}
  (file_path : string) (fs : filesystem) : result ndarray :=
  encoded_array ← load_encoded_array_from_file file_path fs;
  decode_array encoded_array.

(** arrayutils.py, lines 214-271. *)
Definition save_encoded_array_to_zip `{JsonLib} `{ZipLib} (encoded_array : EncodedArray)
  (zip_path data_filename metadata_filename : string) : handle filesystem unit :=
  let metadata := array_metadata encoded_array in
  with_zip_w zip_path (
    _ ← writestr data_filename (Some (data encoded_array));
    text ← lift (json_dumps (Some 2%nat) metadata);
    writestr_text metadata_filename text).

Definition load_encoded_array_from_zip `{JsonLib} `{ZipLib}
  (zip_path data_filename metadata_filename : string) (fs : filesystem)
  : result EncodedArray :=
  '(metadata, data) ← with_zip_r zip_path (fun zipf =>
      metadata ← zip_read zipf metadata_filename ≫= json_loads_bytes;
      data ← zip_read zipf data_filename;
      Ok (metadata, data)) fs;
  make_encoded_array data metadata.

(** arrayutils.py, lines 273-313. *)
Definition save_array_to_zip `{NativeCodec} `{JsonLib} `{ZipLib} (array : ndarray)
  (zip_path data_filename metadata_filename : string) : handle filesystem unit :=
  encoded_array ← lift (encode_array array);
  save_encoded_array_to_zip encoded_array zip_path data_filename metadata_filename.

Definition load_array_from_zip `{NativeCodec} `{Platform} `{JsonLib} `{ZipLib}
  (zip_path data_filename metadata_filename : string) (fs : filesystem)
  : result ndarray :=
  encoded_array ← load_encoded_array_from_zip zip_path data_filename metadata_filename fs;
  decode_array encoded_array.

(** ziputils.py, lines 96-144.  [mesh] is any object with an [encode]
    method and [mesh_class] any class with a [decode] method: the model takes
    the two methods. *)
Definition save_mesh_to_zip `{JsonLib} `{ZipLib} {M : Type}
  (encode : M -> result EncodedMesh) (mesh : M)
  (zip_path vertices_filename indices_filename metadata_filename : string)
  : handle filesystem unit :=
  encoded_mesh ← lift (encode mesh);
  save_encoded_mesh_to_zip encoded_mesh zip_path vertices_filename indices_filename
    metadata_filename.

Definition load_mesh_from_zip `{JsonLib} `{ZipLib} {M : Type}
  (decode : EncodedMesh -> result M)
  (zip_path vertices_filename indices_filename metadata_filename : string)
  (fs : filesystem) : result M :=
  encoded_mesh ← load_encoded_mesh_from_zip zip_path vertices_filename indices_filename
                   metadata_filename fs;
  decode encoded_mesh.

(** [mesh_class.decode(encoded_mesh)] for the class [Mesh]: the other
    arguments of [Mesh.decode] take their defaults. *)
Definition Mesh_decode_encoded `{MeshDecoder} (encoded_mesh : EncodedMesh) : result Mesh :=
  Mesh_decode (AsEncodedMesh encoded_mesh) None None None 4.

(** The archives that [save_encoded_array_to_zip] and
    [save_encoded_mesh_to_zip] write, given the text of the metadata. *)
Definition array_archive (e : EncodedArray) (data_filename metadata_filename text : string)
  : archive :=
  [(data_filename, data e); (metadata_filename, str_encode text)].

Definition named_mesh_archive (m : EncodedMesh)
  (vertices_filename indices_filename metadata_filename text : string) : archive :=
  [(vertices_filename, vertices m)]
  ++ match indices m with Some i => [(indices_filename, i)] | None => [] end
  ++ [(metadata_filename, str_encode text)].







(** An array without dimensions: the float32 scalar 1.5. *)
Definition example_scalar_array : ndarray :=
  {| nd_shape := []; nd_dtype := float32; nd_flat := [SFloat f32_1_5]; nd_view := None |}.

(** The single-mesh archive of [example_mesh] without its indices entry. *)
Definition example_archive_without_indices : archive :=
  [("vertices.bin", vertices example_mesh);
   ("metadata.json",
    str_encode (text_of (RefJson.dumps (Some 2%nat) (JObj (mesh_metadata example_mesh)))))].

(** * Properties *)

(** ** Running a computation on a handle *)

Lemma run_bind {S A B} (m : handle S A) (k : A -> handle S B) (s : S) :
  (m ≫= k) s = match m s with
               | (s', Ok a) => k a s'
               | (s', Raise e) => (s', Raise e)
               end.
Proof. reflexivity. Qed.

Lemma run_lift {S A} (m : result A) (s : S) : lift m s = (s, m).
Proof. reflexivity. Qed.

Lemma run_ret {S A} (a : A) (s : S) : (mret a : handle S A) s = (s, Ok a).
Proof. reflexivity. Qed.

(** ** Entry names *)

Lemma string_app_nonempty (s t : string) : t <> "" -> s +:+ t <> "".
Proof. destruct s; [trivial | discriminate]. Qed.

Lemma writestr_nonempty (name : string) (d : option bytes) (z : archive) :
  name <> "" ->
  writestr name d z = match d with
                      | Some b => (z ++ [(name, b)], Ok tt)
                      | None => (z, Raise TypeError)
                      end.
Proof. destruct name; [congruence | reflexivity]. Qed.

Lemma writestr_app (s t : string) (d : option bytes) (z : archive) :
  t <> "" ->
  writestr (s +:+ t) d z = match d with
                           | Some b => (z ++ [(s +:+ t, b)], Ok tt)
                           | None => (z, Raise TypeError)
                           end.
Proof. intros Ht. apply writestr_nonempty. now apply string_app_nonempty. Qed.

Lemma entry_name_ok_nonempty (name : string) : entry_name_ok name = true -> name <> "".
Proof.
  unfold entry_name_ok. intros H ->. discriminate H.
Qed.

(** ** Bytes, text and [struct] *)

Lemma Z_of_byte_range (b : byte) : 0 <= Z_of_byte b < 256.
Proof.
  unfold Z_of_byte. pose proof (Byte.to_N_bounded b). lia.
Qed.

Lemma Z_of_byte_of_Z (n : Z) : Z_of_byte (byte_of_Z n) = n mod 256.
Proof.
  unfold byte_of_Z, Z_of_byte.
  assert (Hr : 0 <= n mod 256 < 256) by (apply Z.mod_pos_bound; lia).
  destruct (Byte.of_N (Z.to_N (n mod 256))) as [b|] eqn:E.
  - apply Byte.to_of_N in E. rewrite E. lia.
  - apply Byte.of_N_None_iff in E. lia.
Qed.

Lemma struct_pack_I_length (n : Z) (p : bytes) :
  struct_pack_I n = Ok p -> length p = 4%nat.
Proof.
  unfold struct_pack_I. destruct (_ && _); intros [= <-]; reflexivity.
Qed.

Lemma struct_unpack_pack (n : Z) (p : bytes) :
  struct_pack_I n = Ok p -> struct_unpack_I p = Ok n.
Proof.
  unfold struct_pack_I. destruct ((0 <=? n) && (n <? 2 ^ 32)) eqn:E; [|discriminate].
  intros [= <-]. apply andb_true_iff in E as [H0 H1].
  apply Z.leb_le in H0. apply Z.ltb_lt in H1.
  unfold struct_unpack_I, le32. rewrite !Z_of_byte_of_Z. f_equal.
  change (2 ^ 8) with 256. change (2 ^ 16) with (256 * 256).
  change (2 ^ 24) with (256 * 256 * 256).
  change (2 ^ 32) with (256 * 256 * 256 * 256) in H1.
  rewrite <- !Z.div_div by lia.
  pose proof (Z.div_mod n 256 ltac:(lia)).
  pose proof (Z.div_mod (n / 256) 256 ltac:(lia)).
  pose proof (Z.div_mod (n / 256 / 256) 256 ltac:(lia)).
  assert (n / 256 / 256 / 256 < 256).
  { rewrite !Z.div_div by lia. apply Z.div_lt_upper_bound; lia. }
  assert (0 <= n / 256 / 256 / 256) by (repeat apply Z.div_pos; lia).
  rewrite (Z.mod_small (n / 256 / 256 / 256)) by lia. lia.
Qed.

Lemma struct_pack_I_ok (n : Z) :
  0 <= n < 2 ^ 32 -> exists p, struct_pack_I n = Ok p.
Proof.
  intros [H0 H1]. unfold struct_pack_I.
  apply Z.leb_le in H0. apply Z.ltb_lt in H1. rewrite H0, H1. eauto.
Qed.

Lemma struct_unpack_I_short (b : bytes) :
  (length b < 4)%nat -> struct_unpack_I b = Raise StructError.
Proof.
  destruct b as [|? [|? [|? [|? [|? ?]]]]]; simpl; intros; try reflexivity; lia.
Qed.

Lemma utf8_valid_ascii (surrogatepass : bool) (b : bytes) :
  forallb (in_range 0 127) b = true -> utf8_valid surrogatepass b = true.
Proof.
  induction b as [|b0 b IH]; simpl; [reflexivity|].
  intros [H0 H]%andb_true_iff. rewrite H0. auto.
Qed.

Lemma bytes_decode_encode (surrogatepass : bool) (s : string) :
  is_ascii s = true -> bytes_decode surrogatepass (str_encode s) = Ok s.
Proof.
  intros H. unfold bytes_decode. rewrite (utf8_valid_ascii _ _ H).
  unfold str_encode. now rewrite string_of_list_byte_of_string.
Qed.

Lemma py_len_ascii (s : string) :
  is_ascii s = true -> py_len s = Z.of_nat (length (str_encode s)).
Proof.
  unfold is_ascii, py_len. generalize (str_encode s). intros b H. f_equal.
  induction b as [|b0 b IH]; [reflexivity|].
  simpl in H. apply andb_true_iff in H as [H0 H].
  rewrite filter_cons. specialize (IH H).
  unfold in_range in *. pose proof (Z_of_byte_range b0).
  destruct (decide _) as [_|Hn].
  - simpl. now rewrite IH.
  - exfalso. apply Hn. apply andb_true_iff in H0 as [_ H0]. apply Z.leb_le in H0.
    apply Is_true_true. apply negb_true_iff. apply andb_false_iff. left.
    apply Z.leb_gt. lia.
Qed.

(** ** The data model *)

Lemma np_dtype_str (d : numpy_dtype) : np_dtype (dtype_str d) = Ok d.
Proof. destruct d; reflexivity. Qed.

Lemma as_int_tuple_ints (l : list Z) : as_int_tuple (JArr (map JInt l)) = Ok l.
Proof.
  unfold as_int_tuple.
  assert (H : ints_of_json (map JInt l) = Some l).
  { induction l as [|n l IH]; [reflexivity|]. simpl. now rewrite IH. }
  now rewrite H.
Qed.

Lemma make_encoded_array_metadata (e : EncodedArray) :
  make_encoded_array (data e) (array_metadata e) = Ok e.
Proof.
  unfold make_encoded_array.
  change (py_getitem (array_metadata e) "shape") with (Ok (JArr (map JInt (shape e)))).
  change (py_getitem (array_metadata e) "dtype") with (Ok (JStr (dtype_str (dtype e)))).
  change (py_getitem (array_metadata e) "itemsize") with (Ok (JInt (itemsize e))).
  cbn [mbind result_bind as_dtype as_int].
  rewrite as_int_tuple_ints, np_dtype_str.
  destruct e; reflexivity.
Qed.

(** ** SingleAssetFile *)

Lemma take_drop_frame (prefix region rest : bytes) (n : Z) :
  length prefix = 4%nat -> n = Z.of_nat (length region) ->
  f_read 4 (prefix ++ region ++ rest) = (region ++ rest, Ok prefix) /\
  f_read n (region ++ rest) = (rest, Ok region).
Proof.
  intros Hp ->. unfold f_read. split.
  - change (4 <? 0) with false. cbn iota.
    change (Z.to_nat 4) with 4%nat. rewrite <- Hp.
    now rewrite drop_app_length, take_app_length.
  - destruct (Z.ltb_spec (Z.of_nat (length region)) 0) as [Hneg|_]; [lia|].
    rewrite Nat2Z.id. now rewrite drop_app_length, take_app_length.
Qed.

(** C4. Saving an encoded array to a file and loading it back returns the
    same record: the payload bytes, the shape, the dtype and the itemsize.
    The file holds the four-byte little-endian length of the metadata, the
    JSON metadata and the payload, in this order.  The [json] module is
    assumed to read back the metadata it wrote, as ASCII text of less than
    2^32 characters. *)
Theorem encoded_array_file_roundtrip `{JsonLib} (e : EncodedArray) (p : string)
  (fs : filesystem) (text : string) :
  json_dumps None (array_metadata e) = Ok text ->
  json_loads text = Ok (array_metadata e) ->
  is_ascii text = true ->
  py_len text < 2 ^ 32 ->
  exists prefix,
    struct_unpack_I prefix = Ok (Z.of_nat (length (str_encode text))) /\
    save_encoded_array_to_file e p fs
      = (<[p := prefix ++ str_encode text ++ data e]> fs, Ok tt) /\
    load_encoded_array_from_file p (<[p := prefix ++ str_encode text ++ data e]> fs)
      = Ok e.
Proof.
  intros Hdumps Hloads Hascii Hlen.
  destruct (struct_pack_I_ok (py_len text)) as [prefix Hpack].
  { split; [unfold py_len; lia | exact Hlen]. }
  pose proof (struct_unpack_pack _ _ Hpack) as Hunpack.
  pose proof (struct_pack_I_length _ _ Hpack) as Hplen.
  rewrite (py_len_ascii _ Hascii) in Hunpack.
  exists prefix. split; [exact Hunpack|]. split.
  - unfold save_encoded_array_to_file, mbind, handle_bind, lift, with_open_wb, f_write.
    rewrite Hdumps, Hpack. cbn. now rewrite <- app_assoc.
  - unfold load_encoded_array_from_file, with_open_rb. rewrite lookup_insert_eq.
    destruct (take_drop_frame prefix (str_encode text) (data e) _ Hplen eq_refl) as [R1 R2].
    rewrite run_bind, R1, run_bind, run_lift, Hunpack, run_bind, R2.
    rewrite run_bind, run_lift, (bytes_decode_encode _ _ Hascii).
    rewrite run_bind, run_lift, Hloads.
    cbn. apply make_encoded_array_metadata.
Qed.

(** The round trip of C4 on the reference [json], for an array of shape (2, 3). *)
Lemma encoded_array_file_roundtrip_witness :
  exists prefix,
    struct_unpack_I prefix
      = Ok (Z.of_nat (length (str_encode example_metadata_text))) /\
    save_encoded_array_to_file (H := RefJson.lib) example_encoded_array "array.bin" ∅
      = (<[ "array.bin" := prefix ++ str_encode example_metadata_text
                           ++ data example_encoded_array ]> ∅, Ok tt) /\
    load_encoded_array_from_file (H := RefJson.lib) "array.bin"
      (<[ "array.bin" := prefix ++ str_encode example_metadata_text
                         ++ data example_encoded_array ]> ∅)
      = Ok example_encoded_array.
Proof.
  apply (encoded_array_file_roundtrip (H := RefJson.lib)); vm_compute; reflexivity.
Defined.

Lemma load_encoded_array_run `{JsonLib} (p : string) (fs : filesystem) (content : bytes) :
  fs !! p = Some content ->
  load_encoded_array_from_file p fs =
    (n ← struct_unpack_I (take 4 content);
     text ← bytes_decode false (take (Z.to_nat n) (drop 4 content));
     metadata ← json_loads text;
     make_encoded_array (drop (Z.to_nat n) (drop 4 content)) metadata).
Proof.
  intros Hp. unfold load_encoded_array_from_file, with_open_rb. rewrite Hp.
  rewrite run_bind. change (f_read 4 content) with (drop 4 content, Ok (take 4 content)).
  cbv beta iota. rewrite run_bind, run_lift.
  destruct (struct_unpack_I (take 4 content)) as [n|e] eqn:Hn; [|reflexivity].
  assert (0 <= n).
  { destruct (take 4 content) as [|b0 [|b1 [|b2 [|b3 [|? ?]]]]]; try discriminate.
    injection Hn as <-.
    pose proof (Z_of_byte_range b0). pose proof (Z_of_byte_range b1).
    pose proof (Z_of_byte_range b2). pose proof (Z_of_byte_range b3). lia. }
  rewrite run_bind. unfold f_read at 1.
  destruct (Z.ltb_spec n 0) as [?|_]; [lia|].
  cbv beta iota. rewrite run_bind, run_lift. cbn [mbind result_bind].
  destruct (bytes_decode _) as [text|e]; [|reflexivity].
  cbv beta iota. rewrite run_bind, run_lift. cbn [mbind result_bind].
  destruct (json_loads text) as [metadata|e]; reflexivity.
Qed.

(** C7, as amended. Loading fails with an exception of the format-error kind,
    and returns no record, for every file with fewer than four bytes and for
    every file whose metadata region (the bytes, at most as many as the
    prefix declares, that follow the prefix) is not valid UTF-8 or is text
    that [json.loads] rejects. *)
Theorem load_encoded_array_malformed `{JsonLib} (p : string) (fs : filesystem)
  (content : bytes) :
  fs !! p = Some content ->
  (length content < 4)%nat \/
  (exists n, struct_unpack_I (take 4 content) = Ok n /\
     (utf8_valid false (take (Z.to_nat n) (drop 4 content)) = false \/
      json_loads (string_of_list_byte (take (Z.to_nat n) (drop 4 content)))
        = Raise JSONDecodeError)) ->
  exists e, load_encoded_array_from_file p fs = Raise e /\ kind_of e = FormatError.
Proof.
  intros Hp Hbad. rewrite (load_encoded_array_run p fs content Hp).
  destruct Hbad as [Hshort | (n & Hn & Hregion)].
  - exists StructError. split; [|reflexivity].
    rewrite struct_unpack_I_short; [reflexivity|].
    rewrite length_take. lia.
  - rewrite Hn. cbn [mbind result_bind]. unfold bytes_decode.
    destruct (utf8_valid false _) eqn:Hv.
    + destruct Hregion as [?|Hj]; [discriminate|].
      cbn [mbind result_bind]. rewrite Hj. exists JSONDecodeError. split; reflexivity.
    + exists UnicodeDecodeError. split; reflexivity.
Qed.

(** A file that declares five bytes of metadata and holds three, which are
    not a JSON value. *)
Lemma load_encoded_array_malformed_witness :
  exists e, load_encoded_array_from_file (H := RefJson.lib) "array.bin"
              {[ "array.bin" := [x05; x00; x00; x00; x7b; x22; x73] ]} = Raise e
            /\ kind_of e = FormatError.
Proof.
  apply (load_encoded_array_malformed (H := RefJson.lib) "array.bin" _
           [x05; x00; x00; x00; x7b; x22; x73]).
  - reflexivity.
  - right. exists 5. split; [reflexivity|]. right. vm_compute. reflexivity.
Defined.

(** C7 as stated fails: a file that is shorter than the metadata length its
    prefix declares is loaded without an error when the bytes that are there
    form a complete JSON dictionary. *)
Lemma truncated_file_is_loaded :
  ~ (forall (J : JsonLib) (p : string) (fs : filesystem) (content : bytes) (n : Z),
       fs !! p = Some content ->
       struct_unpack_I (take 4 content) = Ok n ->
       Z.of_nat (length content) < 4 + n ->
       exists e, load_encoded_array_from_file p fs = Raise e /\ kind_of e = FormatError).
Proof.
  intros claim.
  destruct (claim RefJson.lib "array.bin" {[ "array.bin" := truncated_file ]}
              truncated_file 100) as (e & He & _).
  - reflexivity.
  - reflexivity.
  - vm_compute. reflexivity.
  - vm_compute in He. discriminate He.
Qed.

(** ** ArchiveBundler, single mesh *)

(** C6. The single-mesh archive has an [indices.bin] entry exactly when the
    mesh has indices, and its metadata has an [index_count] member exactly
    when the mesh has an index count, next to [vertex_count], [vertex_size]
    and [index_size], which are always there; loading the archive returns
    the mesh that was saved, in all six fields.  The [json] module and the
    zip container are assumed to read back what they wrote. *)
Theorem encoded_mesh_zip_roundtrip `{JsonLib} `{ZipLib} (m : EncodedMesh) (p : string)
  (fs : filesystem) (text : string) :
  json_dumps (Some 2%nat) (JObj (mesh_metadata m)) = Ok text ->
  json_loads_bytes (str_encode text) = Ok (JObj (mesh_metadata m)) ->
  zip_parse (zip_image (mesh_archive m text)) = Some (mesh_archive m text) ->
  save_encoded_mesh_to_zip_default m p fs
    = (<[p := zip_image (mesh_archive m text)]> fs, Ok tt) /\
  (in_namelist "indices.bin" (mesh_archive m text) = true <-> indices m <> None) /\
  (is_Some (dict_get "index_count" (mesh_metadata m)) <-> index_count m <> None) /\
  dict_get "vertex_count" (mesh_metadata m) = Some (JInt (vertex_count m)) /\
  dict_get "vertex_size" (mesh_metadata m) = Some (JInt (vertex_size m)) /\
  dict_get "index_size" (mesh_metadata m) = Some (JInt (index_size m)) /\
  load_encoded_mesh_from_zip_default p (<[p := zip_image (mesh_archive m text)]> fs)
    = Ok m.
Proof.
  intros Hdumps Hloads Hzip.
  split; [|split; [|split; [|split; [|split; [|split]]]]].
  - unfold save_encoded_mesh_to_zip_default, save_encoded_mesh_to_zip, with_zip_w.
    rewrite run_bind. cbn [writestr].
    unfold mesh_archive.
    destruct (indices m) as [i|].
    + rewrite run_bind. cbn [writestr]. rewrite run_bind, run_lift, Hdumps. reflexivity.
    + rewrite run_bind, run_ret, run_bind, run_lift, Hdumps. reflexivity.
  - unfold mesh_archive. destruct (indices m); cbn; split; congruence.
  - unfold mesh_metadata. destruct (index_count m); cbn; split; try congruence.
    + intros _. eauto.
    + intros [? [=]].
  - unfold mesh_metadata. destruct (index_count m); reflexivity.
  - unfold mesh_metadata. destruct (index_count m); reflexivity.
  - unfold mesh_metadata. destruct (index_count m); reflexivity.
  - unfold load_encoded_mesh_from_zip_default, load_encoded_mesh_from_zip, with_zip_r.
    rewrite lookup_insert_eq, Hzip.
    assert (Hmeta : zip_read (mesh_archive m text) "metadata.json" = Ok (str_encode text)).
    { unfold mesh_archive. destruct (indices m); reflexivity. }
    rewrite Hmeta. cbn [mbind result_bind]. rewrite Hloads.
    clear. unfold mesh_archive, mesh_metadata.
    destruct m as [v [i|] vc vs [ic|] isz]; reflexivity.
Qed.

(** The round trip of C6 for a mesh without indices. *)
Lemma encoded_mesh_zip_roundtrip_witness :
  let m := example_mesh_without_indices in
  let text := text_of (RefJson.dumps (Some 2%nat) (JObj (mesh_metadata m))) in
  let z := [("vertices.bin", vertices m); ("metadata.json", str_encode text)] in
  save_encoded_mesh_to_zip_default (H := RefJson.lib) (H0 := RefZip.lib) m "mesh.zip" ∅
    = (<[ "mesh.zip" := RefZip.image z ]> ∅, Ok tt) /\
  (in_namelist "indices.bin" z = true <-> indices m <> None) /\
  (is_Some (dict_get "index_count" (mesh_metadata m)) <-> index_count m <> None) /\
  dict_get "vertex_count" (mesh_metadata m) = Some (JInt 8) /\
  dict_get "vertex_size" (mesh_metadata m) = Some (JInt 12) /\
  dict_get "index_size" (mesh_metadata m) = Some (JInt 4) /\
  load_encoded_mesh_from_zip_default (H := RefJson.lib) (H0 := RefZip.lib) "mesh.zip"
    (<[ "mesh.zip" := RefZip.image z ]> ∅) = Ok m.
Proof.
  apply (encoded_mesh_zip_roundtrip (H := RefJson.lib) (H0 := RefZip.lib)
           example_mesh_without_indices "mesh.zip" ∅);
    vm_compute; reflexivity.
Defined.

(** ** ArchiveBundler, combined bundle *)

Lemma dict_get_None {V} (k : string) (d : list (string * V)) :
  dict_get k d = None <-> k ∉ d.*1.
Proof.
  induction d as [|[k' v] d IH]; simpl.
  - split; [intros _; apply not_elem_of_nil | reflexivity].
  - rewrite not_elem_of_cons. destruct (String.eqb_spec k k') as [->|Hne].
    + split; [discriminate | intros [? _]; congruence].
    + rewrite IH. tauto.
Qed.

Lemma in_namelist_spec (name : string) (z : archive) :
  in_namelist name z = true <-> name ∈ namelist z.
Proof.
  unfold in_namelist. rewrite existsb_exists. rewrite list_elem_of_In. split.
  - intros (x & Hx & ->%String.eqb_eq). exact Hx.
  - intros Hin. exists name. split; [exact Hin | apply String.eqb_refl].
Qed.

Lemma zip_read_absent (z : archive) (name : string) :
  name ∉ namelist z -> zip_read z name = Raise (KeyError name).
Proof.
  intros Hn. unfold zip_read.
  assert (H : dict_get name (rev z) = None).
  { apply dict_get_None. intros Hin. apply Hn. unfold namelist.
    rewrite list_elem_of_fmap in Hin |- *.
    destruct Hin as (x & -> & Hx). exists x. split; [reflexivity|].
    apply list_elem_of_In. apply in_rev. now apply list_elem_of_In. }
  now rewrite H.
Qed.

Lemma zip_read_present (z : archive) (name : string) :
  name ∈ namelist z -> exists b, zip_read z name = Ok b.
Proof.
  intros Hin. unfold zip_read.
  destruct (dict_get name (rev z)) as [b|] eqn:E; [eauto|].
  apply dict_get_None in E. exfalso. apply E.
  unfold namelist in Hin. rewrite list_elem_of_fmap in Hin |- *.
  destruct Hin as (x & -> & Hx). exists x. split; [reflexivity|].
  apply list_elem_of_In. apply -> in_rev. now apply list_elem_of_In.
Qed.



Lemma appends_ret {A} (a : A) : appends (mret a).
Proof. intros z. exists []. now rewrite run_ret, app_nil_r. Qed.

Lemma appends_lift {A} (r : result A) : appends (lift r).
Proof. intros z. exists []. now rewrite run_lift, app_nil_r. Qed.

Lemma appends_writestr (name : string) (d : option bytes) : appends (writestr name d).
Proof.
  intros z. destruct name as [|c name]; [|destruct d as [b|]]; simpl.
  - exists []. now rewrite app_nil_r.
  - now exists [(String c name, b)].
  - exists []. now rewrite app_nil_r.
Qed.

Lemma appends_bind {A B} (m : handle archive A) (k : A -> handle archive B) :
  appends m -> (forall a, appends (k a)) -> appends (m ≫= k).
Proof.
  intros Hm Hk z. rewrite run_bind. destruct (Hm z) as [w Hw].
  destruct (m z) as [z' [a|e]]; simpl in Hw; subst z'.
  - destruct (Hk a (z ++ w)) as [w' Hw']. exists (w ++ w').
    now rewrite Hw', app_assoc.
  - now exists w.
Qed.

Lemma appends_write_encoded_arrays (arrays_dir : string)
  (items : list (string * EncodedArray)) (acc : list (string * json)) :
  appends (write_encoded_arrays arrays_dir items acc).
Proof.
  revert acc. induction items as [|[name ea] rest IH]; intros acc; simpl.
  - apply appends_ret.
  - apply appends_bind; [apply appends_writestr | intros _; apply IH].
Qed.

Create HintDb appends.
#[local] Hint Resolve appends_ret appends_lift appends_writestr
  appends_write_encoded_arrays : appends.





Lemma make_encoded_array_of_metadata (d : bytes) (e : EncodedArray) :
  make_encoded_array d (array_metadata e)
  = Ok {| data := d; shape := shape e; dtype := dtype e; itemsize := itemsize e |}.
Proof.
  exact (make_encoded_array_metadata
           {| data := d; shape := shape e; dtype := dtype e; itemsize := itemsize e |}).
Qed.

Lemma read_encoded_arrays_missing (z : archive) (arrays_dir : string)
  (items : list (string * json)) (acc : list (string * EncodedArray)) :
  (forall name md, (name, md) ∈ items -> exists e, md = array_metadata e) ->
  (exists name, name ∈ items.*1 /\ (arrays_dir +:+ "/" +:+ name +:+ ".bin") ∉ namelist z) ->
  exists name,
    name ∈ items.*1 /\ ((arrays_dir +:+ "/" +:+ name +:+ ".bin") ∉ namelist z) /\
    read_encoded_arrays z arrays_dir items acc
    = Raise (KeyError (arrays_dir +:+ "/" +:+ name +:+ ".bin")).
Proof.
  revert acc. induction items as [|[n md] rest IH]; intros acc Hwf (name & Hin & Habs).
  - simpl in Hin. now apply elem_of_nil in Hin.
  - simpl read_encoded_arrays.
    destruct (in_namelist (arrays_dir +:+ "/" +:+ n +:+ ".bin") z) eqn:Hn.
    + apply in_namelist_spec in Hn. destruct (zip_read_present _ _ Hn) as [b ->].
      destruct (Hwf n md) as [e ->]; [left|].
      cbn [mbind result_bind]. rewrite make_encoded_array_of_metadata.
      destruct (IH (dict_set n
                      {| data := b; shape := shape e; dtype := dtype e;
                         itemsize := itemsize e |} acc))
        as (name' & Hin' & Habs' & Hread).
      * intros name' md' Hi. apply (Hwf name' md'). now right.
      * exists name. split; [|exact Habs]. simpl in Hin.
        apply elem_of_cons in Hin as [->|Hin]; [contradiction|exact Hin].
      * exists name'. split; [simpl; now right|]. split; [exact Habs'|exact Hread].
    + assert (Hn' : arrays_dir +:+ "/" +:+ n +:+ ".bin" ∉ namelist z).
      { intros Hc. apply in_namelist_spec in Hc. congruence. }
      exists n. split; [simpl; left|]. split; [exact Hn'|].
      now rewrite (zip_read_absent _ _ Hn').
Qed.

(** C2, as amended. [load_combined_data_from_zip] fails with a [ValueError]
    whose context is [BadZipFile] when the file is not a zip container, and
    with a [ValueError] whose context is the [KeyError] of a missing entry
    when one of the three mesh entries is absent, when the mesh is read and
    the metadata of the arrays is absent, and when the mesh and the metadata
    of the arrays are read and the file of a listed array is absent.  When
    only the top-level [metadata.json] is absent, the mesh and the arrays are
    returned with [None] as general metadata. *)
Theorem load_combined_failures `{JsonLib} `{ZipLib} (zip_path mesh_dir arrays_dir : string)
  (fs : filesystem) (content : bytes) :
  fs !! zip_path = Some content ->
  let loaded := load_combined_data_from_zip zip_path mesh_dir arrays_dir fs in
  (zip_parse content = None -> loaded = Raise (ValueError (Some BadZipFile))) /\
  (forall z, zip_parse content = Some z ->
     (forall name,
        name ∈ [mesh_dir +:+ "/vertices.bin"; mesh_dir +:+ "/indices.bin";
                mesh_dir +:+ "/metadata.json"] ->
        name ∉ namelist z ->
        exists k, (k ∉ namelist z) /\ loaded = Raise (ValueError (Some (KeyError k)))) /\
     (forall m,
        read_combined_mesh z mesh_dir = Ok m ->
        (arrays_dir +:+ "/metadata.json") ∉ namelist z ->
        loaded = Raise (ValueError (Some (KeyError (arrays_dir +:+ "/metadata.json"))))) /\
     (forall m items,
        read_combined_mesh z mesh_dir = Ok m ->
        zip_read z (arrays_dir +:+ "/metadata.json") ≫= json_loads_bytes = Ok (JObj items) ->
        (forall name md, (name, md) ∈ items -> exists e, md = array_metadata e) ->
        (exists name, name ∈ items.*1
                      /\ (arrays_dir +:+ "/" +:+ name +:+ ".bin") ∉ namelist z) ->
        exists name,
          name ∈ items.*1 /\ ((arrays_dir +:+ "/" +:+ name +:+ ".bin") ∉ namelist z) /\
          loaded = Raise (ValueError
                            (Some (KeyError (arrays_dir +:+ "/" +:+ name +:+ ".bin"))))) /\
     (forall m a,
        read_combined_mesh z mesh_dir = Ok m ->
        read_combined_arrays z arrays_dir = Ok a ->
        "metadata.json" ∉ namelist z ->
        loaded = Ok (m, a, None))).
Proof.
  intros Hp loaded. subst loaded. unfold load_combined_data_from_zip.
  rewrite bool_decide_eq_false_2 by (rewrite Hp; discriminate).
  unfold with_zip_r. rewrite Hp. split.
  - intros ->. reflexivity.
  - intros z ->. unfold read_combined_bundle. repeat split.
    + intros name Hname Habs. unfold read_combined_mesh.
      destruct (in_namelist (mesh_dir +:+ "/vertices.bin") z) eqn:Hv.
      2:{ exists (mesh_dir +:+ "/vertices.bin").
          assert (Hv' : mesh_dir +:+ "/vertices.bin" ∉ namelist z).
          { intros Hc. apply in_namelist_spec in Hc. congruence. }
          split; [exact Hv'|]. now rewrite (zip_read_absent _ _ Hv'). }
      apply in_namelist_spec in Hv. destruct (zip_read_present _ _ Hv) as [bv ->].
      cbn [mbind result_bind].
      destruct (in_namelist (mesh_dir +:+ "/indices.bin") z) eqn:Hi.
      2:{ exists (mesh_dir +:+ "/indices.bin").
          assert (Hi' : mesh_dir +:+ "/indices.bin" ∉ namelist z).
          { intros Hc. apply in_namelist_spec in Hc. congruence. }
          split; [exact Hi'|]. now rewrite (zip_read_absent _ _ Hi'). }
      apply in_namelist_spec in Hi. destruct (zip_read_present _ _ Hi) as [bi ->].
      cbn [mbind result_bind].
      assert (Hm : mesh_dir +:+ "/metadata.json" ∉ namelist z).
      { rewrite !elem_of_cons in Hname. destruct Hname as [->|[->|[->|Hn]]];
          try contradiction; [exact Habs | now apply elem_of_nil in Hn]. }
      exists (mesh_dir +:+ "/metadata.json"). split; [exact Hm|].
      now rewrite (zip_read_absent _ _ Hm).
    + intros m -> Habs. cbn [mbind result_bind]. unfold read_combined_arrays.
      now rewrite (zip_read_absent _ _ Habs).
    + intros m items -> Hmeta Hwf Hmissing. cbn [mbind result_bind].
      unfold read_combined_arrays. rewrite Hmeta. cbn [mbind result_bind py_items].
      destruct (read_encoded_arrays_missing z arrays_dir items [] Hwf Hmissing)
        as (name & Hin & Habs & ->).
      exists name. repeat split; assumption.
    + intros m a -> -> Habs. cbn [mbind result_bind]. unfold read_general_metadata.
      now rewrite (zip_read_absent _ _ Habs).
Qed.

(** A file of two bytes is not a zip container. *)
Lemma load_combined_failures_witness :
  load_combined_data_from_zip (H := RefJson.lib) (H0 := RefZip.lib) "bundle.zip"
    "mesh" "arrays" {[ "bundle.zip" := [x00; x01] ]}
  = Raise (ValueError (Some BadZipFile)).
Proof.
  refine (proj1 (load_combined_failures (H := RefJson.lib) (H0 := RefZip.lib)
                   "bundle.zip" "mesh" "arrays" {[ "bundle.zip" := [x00; x01] ]}
                   [x00; x01] _) _); reflexivity.
Defined.

(** C2 as stated fails: for an archive without [mesh/indices.bin] the
    exception is a [ValueError], as for a file that is not a zip container,
    and not an exception of the not-found kind. *)
Lemma missing_entry_is_ValueError :
  ~ (forall (J : JsonLib) (Zl : ZipLib) (zip_path : string) (fs : filesystem)
       (content : bytes) (z : archive),
       fs !! zip_path = Some content ->
       zip_parse content = Some z ->
       "mesh/indices.bin" ∉ namelist z ->
       exists e, load_combined_data_from_zip zip_path "mesh" "arrays" fs = Raise e
                 /\ kind_of e = NotFoundError).
Proof.
  intros claim.
  destruct (claim RefJson.lib RefZip.lib "bundle.zip"
              {[ "bundle.zip" := RefZip.image [("mesh/vertices.bin", [x0a])] ]}
              (RefZip.image [("mesh/vertices.bin", [x0a])])
              [("mesh/vertices.bin", [x0a])]) as (e & He & Hkind).
  - reflexivity.
  - reflexivity.
  - unfold namelist. simpl. intros [=]%list_elem_of_singleton.
  - vm_compute in He. injection He as <-. discriminate Hkind.
Qed.

(** ** [Mesh.decode] *)

(** C10, as amended. With a legacy dictionary, [Mesh.decode] raises a
    [ValueError] when [vertex_count] or [vertex_size] is not given.  When
    both are given and the vertices are decoded, a dictionary that has an
    [indices] key has its indices decoded exactly when the value under the
    key is not [None] and [index_count] is given, and otherwise gives a mesh
    without indices and without an error; a dictionary that has no
    [indices] key raises the [KeyError] of the key, whether [index_count] is
    given or not. *)
Theorem Mesh_decode_legacy `{MeshDecoder} (d : list (string * option bytes))
  (vertex_count vertex_size index_count : option Z) (index_size : Z) :
  (vertex_count = None \/ vertex_size = None ->
   Mesh_decode (AsDict d) vertex_count vertex_size index_count index_size
   = Raise (ValueError None)) /\
  (forall vc vs buf v,
     vertex_count = Some vc -> vertex_size = Some vs ->
     dict_get "vertices" d = Some buf ->
     decode_vertex_buffer vc vs buf = Ok v ->
     (forall entry,
        dict_get "indices" d = Some entry ->
        (forall ibuf ic,
           entry = Some ibuf -> index_count = Some ic ->
           Mesh_decode (AsDict d) vertex_count vertex_size index_count index_size
           = (i ← decode_index_buffer ic index_size ibuf; Ok (Mesh_init v (Some i)))) /\
        (entry = None \/ index_count = None ->
         Mesh_decode (AsDict d) vertex_count vertex_size index_count index_size
         = Ok (Mesh_init v None)
         /\ mesh_indices (Mesh_init v None) = None)) /\
     (dict_get "indices" d = None ->
      Mesh_decode (AsDict d) vertex_count vertex_size index_count index_size
      = Raise (KeyError "indices"))).
Proof.
  split.
  - intros [-> | ->]; [reflexivity|]. destruct vertex_count; reflexivity.
  - intros vc vs buf v -> -> Hbuf Hv. split.
    + intros entry Hentry.
      unfold Mesh_decode, dict_getitem. rewrite Hbuf, Hentry.
      cbn [mbind result_bind]. rewrite Hv. cbn [mbind result_bind]. split.
      * intros ibuf ic -> ->. destruct (decode_index_buffer ic index_size ibuf); reflexivity.
      * intros [-> | ->]; [split; reflexivity|]. destruct entry; split; reflexivity.
    + intros Hentry. unfold Mesh_decode, dict_getitem. rewrite Hbuf, Hentry.
      cbn [mbind result_bind]. rewrite Hv. reflexivity.
Qed.

(** A legacy dictionary decoded without [vertex_count], without
    [index_count], and without an [indices] key. *)
Lemma Mesh_decode_legacy_witness :
  Mesh_decode (H := example_decoder) (AsDict [("vertices", Some [x01]); ("indices", Some [x02])])
    None (Some 12) (Some 3) 4 = Raise (ValueError None)
  /\ Mesh_decode (H := example_decoder)
       (AsDict [("vertices", Some [x01]); ("indices", Some [x02])])
       (Some 1) (Some 12) None 4
     = Ok (Mesh_init (H := example_decoder) [x01] None)
  /\ Mesh_decode (H := example_decoder) (AsDict [("vertices", Some [x01])])
       (Some 1) (Some 12) (Some 3) 4
     = Raise (KeyError "indices").
Proof.
  split; [|split].
  - apply (proj1 (Mesh_decode_legacy (H := example_decoder)
                    [("vertices", Some [x01]); ("indices", Some [x02])]
                    None (Some 12) (Some 3) 4)).
    left. reflexivity.
  - apply (proj1 (proj2 (Mesh_decode_legacy (H := example_decoder)
                           [("vertices", Some [x01]); ("indices", Some [x02])]
                           (Some 1) (Some 12) None 4) 1 12 (Some [x01]) [x01]
                    eq_refl eq_refl eq_refl eq_refl) (Some [x02]) eq_refl).
    right. reflexivity.
  - apply (proj2 (proj2 (Mesh_decode_legacy (H := example_decoder)
                           [("vertices", Some [x01])]
                           (Some 1) (Some 12) (Some 3) 4) 1 12 (Some [x01]) [x01]
                    eq_refl eq_refl eq_refl eq_refl)).
    reflexivity.
Defined.

(** C10 as stated fails: for a legacy dictionary without an [indices] key,
    decoded without [index_count], [Mesh.decode] raises a [KeyError] instead
    of returning a mesh without indices. *)
Lemma legacy_dictionary_without_indices_key :
  ~ (forall (D : MeshDecoder) (d : list (string * option bytes)) (vc vs index_size : Z)
       (buf : option bytes) (v : vertex_array),
       dict_get "vertices" d = Some buf ->
       decode_vertex_buffer vc vs buf = Ok v ->
       exists m,
         Mesh_decode (AsDict d) (Some vc) (Some vs) None index_size = Ok m /\
         mesh_indices m = None).
Proof.
  intros claim.
  destruct (claim example_decoder [("vertices", Some [x01])] 1 12 4 (Some [x01]) [x01]
              eq_refl eq_refl) as (m & Hm & _).
  discriminate Hm.
Qed.

(** ** Rounding to float32 *)

Lemma iter_pos_nat {A} (f : A -> A) (p : positive) (x : A) :
  SpecFloat.iter_pos f p x = Nat.iter (Pos.to_nat p) f x.
Proof.
  assert (Hpos : forall p x, SpecFloat.iter_pos f p x = Pos.iter f x p).
  { clear. induction p as [p IH|p IH|]; intros x; simpl.
    - rewrite !IH. now rewrite !Pos.iter_swap.
    - now rewrite !IH.
    - reflexivity. }
  rewrite Hpos, Pos2Nat.inj_iter. reflexivity.
Qed.

Lemma shr_1_nonneg (m : Z) (r s : bool) :
  0 <= m ->
  shr_1 {| shr_m := m; shr_r := r; shr_s := s |}
  = {| shr_m := m / 2; shr_r := Z.odd m; shr_s := r || s |}.
Proof.
  intros Hm. rewrite <- Z.div2_div.
  destruct m as [|[p|p|]|p]; try reflexivity. lia.
Qed.

Lemma shifted_step (m k : Z) :
  0 <= m -> 0 <= k -> shr_1 (shifted m k) = shifted m (k + 1).
Proof.
  intros Hm Hk. unfold shifted.
  rewrite shr_1_nonneg by (apply Z.div_pos; lia).
  f_equal.
  - rewrite Z.div_div by lia. now rewrite Z.pow_add_r by lia.
  - replace (k + 1 - 1) with k by lia.
    now rewrite Z.testbit_odd, Z.shiftr_div_pow2 by lia.
  - replace (k + 1 - 1) with k by lia. rewrite (Z.max_r 0 k) by lia.
    destruct (Z.eq_dec k 0) as [->|Hk0].
    + simpl. reflexivity.
    + rewrite (Z.max_r 0 (k - 1)) by lia.
      replace (2 ^ k) with (2 ^ (k - 1) * 2).
      2:{ rewrite Z.mul_comm, <- Z.pow_succ_r by lia. f_equal. lia. }
      rewrite Z.rem_mul_r by lia.
      pose proof (Z.testbit_spec' m (k - 1) ltac:(lia)) as Hb.
      pose proof (Z.mod_pos_bound m (2 ^ (k - 1)) ltac:(lia)) as Hl.
      rewrite <- Hb.
      assert (0 < 2 ^ (k - 1)) by (apply Z.pow_pos_nonneg; lia).
      destruct (Z.testbit m (k - 1)); simpl Z.b2z.
      * simpl. symmetry. apply negb_true_iff. apply Z.eqb_neq. lia.
      * now rewrite Z.mul_0_r, Z.add_0_r.
Qed.

Lemma shifted_0 (m : Z) :
  shifted m 0 = {| shr_m := m; shr_r := false; shr_s := false |}.
Proof.
  unfold shifted. simpl. rewrite Z.div_1_r, Z.mod_1_r. reflexivity.
Qed.

Lemma iter_shr_1 (m : Z) (p : positive) :
  0 <= m ->
  SpecFloat.iter_pos shr_1 p {| shr_m := m; shr_r := false; shr_s := false |} = shifted m (Zpos p).
Proof.
  intros Hm. rewrite iter_pos_nat, <- shifted_0, <- (positive_nat_Z p).
  induction (Pos.to_nat p) as [|k IH]; [reflexivity|].
  simpl Nat.iter. rewrite IH, shifted_step by lia. f_equal. lia.
Qed.

Lemma digits2_pos_bounds (p : positive) :
  2 ^ (Zpos (digits2_pos p) - 1) <= Zpos p < 2 ^ Zpos (digits2_pos p).
Proof.
  induction p as [p IH|p IH|]; cbn [digits2_pos]; [| |simpl; lia].
  all: rewrite Pos2Z.inj_succ; replace (Z.succ (Zpos (digits2_pos p)) - 1)
         with (Z.succ (Zpos (digits2_pos p) - 1)) by lia;
       rewrite !Z.pow_succ_r by lia; lia.
Qed.

Lemma digits2_pos_unique (p : positive) (d : Z) :
  2 ^ (d - 1) <= Zpos p < 2 ^ d -> Zpos (digits2_pos p) = d.
Proof.
  intros [Hlo Hhi]. pose proof (digits2_pos_bounds p) as [Hlo' Hhi'].
  assert (0 < d).
  { destruct (Z.ltb_spec 0 d); [assumption|].
    assert (2 ^ d <= 2 ^ 0) by (apply Z.pow_le_mono_r; lia). simpl in *. lia. }
  assert (d - 1 < Zpos (digits2_pos p)).
  { apply (Z.pow_lt_mono_r_iff 2); lia. }
  assert (Zpos (digits2_pos p) - 1 < d).
  { apply (Z.pow_lt_mono_r_iff 2); lia. }
  lia.
Qed.

Lemma iter_xO (m d : positive) : Zpos (Pos.iter xO m d) = Zpos m * 2 ^ Zpos d.
Proof.
  rewrite Pos2Nat.inj_iter, <- (positive_nat_Z d).
  induction (Pos.to_nat d) as [|k IH].
  { cbn [nat_rect]. change (Z.of_nat 0) with 0. now rewrite Z.pow_0_r, Z.mul_1_r. }
  cbn [nat_rect]. rewrite Pos2Z.inj_xO, IH, Nat2Z.inj_succ, Z.pow_succ_r by lia. lia.
Qed.

Lemma round_shift_spec (m n : Z) :
  0 <= m -> 1 <= n ->
  (round_shift m n = m / 2 ^ n /\ 2 * (m mod 2 ^ n) <= 2 ^ n) \/
  (round_shift m n = m / 2 ^ n + 1 /\ 2 ^ n <= 2 * (m mod 2 ^ n)).
Proof.
  intros Hm Hn. unfold round_shift, shifted. cbn [shr_m loc_of_shr_record].
  rewrite (Z.max_r 0 (n - 1)) by lia.
  replace (2 ^ n) with (2 ^ (n - 1) * 2).
  2:{ rewrite Z.mul_comm, <- Z.pow_succ_r by lia. f_equal. lia. }
  rewrite (Z.rem_mul_r m) by lia.
  pose proof (Z.testbit_spec' m (n - 1) ltac:(lia)) as Hb.
  pose proof (Z.mod_pos_bound m (2 ^ (n - 1)) ltac:(lia)) as Hl.
  rewrite <- Hb.
  destruct (Z.testbit m (n - 1)); simpl Z.b2z;
    destruct (Z.eqb_spec (m mod 2 ^ (n - 1)) 0) as [E|E]; cbn [negb round_nearest_even].
  - destruct (Z.even _); [left|right]; split; reflexivity || lia.
  - right. split; [reflexivity|lia].
  - left. split; [reflexivity|lia].
  - left. split; [reflexivity|lia].
Qed.

Lemma round_shift_exact (m n : Z) :
  0 <= m -> 1 <= n -> m mod 2 ^ n = 0 -> round_shift m n = m / 2 ^ n.
Proof.
  intros Hm Hn Hr. destruct (round_shift_spec m n Hm Hn) as [[H _]|[_ H]]; [exact H|].
  rewrite Hr in H. assert (0 < 2 ^ n) by (apply Z.pow_pos_nonneg; lia). lia.
Qed.

Section Rounding.
Variables prec emax : Z.
Hypothesis prec_pos : 0 < prec.

Local Abbreviation emin := (3 - emax - prec) (only parsing).

Lemma shr_fexp_canonical (m : positive) (e : Z) :
  Zpos (digits2_pos m) = prec -> emin <= e ->
  shr_fexp prec emax (Zpos m) e loc_Exact
  = ({| shr_m := Zpos m; shr_r := false; shr_s := false |}, e).
Proof.
  intros Hd He. unfold shr_fexp, fexp, SpecFloat.emin. cbn [Zdigits2 shr_record_of_loc].
  rewrite Hd.
  replace (Z.max (prec + e - prec) emin - e) with 0 by lia. reflexivity.
Qed.

Lemma binary_round_aux_canonical (s : bool) (m : positive) (e : Z) :
  Zpos (digits2_pos m) = prec -> emin <= e ->
  binary_round_aux prec emax s (Zpos m) e loc_Exact
  = if e <=? emax - prec then S754_finite s m e else S754_infinity s.
Proof.
  intros Hd He. unfold binary_round_aux.
  rewrite (shr_fexp_canonical m e Hd He). cbn [shr_m loc_of_shr_record round_nearest_even].
  rewrite (shr_fexp_canonical m e Hd He). reflexivity.
Qed.

(** A mantissa of at most [prec] bits is kept: it is shifted left to
    [prec] bits. *)
Lemma binary_round_short (s : bool) (m : positive) (e : Z) :
  let d := Zpos (digits2_pos m) in
  d <= prec -> emin <= d + e - prec ->
  binary_round prec emax s m e
  = if d + e - prec <=? emax - prec
    then S754_finite s (Z.to_pos (Zpos m * 2 ^ (prec - d))) (d + e - prec)
    else S754_infinity s.
Proof.
  intros d Hd He. unfold binary_round, shl_align, fexp, SpecFloat.emin. fold d.
  rewrite (Z.max_l (d + e - prec) emin) by lia.
  pose proof (digits2_pos_bounds m) as Hm. fold d in Hm.
  destruct (d + e - prec - e) as [|q|q] eqn:Hq; try lia.
  - assert (d = prec) by lia.
    replace (prec - d) with 0 by lia. rewrite Z.pow_0_r, Z.mul_1_r. cbn [Z.to_pos].
    rewrite binary_round_aux_canonical by (fold d; lia).
    replace (d + e - prec) with e by lia. reflexivity.
  - assert (Hmz : Zpos (Pos.iter xO m q) = Zpos m * 2 ^ (prec - d)).
    { rewrite iter_xO. f_equal. f_equal. lia. }
    rewrite binary_round_aux_canonical; [| |lia].
    + rewrite <- Hmz. reflexivity.
    + apply digits2_pos_unique. rewrite Hmz.
      assert (0 < 2 ^ (prec - d)) by (apply Z.pow_pos_nonneg; lia).
      replace (2 ^ (prec - 1)) with (2 ^ (d - 1) * 2 ^ (prec - d)).
      2:{ rewrite <- Z.pow_add_r by lia. f_equal. lia. }
      replace (2 ^ prec) with (2 ^ d * 2 ^ (prec - d)).
      2:{ rewrite <- Z.pow_add_r by lia. f_equal. lia. }
      nia.
Qed.

(** A longer mantissa loses its low bits and is rounded. *)
Lemma binary_round_long (s : bool) (m : positive) (e : Z) :
  let d := Zpos (digits2_pos m) in
  let n := d - prec in
  let m0 := round_shift (Zpos m) n in
  prec < d -> emin <= d + e - prec ->
  2 ^ (prec - 1) <= m0 <= 2 ^ prec /\
  binary_round prec emax s m e
  = if m0 =? 2 ^ prec
    then (if e + n + 1 <=? emax - prec
          then S754_finite s (Z.to_pos (2 ^ (prec - 1))) (e + n + 1)
          else S754_infinity s)
    else (if e + n <=? emax - prec
          then S754_finite s (Z.to_pos m0) (e + n)
          else S754_infinity s).
Proof.
  intros d n m0 Hd He.
  pose proof (digits2_pos_bounds m) as Hm. fold d in Hm.
  assert (Hpn : 0 < 2 ^ n) by (apply Z.pow_pos_nonneg; lia).
  assert (Hq : 2 ^ (prec - 1) <= Zpos m / 2 ^ n < 2 ^ prec).
  { split.
    - apply Z.div_le_lower_bound; [lia|].
      rewrite <- Z.pow_add_r by lia. replace (n + (prec - 1)) with (d - 1) by lia. lia.
    - apply Z.div_lt_upper_bound; [lia|].
      rewrite <- Z.pow_add_r by lia. replace (n + prec) with d by lia. lia. }
  assert (Hm0 : 2 ^ (prec - 1) <= m0 <= 2 ^ prec).
  { destruct (round_shift_spec (Zpos m) n ltac:(lia) ltac:(lia)) as [[E _]|[E _]];
      fold m0 in E; lia. }
  split; [exact Hm0|].
  assert (Hpp : 0 < 2 ^ (prec - 1)) by (apply Z.pow_pos_nonneg; lia).
  unfold binary_round, shl_align, fexp, SpecFloat.emin. fold d.
  rewrite (Z.max_l (d + e - prec) emin) by lia.
  destruct (d + e - prec - e) as [|q|q] eqn:Eq; try lia.
  assert (Hn : Zpos q = n) by lia.
  unfold binary_round_aux.
  assert (Hfirst : shr_fexp prec emax (Zpos m) e loc_Exact = (shifted (Zpos m) n, e + n)).
  { unfold shr_fexp, fexp, SpecFloat.emin, shr. cbn [Zdigits2 shr_record_of_loc].
    fold d. rewrite (Z.max_l (d + e - prec) emin) by lia.
    rewrite Eq, iter_shr_1 by lia. now rewrite Hn. }
  rewrite Hfirst. fold (round_shift (Zpos m) n). fold m0.
  destruct m0 as [|p0|p0] eqn:Ep0; try lia.
  destruct (Z.eqb_spec (Zpos p0) (2 ^ prec)) as [Etop|Etop].
  - assert (Hdig : Zpos (digits2_pos p0) = prec + 1).
    { apply digits2_pos_unique. rewrite Etop.
      replace (prec + 1 - 1) with prec by lia.
      rewrite Z.pow_add_r by lia. lia. }
    unfold shr_fexp, fexp, SpecFloat.emin, shr. cbn [Zdigits2 shr_record_of_loc].
    rewrite Hdig.
    replace (Z.max (prec + 1 + (e + n) - prec) emin - (e + n)) with 1 by lia.
    rewrite iter_shr_1 by lia. unfold shifted at 1. cbn [shr_m].
    rewrite Etop. replace (2 ^ prec) with (2 ^ (prec - 1) * 2 ^ 1).
    2:{ rewrite <- Z.pow_add_r by lia. f_equal. lia. }
    rewrite Z.div_mul by lia.
    destruct (2 ^ (prec - 1)) as [|t|t] eqn:Et; try lia. reflexivity.
  - rewrite shr_fexp_canonical; [reflexivity| |lia].
    apply digits2_pos_unique. lia.
Qed.

End Rounding.



Lemma binary_round_int (s : bool) (p : positive) :
  Zpos p < 2 ^ 64 ->
  exists v,
    trunc_float (binary_round 24 128 s p 0) = Some (cond_Zopp s v) /\
    2 ^ 24 * Z.abs (v - Zpos p) <= Zpos p /\
    (representable_float32 (Zpos p) -> v = Zpos p).
Proof.
  intros Hp. pose proof (digits2_pos_bounds p) as Hd.
  set (d := Zpos (digits2_pos p)) in *.
  assert (Hd64 : d <= 64).
  { assert (d - 1 < 64) by (apply (Z.pow_lt_mono_r_iff 2); lia). lia. }
  destruct (Z.le_gt_cases d 24) as [Hshort|Hlong].
  - exists (Zpos p). rewrite binary_round_short by (fold d; lia). fold d.
    destruct (Z.leb_spec (d + 0 - 24) (128 - 24)) as [_|?]; [|lia].
    split; [|split; [|reflexivity]].
    + cbn [trunc_float]. f_equal. f_equal.
      assert (H2 : 0 < 2 ^ (24 - d)) by (apply Z.pow_pos_nonneg; lia).
      rewrite Z2Pos.id by lia.
      destruct (Z.leb_spec 0 (d + 0 - 24)).
      * replace (24 - d) with 0 by lia. replace (d + 0 - 24) with 0 by lia.
        rewrite !Z.pow_0_r. lia.
      * replace (- (d + 0 - 24)) with (24 - d) by lia. now rewrite Z.div_mul by lia.
    + replace (Zpos p - Zpos p) with 0 by lia. simpl Z.abs. lia.
  - destruct (binary_round_long 24 128 ltac:(lia) s p 0 ltac:(fold d; lia) ltac:(fold d; lia))
      as [Hm0 Hround].
    fold d in Hm0, Hround. set (n := d - 24) in *.
    set (m0 := round_shift (Zpos p) n) in *.
    assert (Hpn : 0 < 2 ^ n) by (apply Z.pow_pos_nonneg; lia).
    exists (m0 * 2 ^ n). split; [|split].
    + rewrite Hround. destruct (Z.eqb_spec m0 (2 ^ 24)) as [Etop|Etop].
      * destruct (Z.leb_spec (0 + n + 1) (128 - 24)) as [_|?]; [|lia].
        cbn [trunc_float]. destruct (Z.leb_spec 0 (0 + n + 1)) as [_|?]; [|lia].
        f_equal. f_equal. rewrite Etop.
        replace (0 + n + 1) with (n + 1) by lia. rewrite Z.pow_add_r by lia.
        change (Zpos (Z.to_pos (2 ^ (24 - 1)))) with (2 ^ 23). lia.
      * destruct (Z.leb_spec (0 + n) (128 - 24)) as [_|?]; [|lia].
        cbn [trunc_float]. destruct (Z.leb_spec 0 (0 + n)) as [_|?]; [|lia].
        f_equal. f_equal. rewrite Z2Pos.id by lia. now rewrite Z.add_0_l.
    + assert (Hlow : 2 ^ (n + 23) <= Zpos p).
      { replace (n + 23) with (d - 1) by lia. lia. }
      rewrite Z.pow_add_r in Hlow by lia.
      pose proof (Z.div_mod (Zpos p) (2 ^ n) ltac:(lia)) as Hdm.
      pose proof (Z.mod_pos_bound (Zpos p) (2 ^ n) ltac:(lia)) as Hr.
      destruct (round_shift_spec (Zpos p) n ltac:(lia) ltac:(lia)) as [[E Hb]|[E Hb]];
        fold m0 in E; rewrite E; change (2 ^ 24) with 16777216 in *;
        change (2 ^ 23) with 8388608 in *; nia.
    + intros (m & k & Hk & Hmk & Hmabs).
      assert (Hdiv : Zpos p mod 2 ^ n = 0).
      { assert (Hkn : n <= k).
        { assert (Hpk : 0 < 2 ^ k) by (apply Z.pow_pos_nonneg; lia).
          assert (Zpos p < 2 ^ 24 * 2 ^ k) by nia.
          rewrite <- Z.pow_add_r in H by lia.
          assert (d - 1 < 24 + k) by (apply (Z.pow_lt_mono_r_iff 2); lia). lia. }
        rewrite Hmk. replace k with ((k - n) + n) by lia.
        rewrite Z.pow_add_r, Z.mul_assoc by lia. apply Z.mod_mul. lia. }
      unfold m0. rewrite round_shift_exact by lia.
      pose proof (Z.div_mod (Zpos p) (2 ^ n) ltac:(lia)). lia.
Qed.

Lemma binary_round_float32_finite (s s' : bool) (m M : positive) (e E : Z) :
  -125 <= Zpos (digits2_pos m) + e ->
  binary_round 24 128 s m e = S754_finite s' M E ->
  s' = s /\ Zpos (digits2_pos M) = 24 /\ -149 <= E <= 104 /\
  forall K, 0 <= e + K -> 0 <= E + K ->
    2 ^ 24 * Z.abs (Zpos M * 2 ^ (E + K) - Zpos m * 2 ^ (e + K)) <= Zpos m * 2 ^ (e + K).
Proof.
  intros Hnormal. pose proof (digits2_pos_bounds m) as Hd.
  set (d := Zpos (digits2_pos m)) in *.
  destruct (Z.le_gt_cases d 24) as [Hshort|Hlong].
  - rewrite binary_round_short by (fold d; lia). fold d.
    destruct (Z.leb_spec (d + e - 24) (128 - 24)) as [Hle|?]; [|discriminate].
    intros [= <- <- <-].
    assert (H2 : 0 < 2 ^ (24 - d)) by (apply Z.pow_pos_nonneg; lia).
    assert (HM : Zpos (Z.to_pos (Zpos m * 2 ^ (24 - d))) = Zpos m * 2 ^ (24 - d))
      by (apply Z2Pos.id; lia).
    split; [reflexivity|]. split; [|split; [lia|]].
    + apply digits2_pos_unique. rewrite HM.
      assert (E1 : 2 ^ (24 - 1) = 2 ^ (d - 1) * 2 ^ (24 - d)).
      { rewrite <- Z.pow_add_r by lia. f_equal. lia. }
      assert (E2 : 2 ^ 24 = 2 ^ d * 2 ^ (24 - d)).
      { rewrite <- Z.pow_add_r by lia. f_equal. lia. }
      split.
      * rewrite E1. apply Z.mul_le_mono_nonneg_r; lia.
      * rewrite E2. apply Z.mul_lt_mono_pos_r; lia.
    + intros K HeK HEK. rewrite HM, <- Z.mul_assoc, <- Z.pow_add_r by lia.
      replace (24 - d + (d + e - 24 + K)) with (e + K) by lia.
      rewrite Z.sub_diag. simpl Z.abs.
      assert (0 < 2 ^ (e + K)) by (apply Z.pow_pos_nonneg; lia). nia.
  - destruct (binary_round_long 24 128 ltac:(lia) s m e ltac:(fold d; lia) ltac:(fold d; lia))
      as [Hm0 Hround].
    fold d in Hm0, Hround. set (n := d - 24) in *.
    set (m0 := round_shift (Zpos m) n) in *.
    assert (Hpn : 0 < 2 ^ n) by (apply Z.pow_pos_nonneg; lia).
    assert (Herr : 2 ^ 24 * Z.abs (m0 * 2 ^ n - Zpos m) <= Zpos m).
    { assert (Hlow : 2 ^ (n + 23) <= Zpos m).
      { replace (n + 23) with (d - 1) by lia. lia. }
      rewrite Z.pow_add_r in Hlow by lia.
      pose proof (Z.div_mod (Zpos m) (2 ^ n) ltac:(lia)) as Hdm.
      pose proof (Z.mod_pos_bound (Zpos m) (2 ^ n) ltac:(lia)) as Hr.
      destruct (round_shift_spec (Zpos m) n ltac:(lia) ltac:(lia)) as [[E0 Hb]|[E0 Hb]];
        fold m0 in E0; rewrite E0; change (2 ^ 24) with 16777216 in *;
        change (2 ^ 23) with 8388608 in *; nia. }
    assert (Hscale : forall M' E' K, Zpos M' * 2 ^ (E' - (e + n)) = m0 -> e + n <= E' ->
               0 <= e + K ->
               2 ^ 24 * Z.abs (Zpos M' * 2 ^ (E' + K) - Zpos m * 2 ^ (e + K))
               <= Zpos m * 2 ^ (e + K)).
    { intros M' E' K HM' HE' HeK.
      assert (HK : 0 < 2 ^ (e + K)) by (apply Z.pow_pos_nonneg; lia).
      replace (E' + K) with ((E' - (e + n)) + (n + (e + K))) by lia.
      rewrite (Z.pow_add_r 2 (E' - (e + n))), (Z.pow_add_r 2 n) by lia.
      rewrite !Z.mul_assoc, HM'.
      replace (m0 * 2 ^ n * 2 ^ (e + K) - Zpos m * 2 ^ (e + K))
        with ((m0 * 2 ^ n - Zpos m) * 2 ^ (e + K)) by ring.
      rewrite Z.abs_mul, (Z.abs_eq (2 ^ (e + K))) by lia.
      rewrite Z.mul_assoc. apply Z.mul_le_mono_nonneg_r; lia. }
    rewrite Hround. destruct (Z.eqb_spec m0 (2 ^ 24)) as [Etop|Etop].
    + destruct (Z.leb_spec (e + n + 1) (128 - 24)) as [Hle|?]; [|discriminate].
      intros [= <- <- <-]. split; [reflexivity|]. split; [reflexivity|].
      split; [lia|]. intros K HeK HEK. apply Hscale; [|lia|lia].
      replace (e + n + 1 - (e + n)) with 1 by lia. rewrite Etop. reflexivity.
    + destruct (Z.leb_spec (e + n) (128 - 24)) as [Hle|?]; [|discriminate].
      intros [= <- <- <-]. split; [reflexivity|].
      assert (HM : Zpos (Z.to_pos m0) = m0) by (apply Z2Pos.id; lia).
      split; [|split; [lia|]].
      * apply digits2_pos_unique. rewrite HM. lia.
      * intros K HeK HEK. apply Hscale; [|lia|lia].
        rewrite Z.sub_diag, Z.pow_0_r, HM. lia.
Qed.

Lemma float64_of_float32_finite (s : bool) (M : positive) (E : Z) :
  Zpos (digits2_pos M) = 24 -> -149 <= E <= 104 ->
  float64_of_float32 (S754_finite s M E)
  = S754_finite s (Z.to_pos (Zpos M * 2 ^ 29)) (E - 29).
Proof.
  intros Hd HE. unfold float64_of_float32.
  assert (Hbr : binary_normalize 53 1024 (cond_Zopp s (Zpos M)) E s
                = binary_round 53 1024 s M E) by (destruct s; reflexivity).
  rewrite Hbr, binary_round_short by (rewrite ?Hd; lia). rewrite Hd.
  destruct (Z.leb_spec (24 + E - 53) (1024 - 53)) as [_|?]; [|lia].
  f_equal. lia.
Qed.

(** ** ArrayCodec *)

Lemma write_into_length {A} (destination stored : list A) :
  length (write_into destination stored) = length destination.
Proof.
  unfold write_into. rewrite length_take, length_app, length_drop. lia.
Qed.

Lemma native_items_length (a : ndarray) :
  length (native_items a) = length (nd_flat a).
Proof.
  unfold native_items. destruct (bool_decide _); [apply length_map|].
  destruct (nd_view a); rewrite length_map; [apply length_seq | reflexivity].
Qed.

Lemma encode_array_run `{NativeCodec} (array : ndarray) :
  encode_array array
  = let item_count := Z.of_nat (length (native_items array)) in
    let bound := meshopt_encodeVertexBufferBound item_count 4 in
    let call := meshopt_encodeVertexBuffer bound (native_items array) item_count 4 in
    if (fst call =? 0)%N then Raise RuntimeError
    else Ok {| data := take (N.to_nat (fst call))
                         (write_into (replicate (N.to_nat bound) x00) (snd call));
               shape := nd_shape array;
               dtype := nd_dtype array;
               itemsize := 4 |}.
Proof.
  unfold encode_array. cbv zeta.
  assert (Hlen : length (if bool_decide (nd_dtype array <> float32)
                         then map astype_float32 (nd_flat array)
                         else map float32_item (nd_flat array))
                 = length (native_items array)).
  { rewrite native_items_length. destruct (bool_decide _); apply length_map. }
  rewrite Hlen. destruct (meshopt_encodeVertexBuffer _ _ _ _). reflexivity.
Qed.

(** C5. [encode_array] raises its [RuntimeError] exactly when the native
    encoder returns 0, and raises nothing else.  Otherwise it returns the
    shape and the dtype of the input, as [data] the first [result_size] bytes
    of the buffer of [bound] bytes that the encoder wrote to, and 4, the
    width of a float32, as [itemsize], whatever the dtype of the input. *)
Theorem encode_array_spec `{NativeCodec} (array : ndarray) :
  let flattened := native_items array in
  let item_count := Z.of_nat (length flattened) in
  let bound := meshopt_encodeVertexBufferBound item_count 4 in
  let call := meshopt_encodeVertexBuffer bound flattened item_count 4 in
  let buffer := write_into (replicate (N.to_nat bound) x00) (snd call) in
  length buffer = N.to_nat bound /\
  (encode_array array = Raise RuntimeError <-> fst call = 0%N) /\
  (forall e, encode_array array = Raise e ->
             e = RuntimeError /\ kind_of e = EncodingOrDecodingError) /\
  (fst call <> 0%N ->
   encode_array array
   = Ok {| data := take (N.to_nat (fst call)) buffer;
           shape := nd_shape array;
           dtype := nd_dtype array;
           itemsize := 4 |}).
Proof.
  intros flattened item_count bound call buffer.
  subst buffer call bound item_count flattened. rewrite encode_array_run. cbv zeta.
  split; [|split; [|split]].
  - now rewrite write_into_length, length_replicate.
  - destruct (meshopt_encodeVertexBuffer _ _ _ _) as [result_size stored]. cbn [fst].
    destruct (N.eqb_spec result_size 0); split; congruence || discriminate.
  - intros e.
    destruct (meshopt_encodeVertexBuffer _ _ _ _) as [result_size stored]. cbn [fst].
    destruct (result_size =? 0)%N.
    + intros [= <-]. split; reflexivity.
    + discriminate.
  - intros Hw.
    destruct (meshopt_encodeVertexBuffer _ _ _ _) as [result_size stored].
    cbn [fst snd] in *.
    destruct (N.eqb_spec result_size 0); [contradiction|reflexivity].
Qed.

(** The float32 array [[1.5], [-2.0]] on the stand-in codec. *)
Lemma encode_array_spec_witness :
  encode_array (H := RawCodec.lib) example_float32_array
  = Ok {| data := [x01; x00; x00; xc0; x3f; x00; x00; x00; xc0];
          shape := [2; 1]; dtype := float32; itemsize := 4 |}.
Proof.
  apply (proj2 (proj2 (proj2 (encode_array_spec (H := RawCodec.lib) example_float32_array)))).
  vm_compute. discriminate.
Defined.

(** ** ArchiveBundler, several arrays *)








Section ArraysArchive.
Context `{NativeCodec} `{Platform}.






End ArraysArchive.

Lemma write_into_full {A} (destination stored : list A) :
  length stored = length destination -> write_into destination stored = stored.
Proof.
  intros Hlen. unfold write_into.
  rewrite drop_ge, app_nil_r by lia. apply take_ge. lia.
Qed.

Lemma wrap_int64_small (n : Z) : - 2 ^ 63 <= n < 2 ^ 63 -> wrap_int64 n = n.
Proof. intros Hn. unfold wrap_int64. rewrite Z.mod_small; lia. Qed.

Lemma encode_array_fields `{NativeCodec} (a : ndarray) (e : EncodedArray) :
  encode_array a = Ok e ->
  shape e = nd_shape a /\ dtype e = nd_dtype a /\ itemsize e = 4.
Proof.
  unfold encode_array. destruct (meshopt_encodeVertexBuffer _ _ _ _) as [n stored].
  destruct (n =? 0)%N; [discriminate|]. intros [= <-]. repeat split.
Qed.

(** A record without dimensions cannot be decoded: the product over the
    empty shape is the float 1.0, which [np.zeros] refuses as a count. *)
Lemma decode_array_no_dimension `{NativeCodec} `{Platform} (e : EncodedArray) :
  shape e = [] -> decode_array e = Raise TypeError.
Proof. intros Hs. unfold decode_array. rewrite Hs. reflexivity. Qed.

Lemma decode_array_run `{NativeCodec} `{Platform} (e : EncodedArray)
  (items : list spec_float) :
  shape e <> [] ->
  forallb (Z.leb 0) (shape e) = true ->
  forallb in_int64 (shape e) = true ->
  fold_right Z.mul 1 (shape e) = Z.of_nat (length items) ->
  Z.of_nat (length items) < 2 ^ 63 ->
  np_zeros_refused (Z.of_nat (length items)) = None ->
  meshopt_decodeVertexBuffer (Z.of_nat (length items)) (itemsize e) (data e)
    (Z.of_nat (length (data e))) = (0, items) ->
  decode_array e
  = Ok {| nd_shape := shape e;
          nd_dtype := dtype e;
          nd_flat := if bool_decide (dtype e <> float32)
                     then map (astype_from_float32 (dtype e)) items
                     else map SFloat items;
          nd_view := None |}.
Proof.
  intros Hne Hdims Hfit Hprod Hsmall Hroom Hdecode. unfold decode_array.
  assert (Htotal : np_prod (shape e) = SInt (Z.of_nat (length items))).
  { unfold np_prod. destruct (shape e); [congruence|].
    rewrite Hfit, Hprod, wrap_int64_small by lia. reflexivity. }
  rewrite Htotal. cbn [np_zeros_float32].
  destruct (Z.ltb_spec (Z.of_nat (length items)) 0) as [?|_]; [lia|].
  rewrite Hroom. cbn [mbind result_bind]. rewrite Hdecode. cbn [Z.eqb negb].
  rewrite write_into_full by (rewrite length_replicate; lia).
  unfold np_reshape. rewrite Hfit, Hdims, Hprod, Z.eqb_refl. reflexivity.
Qed.

Lemma native_items_own (a : ndarray) :
  encodes_own_elements a = true ->
  native_items a = if bool_decide (nd_dtype a <> float32)
                   then map astype_float32 (nd_flat a)
                   else map float32_item (nd_flat a).
Proof.
  unfold encodes_own_elements, native_items.
  destruct (bool_decide _); [reflexivity|]. destruct (nd_view a); [discriminate|reflexivity].
Qed.

(** The round trip through the codec of an array that [roundtrippable]
    describes, when the native decoder returns the items that the encoder
    was given. *)
Lemma codec_roundtrip_run `{NativeCodec} `{Platform} (a : ndarray) (e : EncodedArray) :
  roundtrippable a ->
  encode_array a = Ok e ->
  codec_inverts a e ->
  decode_array e = Ok (roundtrip_array a).
Proof.
  intros (Hne & Hok & Hown & Hroom) Henc Hdec. unfold codec_inverts in Hdec.
  destruct (encode_array_fields a e Henc) as (Hshape & Hdtype & Hsize).
  unfold ndarray_ok in Hok.
  apply andb_true_iff in Hok as [Hok Helems].
  apply andb_true_iff in Hok as [Hok Hsmall].
  apply andb_true_iff in Hok as [Hok Hprod].
  apply andb_true_iff in Hok as [Hdims Hfit].
  apply Z.eqb_eq in Hprod. apply Z.ltb_lt in Hsmall.
  pose proof (native_items_length a) as Hlen.
  rewrite (decode_array_run e (native_items a)); rewrite ?Hshape, ?Hsize, ?Hlen;
    try assumption.
  unfold roundtrip_array. rewrite Hdtype. f_equal. f_equal.
  rewrite (native_items_own a Hown). unfold roundtrip_scalar.
  destruct (bool_decide (nd_dtype a <> float32)); now rewrite map_map.
Qed.





(** ** The array codec round trip *)

Lemma int_range_64 (d : numpy_dtype) (n : Z) :
  is_int_dtype d = true -> has_dtype d (SInt n) = true -> Z.abs n < 2 ^ 64.
Proof.
  destruct d; try discriminate; intros _; cbn [has_dtype int_range fst snd];
    intros [H1 H2]%andb_true_iff; apply Z.leb_le in H1, H2; lia.
Qed.

Lemma float32_of_int_value (n : Z) :
  Z.abs n < 2 ^ 64 ->
  exists v,
    trunc_float (float32_of_int n) = Some v /\
    2 ^ 24 * Z.abs (v - n) <= Z.abs n /\
    (representable_float32 n -> v = n).
Proof.
  intros Hn. destruct n as [|p|p].
  - exists 0. repeat split; reflexivity || (simpl; lia).
  - destruct (binary_round_int false p ltac:(lia)) as (v & Hv & Herr & Hex).
    exists v. split; [exact Hv|]. split; [simpl Z.abs; lia|exact Hex].
  - destruct (binary_round_int true p ltac:(lia)) as (v & Hv & Herr & Hex).
    exists (- v). split; [exact Hv|]. split.
    + replace (- v - Zneg p) with (- (v - Zpos p)) by lia.
      rewrite Z.abs_opp. simpl Z.abs. lia.
    + intros (m & k & Hk & Hmk & Hm). rewrite Hex; [reflexivity|].
      exists (- m), k. split; [exact Hk|]. split; [lia|]. now rewrite Z.abs_opp.
Qed.

Section Elements.
Context `{Platform}.

(** An integer that is a float32 value comes back as it is. *)
Lemma roundtrip_int_exact (d : numpy_dtype) (n : Z) :
  is_int_dtype d = true -> has_dtype d (SInt n) = true ->
  representable_float32 n ->
  astype_from_float32 d (astype_float32 (SInt n)) = SInt n.
Proof.
  intros Hd Hn Hrep. pose proof (int_range_64 d n Hd Hn) as H64.
  destruct (float32_of_int_value n H64) as (v & Hv & _ & Hex).
  rewrite (Hex Hrep) in Hv. cbn [astype_float32].
  destruct d; try discriminate; cbn [astype_from_float32]; rewrite Hv;
    cbn [has_dtype] in Hn; rewrite Hn; reflexivity.
Qed.

(** An integer whose float32 is in the range of its dtype comes back within
    the tolerance. *)
Lemma roundtrip_int_tolerance (d : numpy_dtype) (n : Z) :
  is_int_dtype d = true -> has_dtype d (SInt n) = true ->
  in_float32_range d (SInt n) = true ->
  within_tolerance (SInt n) (astype_from_float32 d (astype_float32 (SInt n))) = true.
Proof.
  intros Hd Hn Hin. pose proof (int_range_64 d n Hd Hn) as H64.
  destruct (float32_of_int_value n H64) as (v & Hv & Herr & _).
  cbn [astype_float32].
  destruct d; try discriminate; cbn [astype_from_float32 in_float32_range] in *;
    rewrite Hv in *; rewrite Hin; cbn [within_tolerance]; apply Z.leb_le; exact Herr.
Qed.

Lemma same_float_refl (f : spec_float) : same_float f f = true.
Proof.
  destruct f as [s|s| |s m e]; simpl; rewrite ?eqb_reflx, ?Pos.eqb_refl, ?Z.eqb_refl;
    reflexivity.
Qed.

(** A float64 in the normal range of float32 comes back within the
    tolerance. *)
Lemma roundtrip_float64_tolerance (f : spec_float) :
  has_dtype float64 (SFloat f) = true ->
  in_float32_range float64 (SFloat f) = true ->
  within_tolerance (SFloat f) (astype_from_float32 float64 (astype_float32 (SFloat f)))
  = true.
Proof.
  intros Hvalid Hin. cbn [astype_float32 astype_from_float32 within_tolerance].
  destruct f as [s|s| |s m e]; try (cbn; rewrite ?eqb_reflx; reflexivity).
  cbn [has_dtype valid_binary] in Hvalid. cbn [in_float32_range] in Hin.
  apply andb_true_iff in Hin as [Hnormal Hfinite]. apply Z.leb_le in Hnormal.
  unfold bounded, canonical_mantissa, fexp, SpecFloat.emin in Hvalid.
  apply andb_true_iff in Hvalid as [Hcanon _]. apply Z.eqb_eq in Hcanon.
  assert (He : -1074 <= e) by lia.
  assert (Hbr : float32_of_float (S754_finite s m e) = binary_round 24 128 s m e)
    by (destruct s; reflexivity).
  rewrite Hbr in *.
  destruct (binary_round 24 128 s m e) as [| | |s' M E] eqn:Hround; try discriminate.
  destruct (binary_round_float32_finite s s' m M e E Hnormal Hround)
    as (-> & HdM & HE & Herr).
  rewrite (float64_of_float32_finite s M E HdM HE).
  apply orb_true_iff. right. cbn [scaled].
  destruct (Z.leb_spec (-1074) e) as [_|?]; [|lia].
  destruct (Z.leb_spec (-1074) (E - 29)) as [_|?]; [|lia].
  apply Z.leb_le.
  rewrite Z2Pos.id by (assert (0 < 2 ^ 29) by reflexivity; lia).
  rewrite <- Z.mul_assoc, <- Z.pow_add_r by lia.
  replace (29 + (E - 29 + 1074)) with (E + 1074) by lia.
  specialize (Herr 1074 ltac:(lia) ltac:(lia)).
  assert (0 < 2 ^ (e + 1074)) by (apply Z.pow_pos_nonneg; lia).
  destruct s; cbn [cond_Zopp].
  - replace (- (Zpos M * 2 ^ (E + 1074)) - - (Zpos m * 2 ^ (e + 1074)))
      with (- (Zpos M * 2 ^ (E + 1074) - Zpos m * 2 ^ (e + 1074))) by lia.
    rewrite !Z.abs_opp. rewrite (Z.abs_eq (Zpos m * 2 ^ (e + 1074))) by lia. exact Herr.
  - rewrite (Z.abs_eq (Zpos m * 2 ^ (e + 1074))) by lia. exact Herr.
Qed.

End Elements.

Lemma within_tolerance_refl_float (f : spec_float) :
  within_tolerance (SFloat f) (SFloat f) = true.
Proof. cbn [within_tolerance]. now rewrite same_float_refl. Qed.

(** C1, as amended. For a well-formed array with at least one dimension that
    is given to the encoder with its own elements (an array that is not of
    dtype float32, or whose [reshape(-1)] is contiguous) and that the encoder
    accepts, with the native decoder returning the items that the encoder
    was given and memory for them, [decode_array (encode_array A)] is an
    array of the shape and the dtype of [A] whose elements are those of [A]
    converted to float32 and back: equal to the original for a float32 array
    and for the integers that are float32 values, and within the rounding
    error of float32 for the integers whose float32 is in the range of the
    dtype and for the float64 in the normal range of float32. *)
Theorem array_codec_roundtrip `{NativeCodec} `{Platform} (A : ndarray) (e : EncodedArray) :
  nd_shape A <> [] ->
  ndarray_ok A = true ->
  encodes_own_elements A = true ->
  np_zeros_refused (Z.of_nat (length (nd_flat A))) = None ->
  encode_array A = Ok e ->
  meshopt_decodeVertexBuffer (Z.of_nat (length (nd_flat A))) 4 (data e)
    (Z.of_nat (length (data e))) = (0, native_items A) ->
  exists A',
    decode_array e = Ok A' /\
    nd_shape A' = nd_shape A /\
    nd_dtype A' = nd_dtype A /\
    nd_flat A' = map (roundtrip_scalar (nd_dtype A)) (nd_flat A) /\
    Forall2 (fun x x' =>
               (nd_dtype A = float32 -> x' = x) /\
               (is_int_dtype (nd_dtype A) = true ->
                forall n, x = SInt n -> representable_float32 n -> x' = x) /\
               (in_float32_range (nd_dtype A) x = true -> within_tolerance x x' = true))
      (nd_flat A) (nd_flat A').
Proof.
  intros Hne Hok Hown Hroom Henc Hdec.
  exists (roundtrip_array A).
  split; [|split; [|split; [|split]]]; try reflexivity.
  - apply codec_roundtrip_run; [repeat split; assumption | exact Henc | exact Hdec].
  - unfold ndarray_ok in Hok. apply andb_true_iff in Hok as [_ Helems].
    cbn [nd_flat roundtrip_array].
    apply Forall2_fmap_r, Forall_Forall2_diag.
    rewrite forallb_forall in Helems. apply Forall_forall.
    intros x Hx%list_elem_of_In. specialize (Helems x Hx). unfold roundtrip_scalar.
    destruct (decide (nd_dtype A = float32)) as [Hf|Hnf].
    + rewrite bool_decide_eq_false_2 by (intros Hc; contradiction).
      rewrite Hf in *. destruct x as [n|f]; [discriminate Helems|].
      cbn [float32_item]. split; [reflexivity|]. split; [discriminate|].
      intros _. apply within_tolerance_refl_float.
    + rewrite bool_decide_eq_true_2 by assumption. split; [contradiction|].
      destruct (nd_dtype A) eqn:Hd; try congruence;
        destruct x as [n|f]; try discriminate Helems.
      all: split; [discriminate ||
                   (intros _ n' [= <-] Hrep; now apply roundtrip_int_exact)|].
      all: try (intros Hin; now apply roundtrip_int_tolerance).
      intros Hin. now apply roundtrip_float64_tolerance.
Qed.

(** The round trip of C1 for the int32 array [7, -100, 16777216]. *)
Lemma array_codec_roundtrip_witness :
  exists A',
    decode_array (H := RawCodec.lib) (H0 := RawCodec.platform)
      example_encoded_int32_array = Ok A' /\
    nd_shape A' = [3] /\
    nd_dtype A' = int32 /\
    nd_flat A' = map (roundtrip_scalar (H := RawCodec.platform) int32)
                   (nd_flat example_int32_array) /\
    Forall2 (fun x x' =>
               (int32 = float32 -> x' = x) /\
               (is_int_dtype int32 = true ->
                forall n, x = SInt n -> representable_float32 n -> x' = x) /\
               (in_float32_range int32 x = true -> within_tolerance x x' = true))
      (nd_flat example_int32_array) (nd_flat A').
Proof.
  apply (array_codec_roundtrip (H := RawCodec.lib) (H0 := RawCodec.platform)
           example_int32_array example_encoded_int32_array).
  - discriminate.
  - vm_compute. reflexivity.
  - vm_compute. reflexivity.
  - vm_compute. reflexivity.
  - vm_compute. reflexivity.
  - vm_compute. reflexivity.
Defined.

(** The amendment of C1 needs the elements to be what the encoder reads: for
    the float32 array [0, 2, 4] that is every second element of
    [0, 1, 2, 3, 4, 5], the encoder reads [0, 1, 2] at the data pointer, and
    these come back. *)
Lemma strided_view_is_not_roundtripped :
  ndarray_ok example_strided_array = true /\
  encodes_own_elements example_strided_array = false /\
  (encode_array (H := RawCodec.lib) example_strided_array
   ≫= decode_array (H := RawCodec.lib) (H0 := RawCodec.platform))
  = Ok {| nd_shape := [3]; nd_dtype := float32;
          nd_flat := [SFloat (S754_zero false); SFloat f32_1; SFloat f32_2];
          nd_view := None |}.
Proof. repeat split; vm_compute; reflexivity. Qed.

(** C1 as stated fails: the float64 2^200 is beyond the range of float32,
    becomes infinite in the conversion and comes back infinite, which is
    within no tolerance of the original. *)
Lemma float64_beyond_float32_range :
  ~ (forall (C : NativeCodec) (P : Platform) (A : ndarray) (e : EncodedArray),
       ndarray_ok A = true ->
       encode_array A = Ok e ->
       meshopt_decodeVertexBuffer (Z.of_nat (length (nd_flat A))) 4 (data e)
         (Z.of_nat (length (data e))) = (0, native_items A) ->
       exists A',
         decode_array e = Ok A' /\
         nd_shape A' = nd_shape A /\
         Forall2 (fun x x' => within_tolerance x x' = true) (nd_flat A) (nd_flat A')).
Proof.
  intros claim.
  destruct (claim RawCodec.lib RawCodec.platform example_float64_array
              (from_ok example_encoded_array
                 (encode_array (H := RawCodec.lib) example_float64_array)))
    as (A' & Hdec & _ & Htol).
  - vm_compute. reflexivity.
  - vm_compute. reflexivity.
  - vm_compute. reflexivity.
  - vm_compute in Hdec. injection Hdec as <-.
    cbn [nd_flat example_float64_array] in Htol.
    apply Forall2_cons_1 in Htol as [Htol _]. vm_compute in Htol. discriminate Htol.
Qed.

(** * Further properties of the savers and loaders *)

(** ** One array in a zip archive *)

Lemma save_encoded_array_to_zip_run `{JsonLib} `{ZipLib} (e : EncodedArray)
  (p dn mn : string) (fs : filesystem) (text : string) :
  dn <> "" -> mn <> "" ->
  json_dumps (Some 2%nat) (array_metadata e) = Ok text ->
  save_encoded_array_to_zip e p dn mn fs
  = (<[p := zip_image (array_archive e dn mn text)]> fs, Ok tt).
Proof.
  intros Hdn Hmn Hdumps. unfold save_encoded_array_to_zip, with_zip_w.
  rewrite run_bind, writestr_nonempty by exact Hdn. cbv beta iota.
  rewrite run_bind, run_lift, Hdumps. cbv beta iota.
  unfold writestr_text. rewrite writestr_nonempty by exact Hmn. reflexivity.
Qed.

Lemma load_encoded_array_from_zip_run `{JsonLib} `{ZipLib} (p dn mn : string)
  (fs : filesystem) (z : archive) (content : bytes) :
  fs !! p = Some content ->
  zip_parse content = Some z ->
  load_encoded_array_from_zip p dn mn fs
  = (metadata ← zip_read z mn ≫= json_loads_bytes;
     d ← zip_read z dn;
     make_encoded_array d metadata).
Proof.
  intros Hp Hz. unfold load_encoded_array_from_zip, with_zip_r. rewrite Hp, Hz.
  destruct (zip_read z mn ≫= json_loads_bytes) as [metadata|?]; [|reflexivity].
  cbn [mbind result_bind]. destruct (zip_read z dn); reflexivity.
Qed.

Lemma zip_read_last (z : archive) (name : string) (b : bytes) :
  zip_read (z ++ [(name, b)]) name = Ok b.
Proof.
  unfold zip_read. rewrite rev_app_distr. simpl. now rewrite String.eqb_refl.
Qed.

Lemma zip_read_before (z : archive) (name other : string) (b : bytes) :
  name <> other -> zip_read (z ++ [(other, b)]) name = zip_read z name.
Proof.
  intros Hne. unfold zip_read. rewrite rev_app_distr. simpl.
  now destruct (String.eqb_spec name other).
Qed.

Lemma zip_read_pair_snd (n1 n2 : string) (b1 b2 : bytes) :
  zip_read [(n1, b1); (n2, b2)] n2 = Ok b2.
Proof. exact (zip_read_last [(n1, b1)] n2 b2). Qed.

Lemma zip_read_pair_fst (n1 n2 : string) (b1 b2 : bytes) :
  n1 <> n2 -> zip_read [(n1, b1); (n2, b2)] n1 = Ok b1.
Proof.
  intros Hne. change [(n1, b1); (n2, b2)] with ([(n1, b1)] ++ [(n2, b2)]).
  rewrite zip_read_before by exact Hne. exact (zip_read_last [] n1 b1).
Qed.

Lemma load_array_archive `{JsonLib} `{ZipLib} (e : EncodedArray) (p dn mn : string)
  (fs : filesystem) (text : string) :
  dn <> mn ->
  json_loads_bytes (str_encode text) = Ok (array_metadata e) ->
  zip_parse (zip_image (array_archive e dn mn text)) = Some (array_archive e dn mn text) ->
  load_encoded_array_from_zip p dn mn (<[p := zip_image (array_archive e dn mn text)]> fs)
  = Ok e.
Proof.
  intros Hne Hloads Hzip.
  rewrite (load_encoded_array_from_zip_run p dn mn _ _ _ (lookup_insert_eq _ _ _) Hzip).
  unfold array_archive.
  rewrite zip_read_pair_snd. cbn [mbind result_bind]. rewrite Hloads.
  cbn [mbind result_bind]. rewrite zip_read_pair_fst by exact Hne.
  cbn [mbind result_bind]. apply make_encoded_array_metadata.
Qed.

(** X1. An encoded array saved to a zip archive under two distinct entry
    names, the default ones or others that [zipfile] keeps as they are, is
    loaded back unchanged: the archive holds the payload under the data
    name, then the metadata. *)
Theorem encoded_array_zip_roundtrip `{JsonLib} `{ZipLib} (e : EncodedArray)
  (p dn mn : string) (fs : filesystem) (text : string) :
  entry_name_ok dn = true ->
  entry_name_ok mn = true ->
  dn <> mn ->
  json_dumps (Some 2%nat) (array_metadata e) = Ok text ->
  json_loads_bytes (str_encode text) = Ok (array_metadata e) ->
  zip_parse (zip_image (array_archive e dn mn text)) = Some (array_archive e dn mn text) ->
  exists fs',
    save_encoded_array_to_zip e p dn mn fs = (fs', Ok tt) /\
    fs' !! p = Some (zip_image [(dn, data e); (mn, str_encode text)]) /\
    load_encoded_array_from_zip p dn mn fs' = Ok e.
Proof.
  intros Hdn%entry_name_ok_nonempty Hmn%entry_name_ok_nonempty Hne Hdumps Hloads Hzip.
  exists (<[p := zip_image (array_archive e dn mn text)]> fs).
  split; [now apply save_encoded_array_to_zip_run|].
  split; [apply lookup_insert_eq|]. now apply load_array_archive.
Qed.

(** The round trip of X1 for the default entry names. *)
Lemma encoded_array_zip_roundtrip_witness :
  exists fs',
    save_encoded_array_to_zip (H := RefJson.lib) (H0 := RefZip.lib)
      example_encoded_array "array.zip" "data.bin" "metadata.json" ∅ = (fs', Ok tt) /\
    fs' !! "array.zip"
    = Some (RefZip.image
              [("data.bin", data example_encoded_array);
               ("metadata.json",
                str_encode (text_of (RefJson.dumps (Some 2%nat)
                                       (array_metadata example_encoded_array))))]) /\
    load_encoded_array_from_zip (H := RefJson.lib) (H0 := RefZip.lib)
      "array.zip" "data.bin" "metadata.json" fs' = Ok example_encoded_array.
Proof.
  apply (encoded_array_zip_roundtrip (H := RefJson.lib) (H0 := RefZip.lib)
           example_encoded_array "array.zip" "data.bin" "metadata.json" ∅
           (text_of (RefJson.dumps (Some 2%nat) (array_metadata example_encoded_array))));
    [reflexivity | reflexivity | discriminate | vm_compute; reflexivity ..].
Defined.

(** X2. When the data entry and the metadata entry are given the same name,
    one that [zipfile] keeps as it is, the save succeeds and the load
    succeeds too, but the payload is lost: the loaded record has the bytes
    of the metadata text as its data. *)
Theorem encoded_array_zip_same_name `{JsonLib} `{ZipLib} (e : EncodedArray)
  (p n : string) (fs : filesystem) (text : string) :
  entry_name_ok n = true ->
  json_dumps (Some 2%nat) (array_metadata e) = Ok text ->
  json_loads_bytes (str_encode text) = Ok (array_metadata e) ->
  zip_parse (zip_image (array_archive e n n text)) = Some (array_archive e n n text) ->
  exists fs',
    save_encoded_array_to_zip e p n n fs = (fs', Ok tt) /\
    load_encoded_array_from_zip p n n fs'
    = Ok {| data := str_encode text; shape := shape e; dtype := dtype e;
            itemsize := itemsize e |}.
Proof.
  intros Hn%entry_name_ok_nonempty Hdumps Hloads Hzip.
  exists (<[p := zip_image (array_archive e n n text)]> fs).
  split; [now apply save_encoded_array_to_zip_run|].
  rewrite (load_encoded_array_from_zip_run p n n _ _ _ (lookup_insert_eq _ _ _) Hzip).
  unfold array_archive.
  rewrite !zip_read_pair_snd. cbn [mbind result_bind]. rewrite Hloads.
  cbn [mbind result_bind]. apply make_encoded_array_of_metadata.
Qed.

(** One entry name for both: the record comes back with the metadata text as data. *)
Lemma encoded_array_zip_same_name_witness :
  exists fs',
    save_encoded_array_to_zip (H := RefJson.lib) (H0 := RefZip.lib)
      example_encoded_array "array.zip" "entry" "entry" ∅ = (fs', Ok tt) /\
    load_encoded_array_from_zip (H := RefJson.lib) (H0 := RefZip.lib)
      "array.zip" "entry" "entry" fs'
    = Ok {| data := str_encode (text_of (RefJson.dumps (Some 2%nat)
                                           (array_metadata example_encoded_array)));
            shape := shape example_encoded_array;
            dtype := dtype example_encoded_array;
            itemsize := itemsize example_encoded_array |}.
Proof.
  apply (encoded_array_zip_same_name (H := RefJson.lib) (H0 := RefZip.lib)
           example_encoded_array "array.zip" "entry" ∅
           (text_of (RefJson.dumps (Some 2%nat) (array_metadata example_encoded_array))));
    [reflexivity | vm_compute; reflexivity ..].
Defined.

(** X3. [load_encoded_array_from_zip] lets the exceptions of [zipfile]
    through as they are: [FileNotFoundError] for a path that does not exist,
    [BadZipFile] for a file that is not a zip container, and the [KeyError]
    of the entry name for an absent entry, the metadata entry first.  None of
    them is of the validation kind, unlike in the combined loader. *)
Theorem load_encoded_array_from_zip_errors `{JsonLib} `{ZipLib} (p dn mn : string)
  (fs : filesystem) :
  (fs !! p = None -> load_encoded_array_from_zip p dn mn fs = Raise FileNotFoundError) /\
  (forall content,
     fs !! p = Some content -> zip_parse content = None ->
     load_encoded_array_from_zip p dn mn fs = Raise BadZipFile) /\
  (forall content z,
     fs !! p = Some content -> zip_parse content = Some z ->
     (mn ∉ namelist z ->
      load_encoded_array_from_zip p dn mn fs = Raise (KeyError mn)) /\
     (forall metadata,
        zip_read z mn ≫= json_loads_bytes = Ok metadata -> dn ∉ namelist z ->
        load_encoded_array_from_zip p dn mn fs = Raise (KeyError dn))).
Proof.
  split; [|split].
  - intros Hp. unfold load_encoded_array_from_zip, with_zip_r. now rewrite Hp.
  - intros content Hp Hz. unfold load_encoded_array_from_zip, with_zip_r.
    now rewrite Hp, Hz.
  - intros content z Hp Hz.
    rewrite (load_encoded_array_from_zip_run p dn mn fs z content Hp Hz). split.
    + intros Habs. now rewrite (zip_read_absent _ _ Habs).
    + intros metadata -> Habs. cbn [mbind result_bind].
      now rewrite (zip_read_absent _ _ Habs).
Qed.

(** Loading from a path that does not exist, and from an archive that holds
    the data entry alone. *)
Lemma load_encoded_array_from_zip_errors_witness :
  load_encoded_array_from_zip (H := RefJson.lib) (H0 := RefZip.lib)
    "array.zip" "data.bin" "metadata.json" ∅ = Raise FileNotFoundError /\
  load_encoded_array_from_zip (H := RefJson.lib) (H0 := RefZip.lib)
    "array.zip" "data.bin" "metadata.json"
    {[ "array.zip" := RefZip.image [("data.bin", [x01])] ]}
  = Raise (KeyError "metadata.json").
Proof.
  split.
  - apply (proj1 (load_encoded_array_from_zip_errors (H := RefJson.lib) (H0 := RefZip.lib)
                    "array.zip" "data.bin" "metadata.json" ∅)).
    reflexivity.
  - refine (proj1 (proj2 (proj2 (load_encoded_array_from_zip_errors (H := RefJson.lib)
                                   (H0 := RefZip.lib) "array.zip" "data.bin"
                                   "metadata.json" _))
                     (RefZip.image [("data.bin", [x01])]) [("data.bin", [x01])] _ _) _).
    + reflexivity.
    + vm_compute. reflexivity.
    + unfold namelist. cbn. intros Hin. apply list_elem_of_singleton in Hin.
      discriminate Hin.
Defined.

(** ** Arrays saved and loaded in one call *)

Lemma save_encoded_array_to_file_run `{JsonLib} (e : EncodedArray) (p : string)
  (fs : filesystem) (text : string) (prefix : bytes) :
  json_dumps None (array_metadata e) = Ok text ->
  struct_pack_I (py_len text) = Ok prefix ->
  save_encoded_array_to_file e p fs
  = (<[p := prefix ++ str_encode text ++ data e]> fs, Ok tt).
Proof.
  intros Hdumps Hpack.
  unfold save_encoded_array_to_file, mbind, handle_bind, lift, with_open_wb, f_write.
  rewrite Hdumps, Hpack. cbn. now rewrite <- app_assoc.
Qed.

Lemma load_saved_array_file `{JsonLib} (e : EncodedArray) (p : string)
  (fs : filesystem) (text : string) (prefix : bytes) :
  json_loads text = Ok (array_metadata e) ->
  is_ascii text = true ->
  struct_pack_I (py_len text) = Ok prefix ->
  load_encoded_array_from_file p (<[p := prefix ++ str_encode text ++ data e]> fs) = Ok e.
Proof.
  intros Hloads Hascii Hpack.
  pose proof (struct_unpack_pack _ _ Hpack) as Hunpack.
  pose proof (struct_pack_I_length _ _ Hpack) as Hplen.
  rewrite (py_len_ascii _ Hascii) in Hunpack.
  unfold load_encoded_array_from_file, with_open_rb. rewrite lookup_insert_eq.
  destruct (take_drop_frame prefix (str_encode text) (data e) _ Hplen eq_refl) as [R1 R2].
  rewrite run_bind, R1, run_bind, run_lift, Hunpack, run_bind, R2.
  rewrite run_bind, run_lift, (bytes_decode_encode _ _ Hascii).
  rewrite run_bind, run_lift, Hloads.
  cbn. apply make_encoded_array_metadata.
Qed.

(** X4. [save_array_to_file] followed by [load_array_from_file] is the codec
    round trip: the loaded array is what [decode_array] returns for the
    [encode_array] of the saved one, so that the file adds no loss of its
    own.  When the array does not encode, the save raises the exception of
    the encoder and no file is created or changed. *)
Theorem array_file_roundtrip `{NativeCodec} `{Platform} `{JsonLib} (A : ndarray)
  (p : string) (fs : filesystem) :
  (forall err, encode_array A = Raise err -> save_array_to_file A p fs = (fs, Raise err)) /\
  (forall e text,
     encode_array A = Ok e ->
     json_dumps None (array_metadata e) = Ok text ->
     json_loads text = Ok (array_metadata e) ->
     is_ascii text = true ->
     py_len text < 2 ^ 32 ->
     exists fs',
       save_array_to_file A p fs = (fs', Ok tt) /\
       load_array_from_file p fs' = encode_array A ≫= decode_array).
Proof.
  split.
  - intros err Herr. unfold save_array_to_file. now rewrite run_bind, run_lift, Herr.
  - intros e text Henc Hdumps Hloads Hascii Hlen.
    destruct (struct_pack_I_ok (py_len text)) as [prefix Hpack].
    { split; [unfold py_len; lia | exact Hlen]. }
    exists (<[p := prefix ++ str_encode text ++ data e]> fs). split.
    + unfold save_array_to_file. rewrite run_bind, run_lift, Henc. cbv beta iota.
      now apply save_encoded_array_to_file_run.
    + unfold load_array_from_file.
      rewrite (load_saved_array_file e p fs text prefix Hloads Hascii Hpack).
      now rewrite Henc.
Qed.

(** The round trip of X4 for the int32 array [7, -100, 16777216]. *)
Lemma array_file_roundtrip_witness :
  exists fs',
    save_array_to_file (H := RawCodec.lib) (H0 := RefJson.lib) example_int32_array
      "array.bin" ∅ = (fs', Ok tt) /\
    load_array_from_file (H := RawCodec.lib) (H0 := RawCodec.platform) (H1 := RefJson.lib)
      "array.bin" fs'
    = encode_array (H := RawCodec.lib) example_int32_array
      ≫= decode_array (H := RawCodec.lib) (H0 := RawCodec.platform).
Proof.
  apply (proj2 (array_file_roundtrip (H := RawCodec.lib) (H0 := RawCodec.platform)
                  (H1 := RefJson.lib) example_int32_array "array.bin" ∅)
           example_encoded_int32_array
           (text_of (RefJson.dumps None (array_metadata example_encoded_int32_array))));
    vm_compute; reflexivity.
Defined.

(** X5. The same for the zip archive of one array, under two distinct entry
    names that [zipfile] keeps as they are: [load_array_from_zip] after
    [save_array_to_zip] returns what [decode_array] returns for the
    [encode_array] of the saved array, and an array that does not encode
    leaves the file system untouched. *)
Theorem array_zip_roundtrip `{NativeCodec} `{Platform} `{JsonLib} `{ZipLib} (A : ndarray)
  (p dn mn : string) (fs : filesystem) :
  (forall err, encode_array A = Raise err ->
               save_array_to_zip A p dn mn fs = (fs, Raise err)) /\
  (forall e text,
     entry_name_ok dn = true ->
     entry_name_ok mn = true ->
     dn <> mn ->
     encode_array A = Ok e ->
     json_dumps (Some 2%nat) (array_metadata e) = Ok text ->
     json_loads_bytes (str_encode text) = Ok (array_metadata e) ->
     zip_parse (zip_image (array_archive e dn mn text))
       = Some (array_archive e dn mn text) ->
     exists fs',
       save_array_to_zip A p dn mn fs = (fs', Ok tt) /\
       load_array_from_zip p dn mn fs' = encode_array A ≫= decode_array).
Proof.
  split.
  - intros err Herr. unfold save_array_to_zip. now rewrite run_bind, run_lift, Herr.
  - intros e text Hdn%entry_name_ok_nonempty Hmn%entry_name_ok_nonempty Hne Henc Hdumps
      Hloads Hzip.
    exists (<[p := zip_image (array_archive e dn mn text)]> fs). split.
    + unfold save_array_to_zip. rewrite run_bind, run_lift, Henc. cbv beta iota.
      now apply save_encoded_array_to_zip_run.
    + unfold load_array_from_zip.
      rewrite (load_array_archive e p dn mn fs text Hne Hloads Hzip).
      now rewrite Henc.
Qed.

(** The round trip of X5 for the int32 array [7, -100, 16777216]. *)
Lemma array_zip_roundtrip_witness :
  exists fs',
    save_array_to_zip (H := RawCodec.lib) (H0 := RefJson.lib) (H1 := RefZip.lib)
      example_int32_array "array.zip" "data.bin" "metadata.json" ∅ = (fs', Ok tt) /\
    load_array_from_zip (H := RawCodec.lib) (H0 := RawCodec.platform) (H1 := RefJson.lib)
      (H2 := RefZip.lib) "array.zip" "data.bin" "metadata.json" fs'
    = encode_array (H := RawCodec.lib) example_int32_array
      ≫= decode_array (H := RawCodec.lib) (H0 := RawCodec.platform).
Proof.
  apply (proj2 (array_zip_roundtrip (H := RawCodec.lib) (H0 := RawCodec.platform)
                  (H1 := RefJson.lib) (H2 := RefZip.lib) example_int32_array
                  "array.zip" "data.bin" "metadata.json" ∅)
           example_encoded_int32_array
           (text_of (RefJson.dumps (Some 2%nat)
                       (array_metadata example_encoded_int32_array))));
    [reflexivity | reflexivity | discriminate | vm_compute; reflexivity ..].
Defined.

(** ** The combined bundle *)











Lemma load_combined_run `{JsonLib} `{ZipLib} (p mesh_dir arrays_dir : string)
  (fs : filesystem) (z : archive) :
  zip_parse (zip_image z) = Some z ->
  load_combined_data_from_zip p mesh_dir arrays_dir (<[p := zip_image z]> fs)
  = try_except (read_combined_bundle z mesh_dir arrays_dir)
      (fun e =>
         match e with
         | BadZipFile => Raise (ValueError (Some e))
         | KeyError _ => Raise (ValueError (Some e))
         | _ => Raise (OSError (Some e))
         end).
Proof.
  intros Hz. unfold load_combined_data_from_zip.
  rewrite bool_decide_eq_false_2 by (rewrite lookup_insert_eq; discriminate).
  unfold with_zip_r. now rewrite lookup_insert_eq, Hz.
Qed.





(** X8. The archive that the failed save of a mesh without indices leaves
    behind holds the vertices alone, and the combined loader rejects it with
    a [ValueError] for the absent [mesh/indices.bin]: a mesh without indices
    has no combined bundle at all. *)
Theorem combined_save_without_indices_leftover `{JsonLib} `{ZipLib} (m : EncodedMesh)
  (items : list (string * EncodedArray)) (metadata : option json) (p : string)
  (fs : filesystem) :
  indices m = None ->
  items <> [] ->
  zip_parse (zip_image [("mesh/vertices.bin", vertices m)])
    = Some [("mesh/vertices.bin", vertices m)] ->
  exists fs',
    save_combined_data_to_zip (Some m) items metadata p "mesh" "arrays" fs
      = (fs', Raise (OSError (Some TypeError))) /\
    load_combined_data_from_zip p "mesh" "arrays" fs'
      = Raise (ValueError (Some (KeyError "mesh/indices.bin"))).
Proof.
  intros Hi Hne Hzip.
  exists (<[p := zip_image [("mesh/vertices.bin", vertices m)]]> fs). split.
  - unfold save_combined_data_to_zip. destruct items as [|a rest]; [congruence|].
    unfold reraise_as_IOError, with_zip_w, write_combined_bundle.
    rewrite !run_bind. rewrite writestr_app by discriminate. cbv beta iota.
    rewrite ?run_bind, Hi. rewrite writestr_app by discriminate. reflexivity.
  - rewrite load_combined_run by exact Hzip. reflexivity.
Qed.

(** A mesh without indices and one array. *)
Lemma combined_save_without_indices_leftover_witness :
  exists fs',
    save_combined_data_to_zip (H := RefJson.lib) (H0 := RefZip.lib)
      (Some example_mesh_without_indices) [("normals", example_encoded_array)] None
      "bundle.zip" "mesh" "arrays" ∅ = (fs', Raise (OSError (Some TypeError))) /\
    load_combined_data_from_zip (H := RefJson.lib) (H0 := RefZip.lib) "bundle.zip"
      "mesh" "arrays" fs'
    = Raise (ValueError (Some (KeyError "mesh/indices.bin"))).
Proof.
  apply (combined_save_without_indices_leftover (H := RefJson.lib) (H0 := RefZip.lib)
           example_mesh_without_indices [("normals", example_encoded_array)] None
           "bundle.zip" ∅).
  - reflexivity.
  - discriminate.
  - vm_compute. reflexivity.
Defined.

(** X9. The exceptions of [load_combined_data_from_zip]: [FileNotFoundError]
    exactly when the path does not exist; otherwise a [ValueError] whose
    context is [BadZipFile] or a [KeyError], or an [IOError] whose context
    is any other exception.  No exception of [zipfile], of [json] or of the
    construction of the records gets out as it is; in particular a mesh
    metadata that lacks [vertex_count] is reported with the [ValueError] of
    a missing entry. *)
Theorem load_combined_error_classes `{JsonLib} `{ZipLib} (p mesh_dir arrays_dir : string)
  (fs : filesystem) :
  (load_combined_data_from_zip p mesh_dir arrays_dir fs = Raise FileNotFoundError
   <-> fs !! p = None) /\
  (forall e,
     load_combined_data_from_zip p mesh_dir arrays_dir fs = Raise e ->
     e = FileNotFoundError \/
     (exists c, e = ValueError (Some c) /\ (c = BadZipFile \/ exists k, c = KeyError k)) \/
     (exists c, e = OSError (Some c) /\ c <> BadZipFile /\ forall k, c <> KeyError k)) /\
  (forall content z bv bi bm d,
     fs !! p = Some content ->
     zip_parse content = Some z ->
     zip_read z (mesh_dir +:+ "/vertices.bin") = Ok bv ->
     zip_read z (mesh_dir +:+ "/indices.bin") = Ok bi ->
     zip_read z (mesh_dir +:+ "/metadata.json") = Ok bm ->
     json_loads_bytes bm = Ok (JObj d) ->
     dict_get "vertex_count" d = None ->
     load_combined_data_from_zip p mesh_dir arrays_dir fs
       = Raise (ValueError (Some (KeyError "vertex_count")))).
Proof.
  split; [|split].
  - unfold load_combined_data_from_zip. destruct (fs !! p) as [content|] eqn:Hp.
    + rewrite bool_decide_eq_false_2 by discriminate. split; [|discriminate].
      destruct (with_zip_r _ _ _) as [?|e]; [discriminate|]. destruct e; discriminate.
    + rewrite bool_decide_eq_true_2 by reflexivity. split; reflexivity.
  - intros e. unfold load_combined_data_from_zip.
    destruct (bool_decide _); [intros [= <-]; now left|].
    destruct (with_zip_r _ _ _) as [?|c]; [discriminate|].
    destruct c; intros [= <-]; right;
      solve [ left; eexists; split; [reflexivity|]; (now left) || (right; eauto)
            | right; eexists; split; [reflexivity|]; split; [discriminate|];
              intros ?; discriminate ].
  - intros content z bv bi bm d Hp Hz Hv Hi Hm Hd Hk.
    unfold load_combined_data_from_zip.
    rewrite bool_decide_eq_false_2 by (rewrite Hp; discriminate).
    unfold with_zip_r. rewrite Hp, Hz.
    unfold read_combined_bundle, read_combined_mesh. rewrite Hv, Hi, Hm.
    cbn [mbind result_bind]. rewrite Hd. cbn [mbind result_bind py_getitem].
    rewrite Hk. reflexivity.
Qed.

(** An archive whose mesh metadata is the empty dictionary. *)
Lemma load_combined_error_classes_witness :
  load_combined_data_from_zip (H := RefJson.lib) (H0 := RefZip.lib) "bundle.zip"
    "mesh" "arrays"
    {[ "bundle.zip" := RefZip.image [("mesh/vertices.bin", [x0a]);
                                     ("mesh/indices.bin", [x0b]);
                                     ("mesh/metadata.json", [x7b; x7d])] ]}
  = Raise (ValueError (Some (KeyError "vertex_count"))).
Proof.
  apply (proj2 (proj2 (load_combined_error_classes (H := RefJson.lib) (H0 := RefZip.lib)
                         "bundle.zip" "mesh" "arrays" _))
           (RefZip.image [("mesh/vertices.bin", [x0a]); ("mesh/indices.bin", [x0b]);
                          ("mesh/metadata.json", [x7b; x7d])])
           [("mesh/vertices.bin", [x0a]); ("mesh/indices.bin", [x0b]);
            ("mesh/metadata.json", [x7b; x7d])]
           [x0a] [x0b] [x7b; x7d] []);
    vm_compute; reflexivity.
Defined.

(** ** One mesh in a zip archive *)

Lemma save_encoded_mesh_to_zip_run `{JsonLib} `{ZipLib} (m : EncodedMesh)
  (p vn iname mn : string) (fs : filesystem) (text : string) :
  vn <> "" -> iname <> "" -> mn <> "" ->
  json_dumps (Some 2%nat) (JObj (mesh_metadata m)) = Ok text ->
  save_encoded_mesh_to_zip m p vn iname mn fs
  = (<[p := zip_image (named_mesh_archive m vn iname mn text)]> fs, Ok tt).
Proof.
  intros Hvn Hin Hmn Hdumps.
  unfold save_encoded_mesh_to_zip, with_zip_w, named_mesh_archive.
  rewrite run_bind, writestr_nonempty by exact Hvn. cbv beta iota.
  destruct (indices m) as [i|].
  - rewrite run_bind, writestr_nonempty by exact Hin. cbv beta iota.
    rewrite run_bind, run_lift, Hdumps. cbv beta iota.
    unfold writestr_text. rewrite writestr_nonempty by exact Hmn. reflexivity.
  - rewrite run_bind, run_ret, run_bind, run_lift, Hdumps. cbv beta iota.
    unfold writestr_text. rewrite writestr_nonempty by exact Hmn. reflexivity.
Qed.

Lemma mesh_of_metadata (m : EncodedMesh) (v : bytes) (i : option bytes) :
  (vc ← py_getitem (JObj (mesh_metadata m)) "vertex_count" ≫= as_int;
   vs ← py_getitem (JObj (mesh_metadata m)) "vertex_size" ≫= as_int;
   ic ← py_get (JObj (mesh_metadata m)) "index_count" ≫= as_optional_int;
   isz ← py_getitem (JObj (mesh_metadata m)) "index_size" ≫= as_int;
   Ok {| vertices := v; indices := i; vertex_count := vc; vertex_size := vs;
         index_count := ic; index_size := isz |})
  = Ok {| vertices := v; indices := i; vertex_count := vertex_count m;
          vertex_size := vertex_size m; index_count := index_count m;
          index_size := index_size m |}.
Proof. unfold mesh_metadata. destruct (index_count m); reflexivity. Qed.

Lemma load_named_mesh_archive `{JsonLib} `{ZipLib} (m : EncodedMesh)
  (p vn iname mn : string) (fs : filesystem) (text : string) :
  vn <> iname -> vn <> mn -> iname <> mn ->
  json_loads_bytes (str_encode text) = Ok (JObj (mesh_metadata m)) ->
  zip_parse (zip_image (named_mesh_archive m vn iname mn text))
    = Some (named_mesh_archive m vn iname mn text) ->
  load_encoded_mesh_from_zip p vn iname mn
    (<[p := zip_image (named_mesh_archive m vn iname mn text)]> fs) = Ok m.
Proof.
  intros Hvi Hvm Him Hloads Hzip.
  unfold load_encoded_mesh_from_zip, with_zip_r. rewrite lookup_insert_eq, Hzip.
  assert (Eim : String.eqb iname mn = false) by now apply String.eqb_neq.
  assert (Eiv : String.eqb iname vn = false) by (apply String.eqb_neq; congruence).
  assert (Evm : String.eqb vn mn = false) by now apply String.eqb_neq.
  assert (Evi : String.eqb vn iname = false) by now apply String.eqb_neq.
  unfold named_mesh_archive. destruct (indices m) as [i|] eqn:Hi.
  - unfold zip_read, in_namelist. cbn [app rev dict_get namelist fmap list_fmap fst existsb].
    rewrite !String.eqb_refl, ?Eim, ?Eiv, ?Evm, ?Evi. cbn [orb mbind result_bind fmap result_fmap].
    rewrite Hloads. cbn [mbind result_bind].
    rewrite mesh_of_metadata. destruct m; simpl in Hi; now subst.
  - unfold zip_read, in_namelist. cbn [app rev dict_get namelist fmap list_fmap fst existsb].
    rewrite !String.eqb_refl, ?Eim, ?Eiv, ?Evm, ?Evi. cbn [orb mbind result_bind].
    rewrite Hloads. cbn [mbind result_bind].
    rewrite mesh_of_metadata. destruct m; simpl in Hi; now subst.
Qed.

(** X10. The round trip of an encoded mesh through a zip archive holds for
    any three entry names that [zipfile] keeps as they are and that are
    pairwise distinct, not only for the default ones; the archive has no
    entry for the indices of a mesh that has none. *)
Theorem encoded_mesh_zip_names_roundtrip `{JsonLib} `{ZipLib} (m : EncodedMesh)
  (p vn iname mn : string) (fs : filesystem) (text : string) :
  entry_name_ok vn = true -> entry_name_ok iname = true -> entry_name_ok mn = true ->
  vn <> iname -> vn <> mn -> iname <> mn ->
  json_dumps (Some 2%nat) (JObj (mesh_metadata m)) = Ok text ->
  json_loads_bytes (str_encode text) = Ok (JObj (mesh_metadata m)) ->
  zip_parse (zip_image (named_mesh_archive m vn iname mn text))
    = Some (named_mesh_archive m vn iname mn text) ->
  exists fs',
    save_encoded_mesh_to_zip m p vn iname mn fs = (fs', Ok tt) /\
    fs' !! p = Some (zip_image (named_mesh_archive m vn iname mn text)) /\
    load_encoded_mesh_from_zip p vn iname mn fs' = Ok m.
Proof.
  intros Hvn%entry_name_ok_nonempty Hin%entry_name_ok_nonempty Hmn%entry_name_ok_nonempty
    Hvi Hvm Him Hdumps Hloads Hzip.
  exists (<[p := zip_image (named_mesh_archive m vn iname mn text)]> fs).
  split; [now apply save_encoded_mesh_to_zip_run|].
  split; [apply lookup_insert_eq|]. now apply load_named_mesh_archive.
Qed.

(** The round trip of X10 for the entry names [v.bin], [i.bin] and [m.json]. *)
Lemma encoded_mesh_zip_names_roundtrip_witness :
  exists fs',
    save_encoded_mesh_to_zip (H := RefJson.lib) (H0 := RefZip.lib) example_mesh
      "mesh.zip" "v.bin" "i.bin" "m.json" ∅ = (fs', Ok tt) /\
    fs' !! "mesh.zip"
    = Some (RefZip.image
              (named_mesh_archive example_mesh "v.bin" "i.bin" "m.json"
                 (text_of (RefJson.dumps (Some 2%nat)
                             (JObj (mesh_metadata example_mesh)))))) /\
    load_encoded_mesh_from_zip (H := RefJson.lib) (H0 := RefZip.lib)
      "mesh.zip" "v.bin" "i.bin" "m.json" fs' = Ok example_mesh.
Proof.
  apply (encoded_mesh_zip_names_roundtrip (H := RefJson.lib) (H0 := RefZip.lib)
           example_mesh "mesh.zip" "v.bin" "i.bin" "m.json" ∅
           (text_of (RefJson.dumps (Some 2%nat) (JObj (mesh_metadata example_mesh)))));
    [reflexivity | reflexivity | reflexivity | discriminate | discriminate | discriminate
    | vm_compute; reflexivity ..].
Defined.

(** X11. The names must differ: when a mesh without indices is saved with
    the name of the vertices entry, one that [zipfile] keeps as it is, given
    for the indices too, the load succeeds and returns a mesh whose indices
    are the vertex data. *)
Theorem encoded_mesh_zip_shared_name `{JsonLib} `{ZipLib} (m : EncodedMesh)
  (p vn mn : string) (fs : filesystem) (text : string) :
  entry_name_ok vn = true -> entry_name_ok mn = true ->
  indices m = None ->
  vn <> mn ->
  json_dumps (Some 2%nat) (JObj (mesh_metadata m)) = Ok text ->
  json_loads_bytes (str_encode text) = Ok (JObj (mesh_metadata m)) ->
  zip_parse (zip_image (named_mesh_archive m vn vn mn text))
    = Some (named_mesh_archive m vn vn mn text) ->
  exists fs' m',
    save_encoded_mesh_to_zip m p vn vn mn fs = (fs', Ok tt) /\
    load_encoded_mesh_from_zip p vn vn mn fs' = Ok m' /\
    indices m' = Some (vertices m) /\ m' <> m.
Proof.
  intros Hvn%entry_name_ok_nonempty Hmn%entry_name_ok_nonempty Hi Hvm Hdumps Hloads Hzip.
  exists (<[p := zip_image (named_mesh_archive m vn vn mn text)]> fs).
  exists {| vertices := vertices m; indices := Some (vertices m);
            vertex_count := vertex_count m; vertex_size := vertex_size m;
            index_count := index_count m; index_size := index_size m |}.
  split; [now apply save_encoded_mesh_to_zip_run|]. split; [|split].
  - unfold load_encoded_mesh_from_zip, with_zip_r. rewrite lookup_insert_eq, Hzip.
    assert (Evm : String.eqb vn mn = false) by now apply String.eqb_neq.
    unfold named_mesh_archive. rewrite Hi.
    unfold zip_read, in_namelist. cbn [app rev dict_get namelist fmap list_fmap fst existsb].
    rewrite !String.eqb_refl, ?Evm. cbn [orb mbind result_bind fmap result_fmap].
    rewrite Hloads. cbn [mbind result_bind].
    now rewrite mesh_of_metadata.
  - reflexivity.
  - intros Heq. rewrite <- Heq in Hi. discriminate Hi.
Qed.

(** A mesh without indices saved with [mesh.bin] as the name of both entries. *)
Lemma encoded_mesh_zip_shared_name_witness :
  exists fs' m',
    save_encoded_mesh_to_zip (H := RefJson.lib) (H0 := RefZip.lib)
      example_mesh_without_indices "mesh.zip" "mesh.bin" "mesh.bin" "metadata.json" ∅
      = (fs', Ok tt) /\
    load_encoded_mesh_from_zip (H := RefJson.lib) (H0 := RefZip.lib)
      "mesh.zip" "mesh.bin" "mesh.bin" "metadata.json" fs' = Ok m' /\
    indices m' = Some (vertices example_mesh_without_indices) /\
    m' <> example_mesh_without_indices.
Proof.
  apply (encoded_mesh_zip_shared_name (H := RefJson.lib) (H0 := RefZip.lib)
           example_mesh_without_indices "mesh.zip" "mesh.bin" "metadata.json" ∅
           (text_of (RefJson.dumps (Some 2%nat)
                       (JObj (mesh_metadata example_mesh_without_indices)))));
    [reflexivity | reflexivity | reflexivity | discriminate | vm_compute; reflexivity ..].
Defined.

(** X12. [save_mesh_to_zip] followed by [load_mesh_from_zip], under entry
    names that [zipfile] keeps as they are and that are pairwise distinct,
    decodes exactly the encoded mesh that [mesh.encode()] returned: the
    loaded object is [mesh_class.decode] of it, whatever the two methods
    are, and for the class [Mesh] it is [Mesh.decode] of it with the default
    arguments.  A mesh whose [encode] raises leaves the file system
    untouched. *)
Theorem mesh_zip_roundtrip `{JsonLib} `{ZipLib} `{MeshDecoder} {M M' : Type}
  (encode : M -> result EncodedMesh) (decode : EncodedMesh -> result M') (mesh : M)
  (p vn iname mn : string) (fs : filesystem) :
  (forall err, encode mesh = Raise err ->
               save_mesh_to_zip encode mesh p vn iname mn fs = (fs, Raise err)) /\
  (forall m text,
     entry_name_ok vn = true -> entry_name_ok iname = true -> entry_name_ok mn = true ->
     vn <> iname -> vn <> mn -> iname <> mn ->
     encode mesh = Ok m ->
     json_dumps (Some 2%nat) (JObj (mesh_metadata m)) = Ok text ->
     json_loads_bytes (str_encode text) = Ok (JObj (mesh_metadata m)) ->
     zip_parse (zip_image (named_mesh_archive m vn iname mn text))
       = Some (named_mesh_archive m vn iname mn text) ->
     exists fs',
       save_mesh_to_zip encode mesh p vn iname mn fs = (fs', Ok tt) /\
       load_mesh_from_zip decode p vn iname mn fs' = decode m /\
       load_mesh_from_zip Mesh_decode_encoded p vn iname mn fs'
         = Mesh_decode (AsEncodedMesh m) None None None 4).
Proof.
  split.
  - intros err Herr. unfold save_mesh_to_zip. now rewrite run_bind, run_lift, Herr.
  - intros m text Hvn%entry_name_ok_nonempty Hin%entry_name_ok_nonempty
      Hmn%entry_name_ok_nonempty Hvi Hvm Him Henc Hdumps Hloads Hzip.
    exists (<[p := zip_image (named_mesh_archive m vn iname mn text)]> fs).
    split; [|split].
    + unfold save_mesh_to_zip. rewrite run_bind, run_lift, Henc. cbv beta iota.
      now apply save_encoded_mesh_to_zip_run.
    + unfold load_mesh_from_zip.
      now rewrite (load_named_mesh_archive m p vn iname mn fs text Hvi Hvm Him Hloads Hzip).
    + unfold load_mesh_from_zip.
      now rewrite (load_named_mesh_archive m p vn iname mn fs text Hvi Hvm Him Hloads Hzip).
Qed.

(** The composition of X12 with the identity as the two methods, and with [Mesh.decode] on the stand-in decoder. *)
Lemma mesh_zip_roundtrip_witness :
  exists fs',
    save_mesh_to_zip (H := RefJson.lib) (H0 := RefZip.lib) Ok example_mesh
      "mesh.zip" "vertices.bin" "indices.bin" "metadata.json" ∅ = (fs', Ok tt) /\
    load_mesh_from_zip (H := RefJson.lib) (H0 := RefZip.lib) Ok
      "mesh.zip" "vertices.bin" "indices.bin" "metadata.json" fs' = Ok example_mesh /\
    load_mesh_from_zip (H := RefJson.lib) (H0 := RefZip.lib)
      (Mesh_decode_encoded (H := example_decoder))
      "mesh.zip" "vertices.bin" "indices.bin" "metadata.json" fs'
    = Mesh_decode (H := example_decoder) (AsEncodedMesh example_mesh) None None None 4.
Proof.
  apply (proj2 (mesh_zip_roundtrip (H := RefJson.lib) (H0 := RefZip.lib)
                  (H1 := example_decoder) Ok Ok example_mesh
                  "mesh.zip" "vertices.bin" "indices.bin" "metadata.json" ∅)
           example_mesh
           (text_of (RefJson.dumps (Some 2%nat) (JObj (mesh_metadata example_mesh)))));
    [reflexivity | reflexivity | reflexivity | discriminate | discriminate | discriminate
    | vm_compute; reflexivity ..].
Defined.

(** X13. What [load_encoded_mesh_from_zip] does with an incomplete archive.
    The exceptions of [zipfile] come out as they are, and an absent metadata
    or vertices entry is the [KeyError] of its name, the metadata first.  An
    absent indices entry is no error: the mesh is loaded without indices,
    and keeps the index count of the metadata, which is not checked against
    the entries. *)
Theorem load_encoded_mesh_incomplete `{JsonLib} `{ZipLib} (p vn iname mn : string)
  (fs : filesystem) :
  (fs !! p = None -> load_encoded_mesh_from_zip p vn iname mn fs = Raise FileNotFoundError) /\
  (forall content,
     fs !! p = Some content -> zip_parse content = None ->
     load_encoded_mesh_from_zip p vn iname mn fs = Raise BadZipFile) /\
  (forall content z,
     fs !! p = Some content -> zip_parse content = Some z ->
     (mn ∉ namelist z -> load_encoded_mesh_from_zip p vn iname mn fs = Raise (KeyError mn)) /\
     (forall metadata,
        zip_read z mn ≫= json_loads_bytes = Ok metadata -> vn ∉ namelist z ->
        load_encoded_mesh_from_zip p vn iname mn fs = Raise (KeyError vn)) /\
     (forall m v,
        zip_read z mn ≫= json_loads_bytes = Ok (JObj (mesh_metadata m)) ->
        zip_read z vn = Ok v ->
        iname ∉ namelist z ->
        load_encoded_mesh_from_zip p vn iname mn fs
        = Ok {| vertices := v; indices := None; vertex_count := vertex_count m;
                vertex_size := vertex_size m; index_count := index_count m;
                index_size := index_size m |})).
Proof.
  split; [|split].
  - intros Hp. unfold load_encoded_mesh_from_zip, with_zip_r. now rewrite Hp.
  - intros content Hp Hz. unfold load_encoded_mesh_from_zip, with_zip_r.
    now rewrite Hp, Hz.
  - intros content z Hp Hz. unfold load_encoded_mesh_from_zip, with_zip_r.
    rewrite Hp, Hz. split; [|split].
    + intros Habs. now rewrite (zip_read_absent _ _ Habs).
    + intros metadata -> Habs. cbn [mbind result_bind].
      now rewrite (zip_read_absent _ _ Habs).
    + intros m v -> -> Habs. cbn [mbind result_bind].
      assert (Hn : in_namelist iname z = false).
      { destruct (in_namelist iname z) eqn:E; [|reflexivity].
        apply in_namelist_spec in E. contradiction. }
      rewrite Hn. cbn [mbind result_bind]. apply mesh_of_metadata.
Qed.

(** An archive that announces 36 indices and holds no indices entry. *)
Lemma load_encoded_mesh_incomplete_witness :
  load_encoded_mesh_from_zip (H := RefJson.lib) (H0 := RefZip.lib) "mesh.zip"
    "vertices.bin" "indices.bin" "metadata.json"
    {[ "mesh.zip" := RefZip.image example_archive_without_indices ]}
  = Ok {| vertices := vertices example_mesh; indices := None; vertex_count := 8;
          vertex_size := 12; index_count := Some 36; index_size := 4 |}.
Proof.
  refine (proj2 (proj2 (proj2 (proj2
            (load_encoded_mesh_incomplete (H := RefJson.lib) (H0 := RefZip.lib) "mesh.zip"
               "vertices.bin" "indices.bin" "metadata.json"
               {[ "mesh.zip" := RefZip.image example_archive_without_indices ]}))
            (RefZip.image example_archive_without_indices)
            example_archive_without_indices _ _))
            example_mesh (vertices example_mesh) _ _ _).
  - reflexivity.
  - vm_compute. reflexivity.
  - vm_compute. reflexivity.
  - reflexivity.
  - unfold namelist. cbn. intros Hin.
    repeat (apply elem_of_cons in Hin as [Hin|Hin]; [discriminate Hin|]).
    now apply elem_of_nil in Hin.
Defined.

(** ** Several arrays in a zip archive *)





(** X15. The several-arrays loader does not read the archive of a single
    array, saved with a data name that [zipfile] keeps as it is, although
    both keep their metadata in [metadata.json]: the members of the
    single-array metadata are taken for arrays, and the first of them, the
    shape, is a list that has no [filename] ([TypeError]). *)
Theorem load_arrays_from_single_array_archive `{NativeCodec} `{Platform} `{JsonLib}
  `{ZipLib} (e : EncodedArray) (p dn : string) (fs : filesystem) (text : string) :
  entry_name_ok dn = true ->
  json_dumps (Some 2%nat) (array_metadata e) = Ok text ->
  json_loads_bytes (str_encode text) = Ok (array_metadata e) ->
  zip_parse (zip_image (array_archive e dn "metadata.json" text))
    = Some (array_archive e dn "metadata.json" text) ->
  exists fs',
    save_encoded_array_to_zip e p dn "metadata.json" fs = (fs', Ok tt) /\
    load_arrays_from_zip p fs' = Raise TypeError.
Proof.
  intros Hdn%entry_name_ok_nonempty Hdumps Hloads Hzip.
  exists (<[p := zip_image (array_archive e dn "metadata.json" text)]> fs).
  split; [now apply save_encoded_array_to_zip_run|].
  unfold load_arrays_from_zip, with_zip_r. rewrite lookup_insert_eq, Hzip.
  unfold array_archive. rewrite zip_read_pair_snd. cbn [mbind result_bind].
  rewrite Hloads. reflexivity.
Qed.

(** The archive of one array under the default names. *)
Lemma load_arrays_from_single_array_archive_witness :
  exists fs',
    save_encoded_array_to_zip (H := RefJson.lib) (H0 := RefZip.lib)
      example_encoded_array "array.zip" "data.bin" "metadata.json" ∅ = (fs', Ok tt) /\
    load_arrays_from_zip (H := RawCodec.lib) (H0 := RawCodec.platform) (H1 := RefJson.lib)
      (H2 := RefZip.lib) "array.zip" fs' = Raise TypeError.
Proof.
  apply (load_arrays_from_single_array_archive (H := RawCodec.lib)
           (H0 := RawCodec.platform) (H1 := RefJson.lib) (H2 := RefZip.lib)
           example_encoded_array "array.zip" "data.bin" ∅
           (text_of (RefJson.dumps (Some 2%nat) (array_metadata example_encoded_array))));
    [reflexivity | vm_compute; reflexivity ..].
Defined.

(** ** The array codec *)

(** X16. An array without dimensions can be encoded but not decoded: for
    every record that [encode_array] returns for it, [decode_array] raises a
    [TypeError], since the product over the empty shape is a float and no
    number of items.  The same holds for the file written for such an
    array. *)
Theorem zero_dimensional_array_not_decodable `{NativeCodec} `{Platform} `{JsonLib}
  (A : ndarray) (e : EncodedArray) :
  nd_shape A = [] ->
  encode_array A = Ok e ->
  decode_array e = Raise TypeError /\
  (forall p fs, load_encoded_array_from_file p fs = Ok e ->
                load_array_from_file p fs = Raise TypeError).
Proof.
  intros Hs Henc. destruct (encode_array_fields A e Henc) as (Hshape & _ & _).
  assert (Hd : decode_array e = Raise TypeError).
  { apply decode_array_no_dimension. congruence. }
  split; [exact Hd|]. intros p fs Hload. unfold load_array_from_file.
  rewrite Hload. exact Hd.
Qed.

(** The float32 scalar 1.5. *)
Lemma zero_dimensional_array_not_decodable_witness :
  decode_array (H := RawCodec.lib) (H0 := RawCodec.platform)
    {| data := [x01; x00; x00; xc0; x3f]; shape := []; dtype := float32; itemsize := 4 |}
  = Raise TypeError.
Proof.
  apply (zero_dimensional_array_not_decodable (H := RawCodec.lib)
           (H0 := RawCodec.platform) (H1 := RefJson.lib) example_scalar_array
           {| data := [x01; x00; x00; xc0; x3f]; shape := []; dtype := float32;
              itemsize := 4 |}).
  - reflexivity.
  - vm_compute. reflexivity.
Defined.

(** X17. The length of an encoded array, as [len] returns it, is the size
    that the native encoder reported, cut to the bound: the data are never
    longer than the buffer that was allocated for them. *)
Theorem encode_array_length `{NativeCodec} (A : ndarray) (e : EncodedArray) :
  encode_array A = Ok e ->
  let item_count := Z.of_nat (length (nd_flat A)) in
  let bound := meshopt_encodeVertexBufferBound item_count 4 in
  let call := meshopt_encodeVertexBuffer bound (native_items A) item_count 4 in
  fst call <> 0%N /\
  EncodedArray_len e = Z.min (Z.of_N (fst call)) (Z.of_N bound) /\
  0 <= EncodedArray_len e <= Z.of_N bound.
Proof.
  intros Henc item_count bound call. subst call bound item_count.
  rewrite <- (native_items_length A).
  rewrite encode_array_run in Henc. cbv zeta in Henc.
  destruct (meshopt_encodeVertexBuffer _ _ _ _) as [result_size stored].
  cbn [fst snd] in *. destruct (N.eqb_spec result_size 0) as [|Hnz]; [discriminate|].
  injection Henc as <-. unfold EncodedArray_len. cbn [data].
  rewrite length_take, write_into_length, length_replicate.
  split; [exact Hnz|]. lia.
Qed.

(** The int32 array of three items takes one header byte and twelve bytes of items. *)
Lemma encode_array_length_witness :
  EncodedArray_len example_encoded_int32_array = 13.
Proof.
  apply (proj1 (proj2 (encode_array_length (H := RawCodec.lib) example_int32_array
                         example_encoded_int32_array ltac:(vm_compute; reflexivity)))).
Defined.

(** X18. An array that [decode_array] returns is well shaped whatever the
    native decoder stored: it has the shape and the dtype of the record, at
    least one dimension, no negative dimension, and as many elements as the
    product of its dimensions; and the decoder reported success. *)
Theorem decode_array_well_shaped `{NativeCodec} `{Platform} (e : EncodedArray)
  (A : ndarray) :
  decode_array e = Ok A ->
  nd_shape A = shape e /\
  nd_dtype A = dtype e /\
  shape e <> [] /\
  Forall (fun d => 0 <= d) (shape e) /\
  Z.of_nat (length (nd_flat A)) = fold_right Z.mul 1 (shape e) /\
  fst (meshopt_decodeVertexBuffer (fold_right Z.mul 1 (shape e)) (itemsize e) (data e)
         (Z.of_nat (length (data e)))) = 0.
Proof.
  unfold decode_array. destruct (np_prod (shape e)) as [n|f] eqn:Hp; [|discriminate].
  assert (Hne : shape e <> []).
  { intros Hs. rewrite Hs in Hp. discriminate Hp. }
  cbn [np_zeros_float32].
  destruct (Z.ltb_spec n 0) as [|Hn]; [discriminate|].
  destruct (np_zeros_refused n); [discriminate|].
  cbn [mbind result_bind].
  destruct (meshopt_decodeVertexBuffer n _ _ _) as [status stored] eqn:Hcall.
  destruct (Z.eqb_spec status 0) as [->|]; [|discriminate].
  cbn [negb]. unfold np_reshape.
  destruct (forallb in_int64 (shape e)); [|discriminate].
  destruct (forallb (Z.leb 0) (shape e)) eqn:Hdims; [|discriminate].
  destruct (Z.eqb_spec (fold_right Z.mul 1 (shape e))
              (Z.of_nat (length (write_into (replicate (Z.to_nat n) (S754_zero false))
                                   stored)))) as [Hprod|]; [|discriminate].
  cbn [andb mbind result_bind]. intros [= <-]. cbn [nd_shape nd_dtype nd_flat].
  rewrite write_into_length, length_replicate in Hprod.
  assert (Hnp : n = fold_right Z.mul 1 (shape e)) by lia.
  split; [reflexivity|]. split; [reflexivity|]. split; [exact Hne|].
  split; [|split].
  - apply Forall_forall. intros d Hd. rewrite forallb_forall in Hdims.
    apply Z.leb_le. apply Hdims. now apply list_elem_of_In.
  - destruct (bool_decide _); rewrite length_map, write_into_length, length_replicate; lia.
  - rewrite <- Hnp, Hcall. reflexivity.
Qed.

(** The decoded int32 array of three items. *)
Lemma decode_array_well_shaped_witness :
  nd_shape example_int32_array = shape example_encoded_int32_array /\
  nd_dtype example_int32_array = dtype example_encoded_int32_array /\
  shape example_encoded_int32_array <> [] /\
  Forall (fun d => 0 <= d) (shape example_encoded_int32_array) /\
  Z.of_nat (length (nd_flat example_int32_array))
    = fold_right Z.mul 1 (shape example_encoded_int32_array) /\
  fst (RawCodec.decode (fold_right Z.mul 1 (shape example_encoded_int32_array))
         (itemsize example_encoded_int32_array) (data example_encoded_int32_array)
         (Z.of_nat (length (data example_encoded_int32_array)))) = 0.
Proof.
  apply (decode_array_well_shaped (H := RawCodec.lib) (H0 := RawCodec.platform)
           example_encoded_int32_array example_int32_array).
  vm_compute. reflexivity.
Defined.

(** X19. The exceptions of [decode_array] for a shape whose dimensions fit
    int64: a [TypeError] for a shape without dimensions; for the other
    shapes a [ValueError] when the product of the dimensions, as an int64,
    is negative, the exception of [np.zeros] ([ValueError] or [MemoryError])
    when the count is refused, and otherwise a [RuntimeError] exactly when
    the native decoder reports an error.  A shape with dimensions raises
    nothing else than a [ValueError], a [MemoryError] or a
    [RuntimeError]. *)
Theorem decode_array_errors `{NativeCodec} `{Platform} (e : EncodedArray) :
  (shape e = [] -> decode_array e = Raise TypeError) /\
  (shape e <> [] ->
   forallb in_int64 (shape e) = true ->
   let n := wrap_int64 (fold_right Z.mul 1 (shape e)) in
   (n < 0 -> decode_array e = Raise (ValueError None)) /\
   (0 <= n ->
    forall err, np_zeros_refused n = Some err ->
                decode_array e = Raise (exn_of_allocation err)) /\
   (0 <= n ->
    np_zeros_refused n = None ->
    (decode_array e = Raise RuntimeError
     <-> fst (meshopt_decodeVertexBuffer n (itemsize e) (data e)
                (Z.of_nat (length (data e)))) <> 0)) /\
   (forall err, decode_array e = Raise err ->
                err = ValueError None \/ err = MemoryError \/ err = RuntimeError)).
Proof.
  split; [apply decode_array_no_dimension|].
  intros Hne Hfit n. unfold decode_array.
  assert (Hp : np_prod (shape e) = SInt n).
  { unfold np_prod. destruct (shape e); [congruence|]. now rewrite Hfit. }
  rewrite Hp. cbn [np_zeros_float32].
  destruct (Z.ltb_spec n 0) as [Hneg|Hn].
  { cbn [mbind result_bind]. split; [reflexivity|].
    split; [lia|]. split; [lia|]. intros err [= <-]. now left. }
  destruct (np_zeros_refused n) as [refusal|] eqn:Hroom.
  { cbn [mbind result_bind]. split; [lia|]. split; [intros _ err [= <-]; reflexivity|].
    split; [discriminate|].
    intros err [= <-]. destruct refusal; [now left | right; now left]. }
  cbn [mbind result_bind].
  destruct (meshopt_decodeVertexBuffer n _ _ _) as [status stored].
  cbn [fst]. split; [lia|]. split; [discriminate|].
  destruct (Z.eqb_spec status 0) as [->|Hst]; cbn [negb].
  - unfold np_reshape. destruct (_ && _); cbn [mbind result_bind].
    + split; [|discriminate]. intros _ _. split; [discriminate|congruence].
    + split.
      * intros _ _. split; [discriminate|congruence].
      * intros err [= <-]. now left.
  - split.
    + intros _ _. split; [intros _; exact Hst|reflexivity].
    + intros err [= <-]. right. now right.
Qed.

(** A record of shape (2, -3). *)
Lemma decode_array_errors_witness :
  decode_array (H := RawCodec.lib) (H0 := RawCodec.platform)
    {| data := [x01]; shape := [2; -3]; dtype := float32; itemsize := 4 |}
  = Raise (ValueError None).
Proof.
  apply (proj1 (proj2 (decode_array_errors (H := RawCodec.lib)
                         (H0 := RawCodec.platform)
                         {| data := [x01]; shape := [2; -3]; dtype := float32;
                            itemsize := 4 |})
                  ltac:(discriminate) ltac:(vm_compute; reflexivity))).
  vm_compute. reflexivity.
Defined.
